(** * SAP sales pipeline: reconciliation, orchestration and search upload

    A shallow embedding of
      - [api-services/data-processing/process_sap_data.py]
        (class [SapDataProcessor] and the entry point [process_sap_data]);
      - [search-service/update_ai_search.py]
        (class [AISearchService] and the entry point [update_ai_search]);
      - [api-services/data-processing/function_app.py]
        (the HTTP trigger [process_sap_data_http]).

    The program manipulates pandas data frames.  A frame is modelled as a
    list of column labels together with a list of rows, every row being a
    list of cells aligned with the labels.  Frames live in a heap and are
    handled through references, because the Python code updates them in
    place ([df.columns = ...], [df['X'] = ...]).

    Numbers: SQL numeric columns reach pandas as [float64]/[int64] values.
    Finite values are modelled as exact rationals (rounding is abstracted
    away), a SQL NULL as [NA]; the IEEE infinities that float division can
    produce are kept as the cell [Inf]. *)

From Stdlib Require Import List String Ascii ZArith QArith Qcanon Bool Arith Lia.
From Stdlib Require Import Permutation DecimalString Sorted.
Import ListNotations.
Local Close Scope Qc_scope.
Local Close Scope Q_scope.
Local Open Scope nat_scope.
Local Open Scope string_scope.
Local Open Scope list_scope.

(* ================================================================== *)
(** ** Cells *)

Inductive cell : Type :=
| NA                    (* None, NaN or NaT *)
| Str (s : string)
| Num (q : Qc)          (* a finite int64 / float64 *)
| Inf (neg : bool)      (* float +inf ([neg = false]) or -inf *)
| Date (t : Z)          (* a timestamp, as an offset from the epoch *)
| Flag (b : bool).

Definition qz (z : Z) : Qc := Q2Qc (inject_Z z).
Definition qnat (n : nat) : Qc := qz (Z.of_nat n).

Definition is_na (c : cell) : bool :=
  match c with NA => true | _ => false end.

Definition notna (c : cell) : bool := negb (is_na c).

Definition cell_eqb (a b : cell) : bool :=
  match a, b with
  | NA, NA => true
  | Str x, Str y => String.eqb x y
  | Num x, Num y => Qc_eq_bool x y
  | Inf x, Inf y => Bool.eqb x y
  | Date x, Date y => Z.eqb x y
  | Flag x, Flag y => Bool.eqb x y
  | _, _ => false
  end.

(** The order pandas uses to sort group keys and to take a maximum.  Cells
    of one kind are compared by value; the columns of this program are
    homogeneous, the rank only makes the comparison total. *)
Definition cell_rank (c : cell) : nat :=
  match c with
  | NA => 0 | Flag _ => 1 | Num _ => 2 | Inf _ => 2 | Date _ => 3 | Str _ => 4
  end.

Definition cell_leb (a b : cell) : bool :=
  match a, b with
  | Str x, Str y => String.leb x y
  | Num x, Num y => Qle_bool x y
  | Date x, Date y => Z.leb x y
  | Flag x, Flag y => implb x y
  | Inf n, Inf m => n || negb m
  | Inf n, Num _ => n
  | Num _, Inf m => negb m
  | _, _ => Nat.leb (cell_rank a) (cell_rank b)
  end.

Definition cell_max (a b : cell) : cell := if cell_leb a b then b else a.

(** Float addition on cells; a cell that is not a number makes the sum
    undefined (no column of strings or dates is ever summed here). *)
Definition cell_add (a b : cell) : cell :=
  match a, b with
  | Num x, Num y => Num (x + y)%Qc
  | Inf n, Num _ => Inf n
  | Num _, Inf m => Inf m
  | Inf n, Inf m => if Bool.eqb n m then Inf n else NA
  | _, _ => NA
  end.

(** Division of a running sum by a positive count, for [mean]. *)
Definition cell_over (a : cell) (n : nat) : cell :=
  match a with
  | Num x => Num (x / qnat n)%Qc
  | Inf s => Inf s
  | _ => NA
  end.

(* ================================================================== *)
(** ** Exceptions and results *)

Inductive exn : Type :=
| KeyError (missing : list string)
| ValueError (msg : string)
| TypeError (msg : string)
| Failure (msg : string).      (* raised by an external service *)

Inductive result (A : Type) : Type :=
| Ok (a : A)
| Raise (e : exn).
Arguments Ok {A} a.
Arguments Raise {A} e.

Definition rbind {A B} (r : result A) (k : A -> result B) : result B :=
  match r with Ok a => k a | Raise e => Raise e end.

(** [x / y] on two float cells, as numpy does it: no exception, a division
    by zero gives an infinity of the sign of the numerator, and 0/0 is NaN.
    Dividing anything that is not a number is a [TypeError]. *)
Definition cell_div (a b : cell) : result cell :=
  match a, b with
  | NA, (NA | Num _ | Inf _) => Ok NA
  | (Num _ | Inf _), NA => Ok NA
  | Num x, Num y =>
      if Qc_eq_bool y 0%Qc then
        if Qc_eq_bool x 0%Qc then Ok NA
        else Ok (Inf (negb (Qle_bool 0%Q x)))
      else Ok (Num (x / y)%Qc)
  | Num _, Inf _ => Ok (Num 0%Qc)
  | Inf n, Num y => Ok (Inf (if Qle_bool 0%Q y then n else negb n))
  | Inf _, Inf _ => Ok NA
  | _, _ => Raise (TypeError "unsupported operand type(s) for /")
  end.

(* ================================================================== *)
(** ** Aggregations of [DataFrame.groupby(...).agg] *)

Inductive aggfn : Type := Count | Sum | Mean | Max | First.

Definition aggregate (f : aggfn) (xs : list cell) : cell :=
  let ys := filter notna xs in
  match f with
  | Count => Num (qnat (List.length ys))
  | Sum => fold_left cell_add ys (Num 0%Qc)
  | Mean =>
      match ys with
      | [] => NA
      | _ :: _ => cell_over (fold_left cell_add ys (Num 0%Qc)) (List.length ys)
      end
  | Max =>
      match ys with
      | [] => NA
      | y :: t => fold_left cell_max t y
      end
  | First => hd NA ys
  end.

(* ================================================================== *)
(** ** Data frames *)

Definition row := list cell.

Record DataFrame : Type := mkDF { columns : list string; rows : list row }.

(** [pd.DataFrame()] *)
Definition empty_frame : DataFrame := mkDF [] [].

(** [df.empty]: some axis has length 0. *)
Definition empty (df : DataFrame) : bool :=
  match columns df, rows df with
  | _ :: _, _ :: _ => false
  | _, _ => true
  end.

(** [len(df)] *)
Definition len (df : DataFrame) : nat := List.length (rows df).

Fixpoint index_of (c : string) (cols : list string) : option nat :=
  match cols with
  | [] => None
  | x :: t => if String.eqb x c then Some 0 else option_map S (index_of c t)
  end.

Definition has_column (cols : list string) (c : string) : bool :=
  existsb (String.eqb c) cols.

(** The cell of row [r] under label [c]; [NA] when the frame has no such
    column (which is how [reindex] and [concat] fill a missing column). *)
Definition cell_at (df : DataFrame) (c : string) (r : row) : cell :=
  match index_of c (columns df) with
  | Some i => nth i r NA
  | None => NA
  end.

Definition column_values (df : DataFrame) (c : string) : list cell :=
  map (cell_at df c) (rows df).

Definition missing_columns (wanted cols : list string) : list string :=
  filter (fun c => negb (has_column cols c)) wanted.

(** Group keys: the distinct non-null key values, in sorted order
    ([groupby] has [sort=True] and [dropna=True] by default). *)
Definition cell_eq_dec (a b : cell) : {a = b} + {a <> b}.
Proof.
  decide equality;
    first [apply Bool.bool_dec | apply Z.eq_dec | apply Qc_eq_dec | apply string_dec].
Defined.

Fixpoint insert_key (k : cell) (l : list cell) : list cell :=
  match l with
  | [] => [k]
  | x :: t => if cell_leb k x then k :: l else x :: insert_key k t
  end.

Definition sort_keys (l : list cell) : list cell := fold_right insert_key [] l.

Definition group_keys (ks : list cell) : list cell :=
  sort_keys (nodup cell_eq_dec (filter notna ks)).

Definition group (df : DataFrame) (key : string) (k : cell) : list row :=
  filter (fun r => cell_eqb (cell_at df key r) k) (rows df).

(** The row of the group with key [k]: the key, then one aggregate per
    entry of [spec], in the order of the dictionary. *)
Definition grouped_row (df : DataFrame) (key : string)
    (spec : list (string * aggfn)) (k : cell) : row :=
  k :: map (fun cf => aggregate (snd cf)
                        (map (cell_at df (fst cf)) (group df key k)))
           spec.

Definition grouped (df : DataFrame) (key : string)
    (spec : list (string * aggfn)) : DataFrame :=
  mkDF (key :: map fst spec)
       (map (grouped_row df key spec) (group_keys (column_values df key))).

(** [df.groupby(key).agg(spec).reset_index()]: one row per group key.  A
    label that [df] does not have is a [KeyError]. *)
Definition groupby_agg (key : string) (spec : list (string * aggfn))
    (df : DataFrame) : result DataFrame :=
  if negb (has_column (columns df) key) then Raise (KeyError [key])
  else
    match missing_columns (map fst spec) (columns df) with
    | (_ :: _) as miss => Raise (KeyError miss)
    | [] => Ok (grouped df key spec)
    end.

(** [df.columns = names] *)
Definition set_columns (names : list string) (df : DataFrame) : result DataFrame :=
  if Nat.eqb (List.length names) (List.length (columns df))
  then Ok (mkDF names (rows df))
  else Raise (ValueError "Length mismatch").

Fixpoint replace_nth (i : nat) (v : cell) (r : row) : row :=
  match i, r with
  | _, [] => []
  | O, _ :: t => v :: t
  | S j, x :: t => x :: replace_nth j v t
  end.

(** [df[c] = v] for a scalar [v]: overwrite the column, or append it. *)
Definition set_item (c : string) (v : cell) (df : DataFrame) : DataFrame :=
  match index_of c (columns df) with
  | Some i => mkDF (columns df) (map (replace_nth i v) (rows df))
  | None => mkDF (columns df ++ [c]) (map (fun r => r ++ [v]) (rows df))
  end.

(** [df[c] = series], the series being aligned with the rows of [df]. *)
Definition set_item_series (c : string) (vs : list cell) (df : DataFrame) : DataFrame :=
  match index_of c (columns df) with
  | Some i =>
      mkDF (columns df)
           (map (fun rv => replace_nth i (snd rv) (fst rv)) (combine (rows df) vs))
  | None =>
      mkDF (columns df ++ [c])
           (map (fun rv => fst rv ++ [snd rv]) (combine (rows df) vs))
  end.

(** [df[c]] read as a series *)
Definition get_item (c : string) (df : DataFrame) : result (list cell) :=
  if has_column (columns df) c then Ok (column_values df c)
  else Raise (KeyError [c]).

Definition reindex (cols : list string) (df : DataFrame) : list row :=
  map (fun r => map (fun c => cell_at df c r) cols) (rows df).

(** [df[[c1, ..., cn]]] *)
Definition select (cols : list string) (df : DataFrame) : result DataFrame :=
  match missing_columns cols (columns df) with
  | [] => Ok (mkDF cols (reindex cols df))
  | miss => Raise (KeyError miss)
  end.

Definition add_label (acc : list string) (c : string) : list string :=
  if has_column acc c then acc else acc ++ [c].

Definition union_columns (dfs : list DataFrame) : list string :=
  fold_left add_label (flat_map columns dfs) [].

Definition concat_frame (dfs : list DataFrame) : DataFrame :=
  mkDF (union_columns dfs) (flat_map (reindex (union_columns dfs)) dfs).

(** [pd.concat(dfs, ignore_index=True)]: the union of the columns in order
    of first appearance, rows in order, [NA] where a frame lacks a column. *)
Definition concat (dfs : list DataFrame) : result DataFrame :=
  match dfs with
  | [] => Raise (ValueError "No objects to concatenate")
  | _ :: _ => Ok (concat_frame dfs)
  end.

(** Elementwise series division *)
Fixpoint series_div (xs ys : list cell) : result (list cell) :=
  match xs, ys with
  | x :: xs', y :: ys' =>
      rbind (cell_div x y) (fun q =>
      rbind (series_div xs' ys') (fun t => Ok (q :: t)))
  | _, _ => Ok []
  end.

(* ================================================================== *)
(** ** The two raw sources

    The frames returned by [get_raw_sap_ecc_data] and [get_raw_sap_bw_data]
    have the columns of their [SELECT] lists.  A raw row is typed by the
    SQL column types; every column is nullable. *)

Definition of_str (o : option string) : cell :=
  match o with Some s => Str s | None => NA end.
Definition of_num (o : option Qc) : cell :=
  match o with Some q => Num q | None => NA end.
Definition of_date (o : option Z) : cell :=
  match o with Some t => Date t | None => NA end.

Module Ecc.
Record raw : Type := mk {
  CustomerID : option string;
  OrderNumber : option string;
  OrderDate : option Z;
  ProductCode : option string;
  Quantity : option Qc;
  UnitPrice : option Qc;
  TotalAmount : option Qc;
  Status : option string;
  SalesRep : option string;
  Region : option string;
  ProcessedDate : option Z
}.

Definition labels : list string :=
  ["CustomerID"; "OrderNumber"; "OrderDate"; "ProductCode"; "Quantity";
   "UnitPrice"; "TotalAmount"; "Status"; "SalesRep"; "Region";
   "ProcessedDate"].

Definition cells (r : raw) : row :=
  [of_str (CustomerID r); of_str (OrderNumber r); of_date (OrderDate r);
   of_str (ProductCode r); of_num (Quantity r); of_num (UnitPrice r);
   of_num (TotalAmount r); of_str (Status r); of_str (SalesRep r);
   of_str (Region r); of_date (ProcessedDate r)].

(** The frame [pd.read_sql] builds from the rows of the query. *)
Definition frame (rs : list raw) : DataFrame := mkDF labels (map cells rs).
End Ecc.

Module Bw.
Record raw : Type := mk {
  CustomerID : option string;
  ProductCode : option string;
  SalesAmount : option Qc;
  SalesQuantity : option Qc;
  SalesDate : option Z;
  SalesRep : option string;
  Region : option string;
  Channel : option string;
  ProductCategory : option string;
  CustomerSegment : option string;
  ProcessedDate : option Z
}.

Definition labels : list string :=
  ["CustomerID"; "ProductCode"; "SalesAmount"; "SalesQuantity"; "SalesDate";
   "SalesRep"; "Region"; "Channel"; "ProductCategory"; "CustomerSegment";
   "ProcessedDate"].

Definition cells (r : raw) : row :=
  [of_str (CustomerID r); of_str (ProductCode r); of_num (SalesAmount r);
   of_num (SalesQuantity r); of_date (SalesDate r); of_str (SalesRep r);
   of_str (Region r); of_str (Channel r); of_str (ProductCategory r);
   of_str (CustomerSegment r); of_date (ProcessedDate r)].

Definition frame (rs : list raw) : DataFrame := mkDF labels (map cells rs).
End Bw.

(* ================================================================== *)
(** ** The object store

    A frame is a Python object: a variable holds a reference to it, and
    [df.columns = ...] or [df[c] = ...] change the object every holder of
    the reference sees.  [utcnow] reads the clock, modelled as the sequence
    [clock] of its successive readings. *)

Definition ref := nat.

Record store : Type := mkStore {
  heap : list DataFrame;
  clock : nat -> Z;
  ticks : nat
}.

(** Computations with a state and exceptions. *)
Definition SE (S A : Type) : Type := S -> result A * S.

Definition ret {S A} (a : A) : SE S A := fun s => (Ok a, s).

Definition raise {S A} (e : exn) : SE S A := fun s => (Raise e, s).

Definition bind {S A B} (m : SE S A) (k : A -> SE S B) : SE S B :=
  fun s => match m s with
           | (Ok a, s') => k a s'
           | (Raise e, s') => (Raise e, s')
           end.

(** [try: m  except Exception as e: h e] *)
Definition try_except {S A} (m : SE S A) (h : exn -> SE S A) : SE S A :=
  fun s => match m s with
           | (Ok a, s') => (Ok a, s')
           | (Raise e, s') => h e s'
           end.

Declare Scope py_scope.
Delimit Scope py_scope with py.
Notation "x <- m ;; k" := (bind m (fun x => k))
  (at level 100, m at next level, right associativity) : py_scope.
Notation "m ;;; k" := (bind m (fun _ => k))
  (at level 100, right associativity) : py_scope.
Local Open Scope py_scope.

Fixpoint for_each {S A} (xs : list A) (body : A -> SE S unit) : SE S unit :=
  match xs with
  | [] => ret tt
  | x :: t => body x ;;; for_each t body
  end.

Definition M (A : Type) : Type := SE store A.

Definition lift {S A} (r : result A) : SE S A := fun s => (r, s).

(** The frame behind a reference.  Every reference the program holds was
    returned by [new] or names an input frame, so the default is never
    reached. *)
Definition lookup (s : store) (r : ref) : DataFrame := nth r (heap s) empty_frame.

Definition deref (r : ref) : M DataFrame := fun s => (Ok (lookup s r), s).

Fixpoint update_nth (r : nat) (d : DataFrame) (h : list DataFrame) : list DataFrame :=
  match r, h with
  | _, [] => []
  | O, _ :: t => d :: t
  | S j, x :: t => x :: update_nth j d t
  end.

(** A new object holding [d]. *)
Definition new (d : DataFrame) : M ref :=
  fun s => (Ok (List.length (heap s)),
            mkStore (heap s ++ [d]) (clock s) (ticks s)).

(** Overwrite the object behind [r]. *)
Definition put (r : ref) (d : DataFrame) : M unit :=
  fun s => (Ok tt, mkStore (update_nth r d (heap s)) (clock s) (ticks s)).

(** [datetime.utcnow()] *)
Definition utcnow : M cell :=
  fun s => (Ok (Date (clock s (ticks s))),
            mkStore (heap s) (clock s) (S (ticks s))).

(** The statements of the program on references. *)

(** [x = df.groupby(key).agg(spec).reset_index()] *)
Definition groupby_agg_reset_index (df : ref) (key : string)
    (spec : list (string * aggfn)) : M ref :=
  d <- deref df ;;
  g <- lift (groupby_agg key spec d) ;;
  new g.

(** [df.columns = names] *)
Definition assign_columns (df : ref) (names : list string) : M unit :=
  d <- deref df ;;
  d' <- lift (set_columns names d) ;;
  put df d'.

(** [df[c] = v] *)
Definition setitem (df : ref) (c : string) (v : cell) : M unit :=
  d <- deref df ;;
  put df (set_item c v d).

(** [df[c] = series] *)
Definition setitem_series (df : ref) (c : string) (vs : list cell) : M unit :=
  d <- deref df ;;
  put df (set_item_series c vs d).

(** [df[c]] *)
Definition getitem (df : ref) (c : string) : M (list cell) :=
  d <- deref df ;;
  lift (get_item c d).

(** [x = df[[cols]].copy()] *)
Definition select_copy (df : ref) (cols : list string) : M ref :=
  d <- deref df ;;
  g <- lift (select cols d) ;;
  new g.

Fixpoint deref_all (rs : list ref) : M (list DataFrame) :=
  match rs with
  | [] => ret []
  | r :: t => d <- deref r ;; ds <- deref_all t ;; ret (d :: ds)
  end.

(** [x = pd.concat(frames, ignore_index=True)] *)
Definition pd_concat (frames : list ref) : M ref :=
  ds <- deref_all frames ;;
  g <- lift (concat ds) ;;
  new g.

(** [df.empty] *)
Definition is_empty (df : ref) : M bool :=
  d <- deref df ;; ret (empty d).

(* ================================================================== *)
(** ** [SapDataProcessor]: the three reconciliations

    Each method body is wrapped in [try: ... except Exception as e:
    logger.error(...); raise]: the handler logs and re-raises the same
    exception, so a raised exception simply propagates.  Log lines are not
    part of the model.  The per-source blocks are named after the local
    variable they define. *)

(** The aggregation dictionaries of the per-source rollups. *)
Definition ecc_customer_spec : list (string * aggfn) :=
  [("OrderNumber", Count); ("TotalAmount", Sum); ("OrderDate", Max);
   ("Region", First); ("SalesRep", First)].

Definition bw_customer_spec : list (string * aggfn) :=
  [("SalesAmount", Sum); ("SalesQuantity", Sum); ("SalesDate", Max);
   ("Region", First); ("CustomerSegment", First); ("SalesRep", First)].

Definition ecc_product_spec : list (string * aggfn) :=
  [("Quantity", Sum); ("TotalAmount", Sum); ("UnitPrice", Mean)].

Definition bw_product_spec : list (string * aggfn) :=
  [("SalesQuantity", Sum); ("SalesAmount", Sum); ("ProductCategory", First)].

(** Lines 123-133 *)
Definition ecc_customers (ecc_data : ref) : M ref :=
  x <- groupby_agg_reset_index ecc_data "CustomerID"
         ecc_customer_spec ;;
  assign_columns x ["CustomerID"; "TotalOrders"; "TotalSalesAmount";
                    "LastOrderDate"; "Region"; "SalesRep"] ;;;
  setitem x "DataSource" (Str "SAP_ECC") ;;;
  ret x.

(** Lines 137-149 *)
Definition bw_customers (bw_data : ref) : M ref :=
  x <- groupby_agg_reset_index bw_data "CustomerID"
         bw_customer_spec ;;
  assign_columns x ["CustomerID"; "TotalSalesAmount"; "TotalQuantity";
                    "LastOrderDate"; "Region"; "CustomerSegment"; "SalesRep"] ;;;
  setitem x "TotalOrders" (Num 0%Qc) ;;;
  setitem x "DataSource" (Str "SAP_BW") ;;;
  ret x.

Definition customer_final_spec : list (string * aggfn) :=
  [("TotalOrders", Sum); ("TotalSalesAmount", Sum); ("LastOrderDate", Max);
   ("Region", First); ("SalesRep", First); ("CustomerSegment", First)].

Definition process_customer_data (ecc_data bw_data : ref) : M ref :=
  let customer_data : list ref := [] in
  ecc_is_empty <- is_empty ecc_data ;;
  customer_data <-
    (if negb ecc_is_empty
     then x <- ecc_customers ecc_data ;; ret (customer_data ++ [x])
     else ret customer_data) ;;
  bw_is_empty <- is_empty bw_data ;;
  customer_data <-
    (if negb bw_is_empty
     then x <- bw_customers bw_data ;; ret (customer_data ++ [x])
     else ret customer_data) ;;
  match customer_data with
  | _ :: _ =>
      combined_customers <- pd_concat customer_data ;;
      final_customers <-
        groupby_agg_reset_index combined_customers "CustomerID"
          customer_final_spec ;;
      created <- utcnow ;;
      setitem final_customers "CreatedDate" created ;;;
      updated <- utcnow ;;
      setitem final_customers "UpdatedDate" updated ;;;
      setitem final_customers "IsActive" (Flag true) ;;;
      ret final_customers
  | [] => new empty_frame
  end.

(** Lines 186-194 *)
Definition ecc_products (ecc_data : ref) : M ref :=
  x <- groupby_agg_reset_index ecc_data "ProductCode"
         ecc_product_spec ;;
  assign_columns x ["ProductCode"; "TotalQuantitySold"; "TotalSalesAmount";
                    "UnitPrice"] ;;;
  setitem x "DataSource" (Str "SAP_ECC") ;;;
  ret x.

(** Lines 198-207 *)
Definition bw_products (bw_data : ref) : M ref :=
  x <- groupby_agg_reset_index bw_data "ProductCode"
         bw_product_spec ;;
  assign_columns x ["ProductCode"; "TotalQuantitySold"; "TotalSalesAmount";
                    "ProductCategory"] ;;;
  setitem x "UnitPrice" (Num 0%Qc) ;;;
  setitem x "DataSource" (Str "SAP_BW") ;;;
  ret x.

Definition product_final_spec : list (string * aggfn) :=
  [("TotalQuantitySold", Sum); ("TotalSalesAmount", Sum); ("UnitPrice", Mean);
   ("ProductCategory", First)].

Definition process_product_data (ecc_data bw_data : ref) : M ref :=
  let product_data : list ref := [] in
  ecc_is_empty <- is_empty ecc_data ;;
  product_data <-
    (if negb ecc_is_empty
     then x <- ecc_products ecc_data ;; ret (product_data ++ [x])
     else ret product_data) ;;
  bw_is_empty <- is_empty bw_data ;;
  product_data <-
    (if negb bw_is_empty
     then x <- bw_products bw_data ;; ret (product_data ++ [x])
     else ret product_data) ;;
  match product_data with
  | _ :: _ =>
      combined_products <- pd_concat product_data ;;
      final_products <-
        groupby_agg_reset_index combined_products "ProductCode"
          product_final_spec ;;
      created <- utcnow ;;
      setitem final_products "CreatedDate" created ;;;
      updated <- utcnow ;;
      setitem final_products "UpdatedDate" updated ;;;
      setitem final_products "IsActive" (Flag true) ;;;
      ret final_products
  | [] => new empty_frame
  end.

(** Lines 242-248 *)
Definition ecc_sales (ecc_data : ref) : M ref :=
  x <- select_copy ecc_data
         ["CustomerID"; "ProductCode"; "OrderNumber"; "OrderDate";
          "TotalAmount"; "Quantity"; "UnitPrice"; "Region"; "SalesRep"] ;;
  assign_columns x
         ["CustomerID"; "ProductCode"; "OrderNumber"; "SalesDate";
          "SalesAmount"; "SalesQuantity"; "UnitPrice"; "Region"; "SalesRep"] ;;;
  setitem x "DataSource" (Str "SAP_ECC") ;;;
  setitem x "Channel" (Str "Direct") ;;;
  ret x.

(** Lines 252-257 *)
Definition bw_sales (bw_data : ref) : M ref :=
  x <- select_copy bw_data
         ["CustomerID"; "ProductCode"; "SalesDate"; "SalesAmount";
          "SalesQuantity"; "Region"; "Channel"; "SalesRep"] ;;
  setitem x "OrderNumber" NA ;;;
  amount <- getitem x "SalesAmount" ;;
  quantity <- getitem x "SalesQuantity" ;;
  price <- lift (series_div amount quantity) ;;
  setitem_series x "UnitPrice" price ;;;
  setitem x "DataSource" (Str "SAP_BW") ;;;
  ret x.

Definition process_sales_data (ecc_data bw_data : ref) : M ref :=
  let sales_data : list ref := [] in
  ecc_is_empty <- is_empty ecc_data ;;
  sales_data <-
    (if negb ecc_is_empty
     then x <- ecc_sales ecc_data ;; ret (sales_data ++ [x])
     else ret sales_data) ;;
  bw_is_empty <- is_empty bw_data ;;
  sales_data <-
    (if negb bw_is_empty
     then x <- bw_sales bw_data ;; ret (sales_data ++ [x])
     else ret sales_data) ;;
  match sales_data with
  | _ :: _ =>
      combined_sales <- pd_concat sales_data ;;
      created <- utcnow ;;
      setitem combined_sales "CreatedDate" created ;;;
      setitem combined_sales "IsActive" (Flag true) ;;;
      ret combined_sales
  | [] => new empty_frame
  end.

(** Running a method on the two frames read from the sources: the store
    holds the ECC frame at reference 0 and the BW frame at reference 1. *)
Definition sources (clk : nat -> Z) (ecc : list Ecc.raw) (bw : list Bw.raw) : store :=
  mkStore [Ecc.frame ecc; Bw.frame bw] clk 0.

Definition ecc_ref : ref := 0.
Definition bw_ref : ref := 1.

(** The frame a computation returns. *)
Definition returned (m : M ref) (s : store) : result DataFrame :=
  match m s with
  | (Ok r, s') => Ok (lookup s' r)
  | (Raise e, _) => Raise e
  end.

(** The row of [df] whose [key] column holds [k], if any. *)
Definition find_row (df : DataFrame) (key : string) (k : cell) : option row :=
  find (fun r => cell_eqb (cell_at df key r) k) (rows df).

(* ================================================================== *)
(** ** The entry point [process_sap_data]

    The database sits outside the program.  Its state is an abstract
    [World]; constructing the processor, the two reads and the write are
    operations on it that may raise.  The run keeps a trace of the stages
    it has entered, with the outcome of each. *)

Class SapBackend (World : Type) : Type := {
  SapDataProcessor : SE World unit;
  get_raw_sap_ecc_data : SE World (list Ecc.raw);
  get_raw_sap_bw_data : SE World (list Bw.raw);
  save_processed_data : DataFrame -> DataFrame -> DataFrame -> SE World unit
}.

Inductive stage : Type :=
| Construct | ReadEcc | ReadBw
| ReconcileCustomers | ReconcileProducts | ReconcileSales
| Write.

Inductive outcome : Type :=
| Returned
| Raised (e : exn).

Definition outcome_of {A} (r : result A) : outcome :=
  match r with Ok _ => Returned | Raise e => Raised e end.

Record run (World : Type) : Type := mkRun {
  world : World;
  objects : store;
  trace : list (stage * outcome)
}.
Arguments mkRun {World} _ _ _.
Arguments world {World} _.
Arguments objects {World} _.
Arguments trace {World} _.

Definition external {World A} (op : SE World A) : SE (run World) A :=
  fun s => let (r, w) := op (world s) in (r, mkRun w (objects s) (trace s)).

Definition internal {World A} (m : M A) : SE (run World) A :=
  fun s => let (r, o) := m (objects s) in (r, mkRun (world s) o (trace s)).

Definition in_stage {World A} (st : stage) (m : SE (run World) A) : SE (run World) A :=
  fun s => let (r, s') := m s in
           (r, mkRun (world s') (objects s') (trace s' ++ [(st, outcome_of r)])).

Definition str_of_nat (n : nat) : string := NilZero.string_of_uint (Nat.to_uint n).

Definition summary (customers products sales : nat) : string :=
  ("Successfully processed " ++ str_of_nat customers ++ " customers, "
   ++ str_of_nat products ++ " products, and "
   ++ str_of_nat sales ++ " sales records")%string.

(** The body is wrapped in [try ... except Exception as e: log; raise]. *)
Definition process_sap_data {World} `{SapBackend World} : SE (run World) string :=
  in_stage Construct (external SapDataProcessor) ;;;
  ecc <- in_stage ReadEcc (external get_raw_sap_ecc_data) ;;
  ecc_data <- internal (new (Ecc.frame ecc)) ;;
  bw <- in_stage ReadBw (external get_raw_sap_bw_data) ;;
  bw_data <- internal (new (Bw.frame bw)) ;;
  customers_df <- in_stage ReconcileCustomers
                    (internal (process_customer_data ecc_data bw_data)) ;;
  products_df <- in_stage ReconcileProducts
                    (internal (process_product_data ecc_data bw_data)) ;;
  sales_df <- in_stage ReconcileSales
                    (internal (process_sales_data ecc_data bw_data)) ;;
  customers <- internal (deref customers_df) ;;
  products <- internal (deref products_df) ;;
  sales <- internal (deref sales_df) ;;
  in_stage Write (external (save_processed_data customers products sales)) ;;;
  ret (summary (len customers) (len products) (len sales)).

Definition pipeline : list stage :=
  [Construct; ReadEcc; ReadBw; ReconcileCustomers; ReconcileProducts;
   ReconcileSales; Write].

Definition start {World} (w : World) (clk : nat -> Z) : run World :=
  mkRun w (mkStore [] clk 0) [].

(* ================================================================== *)
(** ** [AISearchService] *)

Inductive value : Type :=
| VNone
| VNaN
| VDatetime (t : Z)
| VStr (s : string)
| VNum (q : Qc).

(** A search document: the dictionary [df.to_dict('records')] yields. *)
Definition document := list (string * value).

Record search_client : Type := mkClient {
  endpoint : string;
  index_name : string;
  credential : string
}.

Inductive table : Type := Customers | Sales | Products.

(** Azure SDK, key vault, environment and SQL access. *)
Class SearchBackend (World : Type) : Type := {
  environ : string -> option string;
  DefaultAzureCredential : SE World unit;
  SecretClient : string -> SE World unit;
  get_secret : string -> SE World string;
  create_or_update_index : string -> string -> string -> SE World unit;
  search_all_ids : search_client -> SE World (list string);
  delete_documents : search_client -> list string -> SE World unit;
  client_upload_documents : search_client -> list document -> SE World (list bool);
  read_sql : string -> table -> SE World (list document);
  isoformat : Z -> string
}.

Record AISearchService : Type := mkService {
  key_vault_url : option string;
  ai_search_endpoint : option string;
  ai_search_key : option string;
  sql_connection_string : option string;
  secret_client : bool
}.

(** The state of a run of the search service: the outside world and the
    batches handed to [search_client.upload_documents] so far. *)
Record search_run (World : Type) : Type := mkSearch {
  outside : World;
  uploaded : list (list document)
}.
Arguments mkSearch {World} _ _.
Arguments outside {World} _.
Arguments uploaded {World} _.

Definition sdk {World A} (op : SE World A) : SE (search_run World) A :=
  fun s => let (r, w) := op (outside s) in (r, mkSearch w (uploaded s)).

Definition record_batch {World} (b : list document) : SE (search_run World) unit :=
  fun s => (Ok tt, mkSearch (outside s) (uploaded s ++ [b])).

(** Python truthiness of an optional string *)
Definition truthy (o : option string) : bool :=
  match o with
  | Some s => negb (String.eqb s "")
  | None => false
  end.

Definition text (o : option string) : string :=
  match o with Some s => s | None => "" end.

(** [str(e)].  The text of a [ValueError], a [TypeError] or an error of an
    outside service is its message.  For a [KeyError] Python gives the repr
    of the message of the raiser, whose wording depends on the pandas
    operation and version: the labels stand for it here, and no theorem
    states a text built from this case. *)
Definition exn_message (e : exn) : string :=
  match e with
  | KeyError cols => String.concat ", " cols
  | ValueError m => m
  | TypeError m => m
  | Failure m => m
  end.

(** [AISearchService.__init__] *)
Definition AISearchService_init {World} `{SearchBackend World}
  : SE (search_run World) AISearchService :=
  sdk DefaultAzureCredential ;;;
  let url := environ "KEY_VAULT_URL" in
  has_client <-
    (if truthy url
     then sdk (SecretClient (text url)) ;;; ret true
     else ret false) ;;
  ret (mkService url (environ "AI_SEARCH_ENDPOINT") (environ "AI_SEARCH_KEY")
         (environ "SQL_CONNECTION_STRING") has_client).

Definition get_ai_search_credentials {World} `{SearchBackend World}
    (self : AISearchService) : SE (search_run World) (string * string) :=
  if truthy (ai_search_endpoint self) && truthy (ai_search_key self)
  then ret (text (ai_search_endpoint self), text (ai_search_key self))
  else if secret_client self
  then endpoint_secret <- sdk (get_secret "ai-search-endpoint") ;;
       key_secret <- sdk (get_secret "ai-search-key") ;;
       ret (endpoint_secret, key_secret)
  else raise (ValueError "No AI Search credentials available").

Definition get_sql_connection_string {World} `{SearchBackend World}
    (self : AISearchService) : SE (search_run World) string :=
  if truthy (sql_connection_string self)
  then ret (text (sql_connection_string self))
  else if secret_client self
  then sdk (get_secret "sql-connection-string")
  else raise (ValueError "No SQL connection string available").

Definition default_index : string := "sap-data-index".

(** Each method below is [try: body  except Exception: return fallback];
    the [try] block is named [..._body]. *)
Definition create_search_index_body {World} `{SearchBackend World}
    (self : AISearchService) : SE (search_run World) bool :=
  cred <- get_ai_search_credentials self ;;
  sdk (create_or_update_index (fst cred) (snd cred) default_index) ;;;
  ret true.

Definition create_search_index {World} `{SearchBackend World}
    (self : AISearchService) : SE (search_run World) bool :=
  try_except (create_search_index_body self) (fun _ => ret false).

Definition batch_size : nat := 1000.

(** [range(0, n, step)] *)
Definition range_step (n step : nat) : list nat :=
  map (fun j => j * step) (seq 0 ((n + step - 1) / step)).

(** [xs[i:j]] *)
Definition slice {A} (xs : list A) (i j : nat) : list A :=
  firstn (j - i) (skipn i xs).

Definition clear_index_body {World} `{SearchBackend World}
    (self : AISearchService) : SE (search_run World) bool :=
  cred <- get_ai_search_credentials self ;;
  let client := mkClient (fst cred) default_index (snd cred) in
  documents_to_delete <- sdk (search_all_ids client) ;;
  match documents_to_delete with
  | _ :: _ =>
      for_each (range_step (List.length documents_to_delete) batch_size)
        (fun i => sdk (delete_documents client
                         (slice documents_to_delete i (i + batch_size)))) ;;;
      ret true
  | [] => ret true
  end.

Definition clear_index {World} `{SearchBackend World}
    (self : AISearchService) : SE (search_run World) bool :=
  try_except (clear_index_body self) (fun _ => ret false).

Definition get_documents_body {World} `{SearchBackend World}
    (self : AISearchService) (t : table) : SE (search_run World) (list document) :=
  connection_string <- get_sql_connection_string self ;;
  sdk (read_sql connection_string t).

(** [get_customer_documents], [get_sales_documents] and
    [get_product_documents] differ by their query only. *)
Definition get_documents {World} `{SearchBackend World}
    (self : AISearchService) (t : table) : SE (search_run World) (list document) :=
  try_except (get_documents_body self t) (fun _ => ret []).

Definition get_customer_documents {World} `{SearchBackend World} self :=
  get_documents self Customers.
Definition get_sales_documents {World} `{SearchBackend World} self :=
  get_documents self Sales.
Definition get_product_documents {World} `{SearchBackend World} self :=
  get_documents self Products.

(** Lines 268-273: datetimes become ISO strings, missing values [None]. *)
Definition json_value {World} `{SearchBackend World} (v : value) : value :=
  match v with
  | VDatetime t => VStr (isoformat t)
  | VNaN => VNone
  | VNone => VNone
  | other => other
  end.

Definition json_document {World} `{SearchBackend World} (doc : document) : document :=
  map (fun kv => (fst kv, json_value (snd kv))) doc.

Definition upload_documents_body {World} `{SearchBackend World}
    (self : AISearchService) (documents : list document)
  : SE (search_run World) bool :=
  cred <- get_ai_search_credentials self ;;
  let client := mkClient (fst cred) default_index (snd cred) in
  for_each (range_step (List.length documents) batch_size)
    (fun i =>
       (record_batch (map json_document (slice documents i (i + batch_size))) ;;;
        sdk (client_upload_documents client
               (map json_document (slice documents i (i + batch_size)))) ;;;
        ret tt)) ;;;
  ret true.

Definition upload_documents {World} `{SearchBackend World}
    (self : AISearchService) (documents : list document)
  : SE (search_run World) bool :=
  try_except (upload_documents_body self documents) (fun _ => ret false).

(** Lines 345-357: the three retrievals, concatenated. *)
Definition all_documents {World} `{SearchBackend World}
    (self : AISearchService) : SE (search_run World) (list document) :=
  customer_docs <- get_customer_documents self ;;
  sales_docs <- get_sales_documents self ;;
  product_docs <- get_product_documents self ;;
  ret (customer_docs ++ sales_docs ++ product_docs).

Definition upload_report (n : nat) : string :=
  ("Successfully updated search index with " ++ str_of_nat n ++ " documents")%string.

Definition update_search_index_body {World} `{SearchBackend World}
    (self : AISearchService) : SE (search_run World) string :=
  created <- create_search_index self ;;
  if negb created then ret "Failed to create/update search index"
  else
    cleared <- clear_index self ;;
    if negb cleared then ret "Failed to clear existing documents"
    else
      documents <- all_documents self ;;
      match documents with
      | _ :: _ =>
          done <- upload_documents self documents ;;
          if done
          then ret (upload_report (List.length documents))
          else ret "Failed to upload documents to search index"
      | [] => ret "No documents found to upload"
      end.

Definition update_search_index {World} `{SearchBackend World}
    (self : AISearchService) : SE (search_run World) string :=
  try_except (update_search_index_body self)
    (fun e => ret ("Error updating search index: " ++ exn_message e)%string).

Definition update_ai_search {World} `{SearchBackend World}
  : SE (search_run World) string :=
  service <- AISearchService_init ;;
  update_search_index service.

(** The strings by which [update_search_index] reports a failure. *)
Definition failure_report (msg : string) : Prop :=
  msg = "Failed to create/update search index"
  \/ msg = "Failed to clear existing documents"
  \/ msg = "Failed to upload documents to search index"
  \/ exists e, msg = ("Error updating search index: " ++ exn_message e)%string.

(** The batches [upload_documents] hands to the client when nothing fails. *)
Definition batches_of {World} `{SearchBackend World}
    (documents : list document) : list (list document) :=
  map (fun i => map json_document (slice documents i (i + batch_size)))
      (range_step (List.length documents) batch_size).

(** The frames the reconciliations build, written with the pure frame
    operations: the per-source rollups and the merged frames. *)
Definition ecc_customers_frame (ecc : list Ecc.raw) : DataFrame :=
  set_item "DataSource" (Str "SAP_ECC")
    (mkDF ["CustomerID"; "TotalOrders"; "TotalSalesAmount"; "LastOrderDate";
           "Region"; "SalesRep"]
       (rows (grouped (Ecc.frame ecc) "CustomerID"
                ecc_customer_spec))).

Definition bw_customers_frame (bw : list Bw.raw) : DataFrame :=
  set_item "DataSource" (Str "SAP_BW")
    (set_item "TotalOrders" (Num 0%Qc)
       (mkDF ["CustomerID"; "TotalSalesAmount"; "TotalQuantity";
              "LastOrderDate"; "Region"; "CustomerSegment"; "SalesRep"]
          (rows (grouped (Bw.frame bw) "CustomerID"
                   bw_customer_spec)))).

Definition ecc_products_frame (ecc : list Ecc.raw) : DataFrame :=
  set_item "DataSource" (Str "SAP_ECC")
    (mkDF ["ProductCode"; "TotalQuantitySold"; "TotalSalesAmount"; "UnitPrice"]
       (rows (grouped (Ecc.frame ecc) "ProductCode"
                ecc_product_spec))).

Definition bw_products_frame (bw : list Bw.raw) : DataFrame :=
  set_item "DataSource" (Str "SAP_BW")
    (set_item "UnitPrice" (Num 0%Qc)
       (mkDF ["ProductCode"; "TotalQuantitySold"; "TotalSalesAmount";
              "ProductCategory"]
          (rows (grouped (Bw.frame bw) "ProductCode"
                   bw_product_spec)))).

(** The metadata columns, stamped with two successive clock readings. *)
Definition stamped (clk : nat -> Z) (df : DataFrame) : DataFrame :=
  set_item "IsActive" (Flag true)
    (set_item "UpdatedDate" (Date (clk 1))
       (set_item "CreatedDate" (Date (clk 0)) df)).

Definition merged (key : string) (spec : list (string * aggfn))
    (clk : nat -> Z) (sources : list DataFrame) : DataFrame :=
  stamped clk (grouped (concat_frame sources) key spec).

(** A row of a merged frame with its three metadata cells. *)
Definition stamp_row (clk : nat -> Z) (r : row) : row :=
  ((r ++ [Date (clk 0)]) ++ [Date (clk 1)]) ++ [Flag true].

(** [df] has exactly one row, and the row holds the given cells. *)
Definition one_row_with (df : DataFrame) (cells : list (string * cell)) : bool :=
  match rows df with
  | [r] => forallb (fun cv => cell_eqb (cell_at df (fst cv) r) (snd cv)) cells
  | _ => false
  end.

(** Sample raw rows: an ECC order line and a BW sales fact. *)
Definition ecc_line (customer product order : string) (quantity price amount : Z)
    (date : Z) : Ecc.raw :=
  Ecc.mk (Some customer) (Some order) (Some date) (Some product)
         (Some (qz quantity)) (Some (qz price)) (Some (qz amount))
         (Some "OPEN") (Some "rep-1") (Some "EMEA") (Some date).

Definition bw_fact (customer product : string) (amount quantity : Z)
    (date : Z) : Bw.raw :=
  Bw.mk (Some customer) (Some product) (Some (qz amount)) (Some (qz quantity))
        (Some date) (Some "rep-2") (Some "APAC") (Some "Web")
        (Some "Tools") (Some "Retail") (Some date).

(** The data columns of a reconciled customer, and of a product. *)
Definition customer_fields : list string :=
  "CustomerID" :: map fst customer_final_spec.

Definition product_fields : list string :=
  "ProductCode" :: map fst product_final_spec.

(** The quotient of two nullable SQL numbers as float division gives it:
    null when an operand is null or both are 0, an infinity of the sign of
    the numerator when only the denominator is 0. *)
Definition float_div (a q : option Qc) : cell :=
  match a, q with
  | Some x, Some y =>
      if Qc_eq_bool y 0%Qc then
        if Qc_eq_bool x 0%Qc then NA else Inf (negb (Qle_bool 0%Q x))
      else Num (x / y)%Qc
  | _, _ => NA
  end.

Definition bw_unit_price (b : Bw.raw) : cell :=
  float_div (Bw.SalesAmount b) (Bw.SalesQuantity b).

(** The frames of the sales reconciliation. *)
Definition ecc_sales_frame (ecc : list Ecc.raw) : DataFrame :=
  set_item "Channel" (Str "Direct")
    (set_item "DataSource" (Str "SAP_ECC")
       (mkDF ["CustomerID"; "ProductCode"; "OrderNumber"; "SalesDate";
              "SalesAmount"; "SalesQuantity"; "UnitPrice"; "Region"; "SalesRep"]
          (reindex ["CustomerID"; "ProductCode"; "OrderNumber"; "OrderDate";
                    "TotalAmount"; "Quantity"; "UnitPrice"; "Region"; "SalesRep"]
                   (Ecc.frame ecc)))).

Definition bw_sales_selected (bw : list Bw.raw) : DataFrame :=
  set_item "OrderNumber" NA
    (mkDF ["CustomerID"; "ProductCode"; "SalesDate"; "SalesAmount";
           "SalesQuantity"; "Region"; "Channel"; "SalesRep"]
       (reindex ["CustomerID"; "ProductCode"; "SalesDate"; "SalesAmount";
                 "SalesQuantity"; "Region"; "Channel"; "SalesRep"]
                (Bw.frame bw))).

Definition bw_sales_frame (bw : list Bw.raw) : DataFrame :=
  set_item "DataSource" (Str "SAP_BW")
    (set_item_series "UnitPrice" (map bw_unit_price bw) (bw_sales_selected bw)).

Definition sales_frame (clk : nat -> Z) (parts : list DataFrame) : DataFrame :=
  set_item "IsActive" (Flag true)
    (set_item "CreatedDate" (Date (clk 0)) (concat_frame parts)).

(** The row of the BW part of the sales frame that a BW fact becomes. *)
Definition bw_sale_row (b : Bw.raw) : row :=
  [of_str (Bw.CustomerID b); of_str (Bw.ProductCode b); of_date (Bw.SalesDate b);
   of_num (Bw.SalesAmount b); of_num (Bw.SalesQuantity b); of_str (Bw.Region b);
   of_str (Bw.Channel b); of_str (Bw.SalesRep b); NA; bw_unit_price b;
   Str "SAP_BW"].

Definition sale_stamp (clk : nat -> Z) (r : row) : row :=
  (r ++ [Date (clk 0)]) ++ [Flag true].

(** The trace of stages that have all returned. *)
Definition ok_trace (l : list stage) : list (stage * outcome) :=
  map (fun st => (st, Returned)) l.

(** A sample environment for the search service: credentials come from
    the process environment, the customer query fails, the sales query
    yields one document, and the search service accepts everything. *)
Definition demo_document : document :=
  [("id", VStr "C1-P1-O1-20240105"); ("timestamp", VDatetime 5);
   ("sales_quantity", VNaN)].

Definition demo_search : SearchBackend unit := {|
  environ := fun name =>
    if String.eqb name "AI_SEARCH_ENDPOINT" then Some "https://search.example"
    else if String.eqb name "AI_SEARCH_KEY" then Some "secret"
    else if String.eqb name "SQL_CONNECTION_STRING" then Some "Server=db"
    else None;
  DefaultAzureCredential := ret tt;
  SecretClient := fun _ => ret tt;
  get_secret := fun _ => raise (Failure "no vault");
  create_or_update_index := fun _ _ _ => ret tt;
  search_all_ids := fun _ => ret [];
  delete_documents := fun _ _ => ret tt;
  client_upload_documents := fun _ batch => ret (map (fun _ => true) batch);
  read_sql := fun _ t =>
    match t with
    | Customers => raise (Failure "connection lost")
    | Sales => ret [demo_document]
    | Products => ret []
    end;
  isoformat := fun _ => "2024-01-05T00:00:00"
|}.

Definition demo_service : AISearchService :=
  mkService None (Some "https://search.example") (Some "secret")
            (Some "Server=db") false.

Definition demo_start : search_run unit := mkSearch tt [].

Definition succeeded {A} (r : result A) : bool :=
  match r with Ok _ => true | Raise _ => false end.

(** What a retrieval yields: the documents read, or none if it raised. *)
Definition documents_or_none (r : result (list document)) : list document :=
  match r with Ok docs => docs | Raise _ => [] end.

(** Cells of a numeric column, and of a date column. *)
Definition numeric (c : cell) : Prop := c = NA \/ exists q, c = Num q.
Definition dated (c : cell) : Prop := c = NA \/ exists t, c = Date t.

(** The later of two optional dates, a missing date counting for nothing. *)
Definition latest (a b : option Z) : option Z :=
  match a, b with
  | Some x, Some y => Some (Z.max x y)
  | Some x, None => Some x
  | None, _ => b
  end.

(** Every object of [s] is still there, unchanged, in [s']. *)
Definition preserved (s s' : store) : Prop :=
  exists fresh, heap s' = heap s ++ fresh.

(** [keeps n m Q]: run from a store with at least [n] objects, [m] leaves
    the first [n] objects as they are, and a returned value satisfies [Q]. *)
Definition keeps {A} (n : nat) (m : M A) (Q : A -> Prop) : Prop :=
  forall s, n <= List.length (heap s) ->
    firstn n (heap (snd (m s))) = firstn n (heap s)
    /\ n <= List.length (heap (snd (m s)))
    /\ match fst (m s) with Ok a => Q a | Raise _ => True end.

(** The order of group keys, and the keys that are strings. *)
Definition key_le (a b : cell) : Prop := cell_leb a b = true.

Definition is_string (c : cell) : Prop :=
  match c with Str _ => True | _ => False end.

Definition string_le (a b : string) : Prop := String.leb a b = true.

(** The row of the ECC part of the sales frame that an order line becomes. *)
Definition ecc_sale_row (e : Ecc.raw) : row :=
  [of_str (Ecc.CustomerID e); of_str (Ecc.ProductCode e);
   of_str (Ecc.OrderNumber e); of_date (Ecc.OrderDate e);
   of_num (Ecc.TotalAmount e); of_num (Ecc.Quantity e);
   of_num (Ecc.UnitPrice e); of_str (Ecc.Region e); of_str (Ecc.SalesRep e);
   Str "SAP_ECC"; Str "Direct"].

(** The labels of a reconciled sale, before the metadata. *)
Definition sale_fields : list string :=
  ["CustomerID"; "ProductCode"; "OrderNumber"; "SalesDate"; "SalesAmount";
   "SalesQuantity"; "UnitPrice"; "Region"; "SalesRep"; "DataSource"; "Channel"].

(** The labels of the BW part of the sales frame, in its own order. *)
Definition bw_sale_fields : list string :=
  ["CustomerID"; "ProductCode"; "SalesDate"; "SalesAmount"; "SalesQuantity";
   "Region"; "Channel"; "SalesRep"; "OrderNumber"; "UnitPrice"; "DataSource"].

(** The metadata cells of a merged row. *)
Definition stamped_row (clk : nat -> Z) (df : DataFrame) (r : row) : Prop :=
  cell_at df "CreatedDate" r = Date (clk 0)
  /\ cell_at df "UpdatedDate" r = Date (clk 1)
  /\ cell_at df "IsActive" r = Flag true.

(* ================================================================== *)
(** ** [SapDataProcessor]: connection strings, readers and the writer

    The methods that talk to SQL Server.  The vault, [pyodbc.connect],
    [pd.read_sql], [cursor.execute] and [conn.commit] are operations on
    the outside world that may raise; a run keeps the list of the database
    calls that have returned.  What the [with] block of pyodbc does on its
    own when it is left is not part of the model. *)

Module Processor.
Record t : Type := mk {
  key_vault_url : option string;
  sql_connection_string : option string;
  processed_sql_connection_string : option string;
  secret_client : bool
}.
End Processor.

Inductive statement : Type :=
| MergeCustomer (params : list cell)
| MergeProduct (params : list cell)
| InsertSale (params : list cell).

Inductive raw_table : Type := SapEccRawData | SapBwRawData.

Inductive db_call : Type :=
| Connect (connection_string : string)
| ReadSql (t : raw_table)
| Execute (s : statement)
| Commit.

Class SqlBackend (World : Type) : Type := {
  azure_identity : SE World unit;
  vault_secret : string -> SE World string;
  pyodbc_connect : string -> SE World unit;
  read_sql_ecc : SE World (list Ecc.raw);
  read_sql_bw : SE World (list Bw.raw);
  cursor_execute : statement -> SE World unit;
  conn_commit : SE World unit
}.

Record db_run (World : Type) : Type := mkDb {
  database : World;
  calls : list db_call
}.
Arguments mkDb {World} _ _.
Arguments database {World} _.
Arguments calls {World} _.

(** An outside operation that leaves no entry in the list of calls. *)
Definition quiet {World A} (op : SE World A) : SE (db_run World) A :=
  fun s => let (r, w) := op (database s) in (r, mkDb w (calls s)).

(** A database call, listed once it has returned. *)
Definition call {World A} (c : db_call) (op : SE World A) : SE (db_run World) A :=
  fun s => let (r, w) := op (database s) in
           (r, mkDb w (match r with
                       | Ok _ => calls s ++ [c]
                       | Raise _ => calls s
                       end)).

(** [row[c]]: a missing label is a [KeyError]. *)
Definition row_item (df : DataFrame) (c : string) (r : row) : result cell :=
  if has_column (columns df) c then Ok (cell_at df c r)
  else Raise (KeyError [c]).

(** [row.get(c, default)] *)
Definition row_get (df : DataFrame) (c : string) (default : cell) (r : row) : cell :=
  if has_column (columns df) c then cell_at df c r else default.

(** The parameters of the statement of one row, evaluated left to right. *)
Definition customer_params (df : DataFrame) (r : row) : result (list cell) :=
  rbind (row_item df "CustomerID" r) (fun id =>
  let segment := row_get df "CustomerSegment" NA r in
  let region := row_get df "Region" NA r in
  let rep := row_get df "SalesRep" NA r in
  rbind (row_item df "TotalOrders" r) (fun orders =>
  rbind (row_item df "TotalSalesAmount" r) (fun amount =>
  rbind (row_item df "LastOrderDate" r) (fun last =>
  Ok [id; segment; region; rep; orders; amount; last])))).

Definition product_params (df : DataFrame) (r : row) : result (list cell) :=
  rbind (row_item df "ProductCode" r) (fun code =>
  let category := row_get df "ProductCategory" NA r in
  let price := row_get df "UnitPrice" (Num 0%Qc) r in
  rbind (row_item df "TotalQuantitySold" r) (fun quantity =>
  rbind (row_item df "TotalSalesAmount" r) (fun amount =>
  Ok [code; category; price; quantity; amount]))).

Definition sale_params (df : DataFrame) (r : row) : result (list cell) :=
  rbind (row_item df "CustomerID" r) (fun customer =>
  rbind (row_item df "ProductCode" r) (fun code =>
  let order := row_get df "OrderNumber" NA r in
  rbind (row_item df "SalesDate" r) (fun date =>
  rbind (row_item df "SalesAmount" r) (fun amount =>
  rbind (row_item df "SalesQuantity" r) (fun quantity =>
  let price := row_get df "UnitPrice" (Num 0%Qc) r in
  let region := row_get df "Region" NA r in
  let channel := row_get df "Channel" NA r in
  let rep := row_get df "SalesRep" NA r in
  rbind (row_item df "DataSource" r) (fun source =>
  Ok [customer; code; order; date; amount; quantity; price; region; channel;
      rep; source])))))).

Module Sql.

(** Lines 35-45 *)
Definition get_connection_string {World} `{SqlBackend World}
    (self : Processor.t) (use_processed_db : bool) : SE (db_run World) string :=
  if use_processed_db && truthy (Processor.processed_sql_connection_string self)
  then ret (text (Processor.processed_sql_connection_string self))
  else if truthy (Processor.sql_connection_string self)
  then ret (text (Processor.sql_connection_string self))
  else if Processor.secret_client self
  then quiet (vault_secret "sql-connection-string")
  else raise (ValueError "No SQL connection string available").

(** Lines 47-79; the handler logs and re-raises. *)
Definition get_raw_sap_ecc_data {World} `{SqlBackend World}
    (self : Processor.t) : SE (db_run World) (list Ecc.raw) :=
  connection_string <- get_connection_string self false ;;
  call (Connect connection_string) (pyodbc_connect connection_string) ;;;
  call (ReadSql SapEccRawData) read_sql_ecc.

(** Lines 81-113 *)
Definition get_raw_sap_bw_data {World} `{SqlBackend World}
    (self : Processor.t) : SE (db_run World) (list Bw.raw) :=
  connection_string <- get_connection_string self false ;;
  call (Connect connection_string) (pyodbc_connect connection_string) ;;;
  call (ReadSql SapBwRawData) read_sql_bw.

(** [for _, row in df.iterrows(): cursor.execute(statement, params...)] *)
Definition save_rows {World} `{SqlBackend World}
    (params : DataFrame -> row -> result (list cell))
    (make : list cell -> statement) (df : DataFrame) : SE (db_run World) unit :=
  for_each (rows df)
    (fun r => ps <- lift (params df r) ;;
              call (Execute (make ps)) (cursor_execute (make ps))).

(** Lines 307-331 *)
Definition _save_customers {World} `{SqlBackend World} (customers_df : DataFrame)
  : SE (db_run World) unit :=
  save_rows customer_params MergeCustomer customers_df.

(** Lines 333-354 *)
Definition _save_products {World} `{SqlBackend World} (products_df : DataFrame)
  : SE (db_run World) unit :=
  save_rows product_params MergeProduct products_df.

(** Lines 356-367 *)
Definition _save_sales {World} `{SqlBackend World} (sales_df : DataFrame)
  : SE (db_run World) unit :=
  save_rows sale_params InsertSale sales_df.

(** Lines 275-305 *)
Definition save_processed_data {World} `{SqlBackend World}
    (self : Processor.t) (customers_df products_df sales_df : DataFrame)
  : SE (db_run World) unit :=
  connection_string <- get_connection_string self true ;;
  call (Connect connection_string) (pyodbc_connect connection_string) ;;;
  (if negb (empty customers_df) then _save_customers customers_df else ret tt) ;;;
  (if negb (empty products_df) then _save_products products_df else ret tt) ;;;
  (if negb (empty sales_df) then _save_sales sales_df else ret tt) ;;;
  call Commit conn_commit.

End Sql.

(** [SapDataProcessor.__init__], lines 21-33: what the object holds, given
    the process environment.  Building the credential and the vault client
    is [azure_identity]. *)
Definition SapDataProcessor_init (env : string -> option string) : Processor.t :=
  Processor.mk (env "KEY_VAULT_URL") (env "SQL_CONNECTION_STRING")
    (env "PROCESSED_SQL_CONNECTION_STRING") (truthy (env "KEY_VAULT_URL")).

(** The processor as the back end of [process_sap_data]: the orchestrator
    run over the real readers and the real writer. *)
Definition sql_backend {World} `{SqlBackend World} (self : Processor.t)
  : SapBackend (db_run World) := {|
  SapDataProcessor := quiet azure_identity;
  get_raw_sap_ecc_data := Sql.get_raw_sap_ecc_data self;
  get_raw_sap_bw_data := Sql.get_raw_sap_bw_data self;
  save_processed_data := Sql.save_processed_data self
|}.

(** The statements the writer issues for a frame: none for an empty frame,
    else one per row. *)
Fixpoint all_params (params : row -> result (list cell)) (rs : list row)
  : result (list (list cell)) :=
  match rs with
  | [] => Ok []
  | r :: t => rbind (params r) (fun p =>
              rbind (all_params params t) (fun ps => Ok (p :: ps)))
  end.

Definition statements_of (params : DataFrame -> row -> result (list cell))
    (make : list cell -> statement) (df : DataFrame) : result (list statement) :=
  if empty df then Ok []
  else rbind (all_params (params df) (rows df)) (fun ps => Ok (map make ps)).


(** The column order of the parameters of each statement. *)
Definition customer_param_fields : list string :=
  ["CustomerID"; "CustomerSegment"; "Region"; "SalesRep"; "TotalOrders";
   "TotalSalesAmount"; "LastOrderDate"].

Definition product_param_fields : list string :=
  ["ProductCode"; "ProductCategory"; "UnitPrice"; "TotalQuantitySold";
   "TotalSalesAmount"].

Definition sale_param_fields : list string :=
  ["CustomerID"; "ProductCode"; "OrderNumber"; "SalesDate"; "SalesAmount";
   "SalesQuantity"; "UnitPrice"; "Region"; "Channel"; "SalesRep"; "DataSource"].

(* ================================================================== *)
(** ** [function_app.py]: the on-demand trigger *)

Record HttpResponse : Type := mkResponse { body : string; status_code : nat }.

(** [process_sap_data_http] *)
Definition process_sap_data_http {World} `{SapBackend World}
  : SE (run World) HttpResponse :=
  try_except
    (result <- process_sap_data ;;
     ret (mkResponse ("SAP data processing completed: " ++ result)%string 200))
    (fun e =>
       ret (mkResponse ("Error processing SAP data: " ++ exn_message e)%string 500)).

(** A sample database that accepts everything, and a processor configured
    with the raw connection string only. *)
Definition demo_sql : SqlBackend unit := {|
  azure_identity := ret tt;
  vault_secret := fun _ => raise (Failure "no vault");
  pyodbc_connect := fun _ => ret tt;
  read_sql_ecc := ret [ecc_line "C1" "P1" "O1" 1 10 10 5];
  read_sql_bw := ret [bw_fact "C1" "P1" 50 2 7];
  cursor_execute := fun _ => ret tt;
  conn_commit := ret tt
|}.

Definition demo_processor : Processor.t :=
  Processor.mk None (Some "Server=raw") None false.

Definition unconfigured_processor : Processor.t :=
  Processor.mk None None None false.

Definition demo_db : db_run unit := mkDb tt [].





(** A database whose BW table has no recent rows. *)
Definition no_bw_sql : SqlBackend unit := {|
  azure_identity := ret tt;
  vault_secret := fun _ => raise (Failure "no vault");
  pyodbc_connect := fun _ => ret tt;
  read_sql_ecc := ret [ecc_line "C1" "P1" "O1" 1 10 10 5];
  read_sql_bw := ret [];
  cursor_execute := fun _ => ret tt;
  conn_commit := ret tt
|}.

(** A sample environment that names the processed database only. *)
Definition processed_only_env (name : string) : option string :=
  if String.eqb name "PROCESSED_SQL_CONNECTION_STRING" then Some "Server=processed"
  else None.

(* ================================================================== *)
(** ** The calls of the search service to the index

    A back end that keeps, besides its own state, the list of the index
    operations that have returned: creating the index, listing the ids,
    deleting and uploading documents.  The service itself is the one above,
    run over this back end. *)

Inductive index_call : Type :=
| CreateIndex (endpoint key name : string)
| SearchIds
| DeleteDocuments (ids : list string)
| UploadDocuments (batch : list document).

Definition logging {World A} (c : index_call) (op : SE World A)
  : SE (World * list index_call) A :=
  fun s => let (r, w) := op (fst s) in
           (r, (w, match r with
                   | Ok _ => snd s ++ [c]
                   | Raise _ => snd s
                   end)).

Definition unlogged {World A} (op : SE World A) : SE (World * list index_call) A :=
  fun s => let (r, w) := op (fst s) in (r, (w, snd s)).

Definition logged {World} (B : SearchBackend World)
  : SearchBackend (World * list index_call) := {|
  environ := @environ World B;
  DefaultAzureCredential := unlogged (@DefaultAzureCredential World B);
  SecretClient := fun url => unlogged (@SecretClient World B url);
  get_secret := fun name => unlogged (@get_secret World B name);
  create_or_update_index := fun e k n =>
    logging (CreateIndex e k n) (@create_or_update_index World B e k n);
  search_all_ids := fun c => logging SearchIds (@search_all_ids World B c);
  delete_documents := fun c ids =>
    logging (DeleteDocuments ids) (@delete_documents World B c ids);
  client_upload_documents := fun c b =>
    logging (UploadDocuments b) (@client_upload_documents World B c b);
  read_sql := fun cs t => unlogged (@read_sql World B cs t);
  isoformat := @isoformat World B
|}.

(** The index calls made so far in a run over the logging back end. *)
Definition index_calls {World} (st : search_run (World * list index_call))
  : list index_call := snd (outside st).

(** [ids[i:i + 1000]] for [i] in [range(0, len(ids), 1000)] *)
Definition id_batches (ids : list string) : list (list string) :=
  map (fun i => slice ids i (i + batch_size))
      (range_step (List.length ids) batch_size).


(** A search service that rejects every document without raising. *)
Definition rejecting_search : SearchBackend unit := {|
  environ := fun name =>
    if String.eqb name "AI_SEARCH_ENDPOINT" then Some "https://search"
    else if String.eqb name "AI_SEARCH_KEY" then Some "key"
    else if String.eqb name "SQL_CONNECTION_STRING" then Some "Server=processed"
    else None;
  DefaultAzureCredential := ret tt;
  SecretClient := fun _ => ret tt;
  get_secret := fun _ => raise (Failure "no vault");
  create_or_update_index := fun _ _ _ => ret tt;
  search_all_ids := fun _ => ret ["old-1"; "old-2"];
  delete_documents := fun _ _ => ret tt;
  client_upload_documents := fun _ batch => ret (map (fun _ => false) batch);
  read_sql := fun _ t => match t with
                         | Sales => ret [demo_document]
                         | _ => ret []
                         end;
  isoformat := fun t => "2024-01-05T00:00:00"
|}.

(** A search service whose index lists two ids and refuses deletions. *)
Definition undeletable_search : SearchBackend unit := {|
  environ := fun _ => None;
  DefaultAzureCredential := ret tt;
  SecretClient := fun _ => ret tt;
  get_secret := fun _ => raise (Failure "no vault");
  create_or_update_index := fun _ _ _ => ret tt;
  search_all_ids := fun _ => ret ["old-1"; "old-2"];
  delete_documents := fun _ _ => raise (Failure "throttled");
  client_upload_documents := fun _ batch => ret (map (fun _ => true) batch);
  read_sql := fun _ _ => ret [];
  isoformat := fun _ => "2024-01-05T00:00:00"
|}.

Definition logged_start : search_run (unit * list index_call) :=
  mkSearch (tt, []) [].

(* ================================================================== *)
(** * Proofs *)

(** ** The object store: what a computation leaves untouched *)

Lemma keeps_weaken {A} n (m : M A) (P Q : A -> Prop) :
  keeps n m P -> (forall a, P a -> Q a) -> keeps n m Q.
Proof.
  intros Hm HPQ s Hs. destruct (Hm s Hs) as (H1 & H2 & H3).
  repeat split; trivial. destruct (fst (m s)); auto.
Qed.

Lemma keeps_ret {A} n (a : A) (Q : A -> Prop) : Q a -> keeps n (ret a) Q.
Proof. intros HQ s Hs. cbn. auto. Qed.

Lemma keeps_lift {A} n (r : result A) : keeps n (lift r) (fun _ => True).
Proof. intros s Hs. cbn. repeat split; trivial. destruct r; trivial. Qed.

Lemma keeps_bind {A B} n (m : M A) (k : A -> M B) (P : A -> Prop) (Q : B -> Prop) :
  keeps n m P -> (forall a, P a -> keeps n (k a) Q) -> keeps n (bind m k) Q.
Proof.
  intros Hm Hk s Hs. unfold bind.
  destruct (Hm s Hs) as (H1 & H2 & H3).
  destruct (m s) as [[a|e] s1]; cbn in *.
  - destruct (Hk a H3 s1 H2) as (K1 & K2 & K3).
    repeat split; trivial. congruence.
  - auto.
Qed.

Lemma keeps_deref n r : keeps n (deref r) (fun _ => True).
Proof. intros s Hs. cbn. auto. Qed.

Lemma keeps_utcnow n : keeps n utcnow (fun _ => True).
Proof. intros s Hs. cbn. auto. Qed.

Lemma keeps_new n d : keeps n (new d) (fun r => n <= r).
Proof.
  intros s Hs. cbn. rewrite firstn_app, length_app.
  replace (n - List.length (heap s)) with 0 by lia.
  cbn. rewrite app_nil_r. repeat split; trivial. lia.
Qed.

Lemma update_nth_length r d h : List.length (update_nth r d h) = List.length h.
Proof.
  revert r; induction h as [|x h IH]; intros [|r]; cbn; auto.
Qed.

Lemma firstn_update_nth n r d h :
  n <= r -> firstn n (update_nth r d h) = firstn n h.
Proof.
  revert n r; induction h as [|x h IH]; intros n [|r] Hn; cbn; trivial.
  - assert (n = 0) by lia. subst. reflexivity.
  - destruct n as [|n]; cbn; trivial. rewrite IH by lia. reflexivity.
Qed.

Lemma keeps_put n r d : n <= r -> keeps n (put r d) (fun _ => True).
Proof.
  intros Hr s Hs. cbn. rewrite firstn_update_nth, update_nth_length by trivial.
  auto.
Qed.

Create HintDb keeps.
#[local] Hint Resolve keeps_deref keeps_utcnow keeps_new keeps_lift keeps_put : keeps.
#[local] Hint Extern 1 (_ <= _) => lia : keeps.
#[local] Hint Extern 2 (keeps _ (ret _) _) => apply keeps_ret : keeps.

Ltac keeps_seq :=
  eapply keeps_bind; [ solve [eauto with keeps] | cbn beta; intros ? ? ].

Lemma keeps_any {A} n (m : M A) (P : A -> Prop) :
  keeps n m P -> keeps n m (fun _ => True).
Proof. intros H. eapply keeps_weaken; eauto. Qed.

Lemma keeps_groupby n df key spec :
  keeps n (groupby_agg_reset_index df key spec) (fun r => n <= r).
Proof. unfold groupby_agg_reset_index. do 2 keeps_seq. auto with keeps. Qed.

Lemma keeps_select_copy n df cols :
  keeps n (select_copy df cols) (fun r => n <= r).
Proof. unfold select_copy. do 2 keeps_seq. auto with keeps. Qed.

Lemma keeps_deref_all n rs : keeps n (deref_all rs) (fun _ => True).
Proof.
  induction rs as [|r rs IH]; cbn.
  - auto with keeps.
  - keeps_seq. eapply keeps_bind; [exact IH|]. intros. auto with keeps.
Qed.

Lemma keeps_pd_concat n rs : keeps n (pd_concat rs) (fun r => n <= r).
Proof.
  unfold pd_concat. eapply keeps_bind; [apply keeps_deref_all|]. intros.
  keeps_seq. auto with keeps.
Qed.

Lemma keeps_assign_columns n r names :
  n <= r -> keeps n (assign_columns r names) (fun _ => True).
Proof. intros. unfold assign_columns. do 2 keeps_seq. auto with keeps. Qed.

Lemma keeps_setitem n r c v : n <= r -> keeps n (setitem r c v) (fun _ => True).
Proof. intros. unfold setitem. keeps_seq. auto with keeps. Qed.

Lemma keeps_setitem_series n r c vs :
  n <= r -> keeps n (setitem_series r c vs) (fun _ => True).
Proof. intros. unfold setitem_series. keeps_seq. auto with keeps. Qed.

Lemma keeps_getitem n r c : keeps n (getitem r c) (fun _ => True).
Proof. unfold getitem. keeps_seq. auto with keeps. Qed.

Lemma keeps_is_empty n r : keeps n (is_empty r) (fun _ => True).
Proof. unfold is_empty. keeps_seq. auto with keeps. Qed.

#[local] Hint Resolve keeps_groupby keeps_select_copy keeps_pd_concat
  keeps_assign_columns keeps_setitem keeps_setitem_series keeps_getitem
  keeps_is_empty : keeps.

Lemma keeps_ecc_customers n e : keeps n (ecc_customers e) (fun r => n <= r).
Proof. unfold ecc_customers. do 3 keeps_seq. auto with keeps. Qed.

Lemma keeps_bw_customers n b : keeps n (bw_customers b) (fun r => n <= r).
Proof. unfold bw_customers. do 4 keeps_seq. auto with keeps. Qed.

Lemma keeps_ecc_products n e : keeps n (ecc_products e) (fun r => n <= r).
Proof. unfold ecc_products. do 3 keeps_seq. auto with keeps. Qed.

Lemma keeps_bw_products n b : keeps n (bw_products b) (fun r => n <= r).
Proof. unfold bw_products. do 4 keeps_seq. auto with keeps. Qed.

Lemma keeps_ecc_sales n e : keeps n (ecc_sales e) (fun r => n <= r).
Proof. unfold ecc_sales. do 4 keeps_seq. auto with keeps. Qed.

Lemma keeps_bw_sales n b : keeps n (bw_sales b) (fun r => n <= r).
Proof. unfold bw_sales. do 7 keeps_seq. auto with keeps. Qed.

#[local] Hint Resolve keeps_ecc_customers keeps_bw_customers keeps_ecc_products
  keeps_bw_products keeps_ecc_sales keeps_bw_sales : keeps.

(** The optional per-source block of a method: run it when the source is
    not empty, and append its frame to the list collected so far. *)
Lemma keeps_collect n (skip : bool) (block : M ref) (acc : list ref) :
  keeps n block (fun r => n <= r) ->
  keeps n (if negb skip then x <- block ;; ret (acc ++ [x]) else ret acc)
        (fun _ => True).
Proof.
  intros Hb. destruct skip; cbn.
  - auto with keeps.
  - eapply keeps_bind; [exact Hb|]. intros. auto with keeps.
Qed.

Lemma keeps_process_customer_data n e b :
  keeps n (process_customer_data e b) (fun _ => True).
Proof.
  unfold process_customer_data.
  keeps_seq. eapply keeps_bind; [apply keeps_collect; auto with keeps|]. intros l1 _.
  keeps_seq. eapply keeps_bind; [apply keeps_collect; auto with keeps|]. intros l2 _.
  destruct l2.
  - eapply keeps_any. auto with keeps.
  - do 7 keeps_seq. auto with keeps.
Qed.

Lemma keeps_process_product_data n e b :
  keeps n (process_product_data e b) (fun _ => True).
Proof.
  unfold process_product_data.
  keeps_seq. eapply keeps_bind; [apply keeps_collect; auto with keeps|]. intros l1 _.
  keeps_seq. eapply keeps_bind; [apply keeps_collect; auto with keeps|]. intros l2 _.
  destruct l2.
  - eapply keeps_any. auto with keeps.
  - do 7 keeps_seq. auto with keeps.
Qed.

Lemma keeps_process_sales_data n e b :
  keeps n (process_sales_data e b) (fun _ => True).
Proof.
  unfold process_sales_data.
  keeps_seq. eapply keeps_bind; [apply keeps_collect; auto with keeps|]. intros l1 _.
  keeps_seq. eapply keeps_bind; [apply keeps_collect; auto with keeps|]. intros l2 _.
  destruct l2.
  - eapply keeps_any. auto with keeps.
  - do 4 keeps_seq. auto with keeps.
Qed.

Lemma keeps_preserved {A} (m : M A) (s : store) :
  keeps (List.length (heap s)) m (fun _ => True) -> preserved s (snd (m s)).
Proof.
  intros H. destruct (H s (le_n _)) as (H1 & H2 & _).
  rewrite firstn_all in H1.
  exists (skipn (List.length (heap s)) (heap (snd (m s)))).
  rewrite <- H1 at 1. symmetry. apply firstn_skipn.
Qed.

(** C10.  Each of the three reconciliations leaves every frame that existed
    when it was called as it was, the two input frames among them: all it
    changes are frames it has created itself. *)
Theorem inputs_unchanged (s : store) (ecc_data bw_data : ref) :
  preserved s (snd (process_customer_data ecc_data bw_data s))
  /\ preserved s (snd (process_product_data ecc_data bw_data s))
  /\ preserved s (snd (process_sales_data ecc_data bw_data s)).
Proof.
  repeat split; apply keeps_preserved.
  - apply keeps_process_customer_data.
  - apply keeps_process_product_data.
  - apply keeps_process_sales_data.
Qed.

(** ** Both sources empty *)

Lemma lookup_fresh h d clk t :
  lookup (mkStore (h ++ [d]) clk t) (List.length h) = d.
Proof. unfold lookup; cbn. apply nth_middle. Qed.

(** C6.  When the ECC frame and the BW frame are both empty, each of the
    three reconciliations returns the empty frame [pd.DataFrame()] and
    raises nothing. *)
Theorem empty_sources_give_empty_output (s : store) (ecc_data bw_data : ref) :
  empty (lookup s ecc_data) = true ->
  empty (lookup s bw_data) = true ->
  returned (process_customer_data ecc_data bw_data) s = Ok empty_frame
  /\ returned (process_product_data ecc_data bw_data) s = Ok empty_frame
  /\ returned (process_sales_data ecc_data bw_data) s = Ok empty_frame.
Proof.
  intros He Hb.
  unfold returned, process_customer_data, process_product_data,
    process_sales_data, is_empty, bind, deref, ret, new.
  cbn -[lookup empty]. rewrite He. cbn -[lookup empty]. rewrite Hb.
  cbn -[lookup empty]. rewrite lookup_fresh. auto.
Qed.

Lemma empty_sources_give_empty_output_witness :
  let s := sources (fun _ => 0%Z) [] [] in
  returned (process_customer_data ecc_ref bw_ref) s = Ok empty_frame
  /\ returned (process_product_data ecc_ref bw_ref) s = Ok empty_frame
  /\ returned (process_sales_data ecc_ref bw_ref) s = Ok empty_frame.
Proof.
  apply (empty_sources_give_empty_output (sources (fun _ => 0%Z) [] []) ecc_ref bw_ref);
    reflexivity.
Defined.

(** ** What the reconciliations compute on the frames of the two sources *)

Lemma run_ecc_customers clk ecc bw :
  returned (ecc_customers ecc_ref) (sources clk ecc bw)
  = Ok (ecc_customers_frame ecc).
Proof. reflexivity. Qed.

Lemma run_bw_customers clk ecc bw :
  returned (bw_customers bw_ref) (sources clk ecc bw)
  = Ok (bw_customers_frame bw).
Proof. reflexivity. Qed.

Lemma run_customers_both clk e ecc b bw :
  returned (process_customer_data ecc_ref bw_ref)
           (sources clk (e :: ecc) (b :: bw))
  = Ok (merged "CustomerID" customer_final_spec clk
          [ecc_customers_frame (e :: ecc); bw_customers_frame (b :: bw)]).
Proof. reflexivity. Qed.

Lemma run_customers_ecc_only clk e ecc :
  returned (process_customer_data ecc_ref bw_ref) (sources clk (e :: ecc) [])
  = Raise (KeyError ["CustomerSegment"]).
Proof. reflexivity. Qed.

Lemma run_customers_bw_only clk b bw :
  returned (process_customer_data ecc_ref bw_ref) (sources clk [] (b :: bw))
  = Ok (merged "CustomerID" customer_final_spec clk [bw_customers_frame (b :: bw)]).
Proof. reflexivity. Qed.

Lemma run_ecc_products clk ecc bw :
  returned (ecc_products ecc_ref) (sources clk ecc bw)
  = Ok (ecc_products_frame ecc).
Proof. reflexivity. Qed.

Lemma run_bw_products clk ecc bw :
  returned (bw_products bw_ref) (sources clk ecc bw)
  = Ok (bw_products_frame bw).
Proof. reflexivity. Qed.

Lemma run_products_both clk e ecc b bw :
  returned (process_product_data ecc_ref bw_ref)
           (sources clk (e :: ecc) (b :: bw))
  = Ok (merged "ProductCode" product_final_spec clk
          [ecc_products_frame (e :: ecc); bw_products_frame (b :: bw)]).
Proof. reflexivity. Qed.

Lemma run_products_ecc_only clk e ecc :
  returned (process_product_data ecc_ref bw_ref) (sources clk (e :: ecc) [])
  = Raise (KeyError ["ProductCategory"]).
Proof. reflexivity. Qed.

Lemma run_products_bw_only clk b bw :
  returned (process_product_data ecc_ref bw_ref) (sources clk [] (b :: bw))
  = Ok (merged "ProductCode" product_final_spec clk [bw_products_frame (b :: bw)]).
Proof. reflexivity. Qed.

(** ** Cells and group keys *)

Lemma Qc_eq_bool_refl q : Qc_eq_bool q q = true.
Proof. unfold Qc_eq_bool. destruct (Qc_eq_dec q q); congruence. Qed.

Lemma cell_eqb_eq a b : cell_eqb a b = true <-> a = b.
Proof.
  split.
  - destruct a, b; cbn; intros H; try discriminate; trivial.
    + apply String.eqb_eq in H. congruence.
    + apply Qc_eq_bool_correct in H. congruence.
    + apply Bool.eqb_prop in H. congruence.
    + apply Z.eqb_eq in H. congruence.
    + apply Bool.eqb_prop in H. congruence.
  - intros <-. destruct a; cbn; trivial.
    + apply String.eqb_refl.
    + apply Qc_eq_bool_refl.
    + apply Bool.eqb_reflx.
    + apply Z.eqb_refl.
    + apply Bool.eqb_reflx.
Qed.

Lemma cell_eqb_refl a : cell_eqb a a = true.
Proof. apply cell_eqb_eq. reflexivity. Qed.

Lemma cell_eqb_neq a b : a <> b -> cell_eqb a b = false.
Proof.
  intros H. destruct (cell_eqb a b) eqn:E; trivial.
  apply cell_eqb_eq in E. contradiction.
Qed.

Lemma insert_key_perm k l : Permutation (insert_key k l) (k :: l).
Proof.
  induction l as [|x l IH]; cbn.
  - reflexivity.
  - destruct (cell_leb k x).
    + reflexivity.
    + rewrite IH. apply perm_swap.
Qed.

Lemma sort_keys_perm l : Permutation (sort_keys l) l.
Proof.
  induction l as [|x l IH]; cbn.
  - reflexivity.
  - rewrite insert_key_perm. now constructor.
Qed.

Lemma group_keys_perm ks :
  Permutation (group_keys ks) (nodup cell_eq_dec (filter notna ks)).
Proof. apply sort_keys_perm. Qed.

Lemma group_keys_NoDup ks : NoDup (group_keys ks).
Proof.
  eapply Permutation_NoDup.
  - symmetry. apply group_keys_perm.
  - apply NoDup_nodup.
Qed.

Lemma group_keys_In ks k : In k (group_keys ks) <-> In k ks /\ k <> NA.
Proof.
  split.
  - intros H. apply (Permutation_in _ (group_keys_perm ks)) in H.
    apply nodup_In, filter_In in H. destruct H as [H1 H2].
    split; trivial. intros ->. discriminate.
  - intros [H1 H2].
    apply (Permutation_in _ (Permutation_sym (group_keys_perm ks))).
    apply nodup_In, filter_In. split; trivial. destruct k; trivial.
    contradiction.
Qed.

(** A list of distinct keys that holds no null is its own key set, up to
    the order. *)
Lemma group_keys_distinct ks :
  NoDup ks -> ~ In NA ks -> Permutation (group_keys ks) ks.
Proof.
  intros Hnd Hna. rewrite group_keys_perm.
  assert (Hf : filter notna ks = ks).
  { apply forallb_filter_id. apply forallb_forall. intros x Hx.
    destruct x; trivial. contradiction. }
  rewrite Hf. rewrite nodup_fixed_point by trivial. reflexivity.
Qed.

(** ** Frames with one row per key *)

Lemma filter_map_swap {A B} (p : B -> bool) (g : A -> B) (l : list A) :
  filter p (map g l) = map g (filter (fun x => p (g x)) l).
Proof.
  induction l as [|x l IH]; cbn; trivial.
  destruct (p (g x)); cbn; now rewrite IH.
Qed.

Lemma filter_none {A} (p : A -> bool) (l : list A) :
  (forall x, In x l -> p x = false) -> filter p l = [].
Proof.
  induction l as [|x l IH]; cbn; intros H; trivial.
  rewrite (H x) by auto. apply IH. auto.
Qed.

Lemma filter_unique_key {A} (g : A -> cell) (l : list A) (r : A) :
  NoDup (map g l) -> In r l ->
  filter (fun x => cell_eqb (g x) (g r)) l = [r].
Proof.
  induction l as [|x l IH]; cbn; intros Hnd Hin; [contradiction|].
  inversion Hnd as [|? ? Hx Hl]; subst.
  destruct Hin as [->|Hin].
  - rewrite cell_eqb_refl. f_equal.
    apply filter_none. intros y Hy.
    apply cell_eqb_neq. intros E. apply Hx. rewrite <- E. now apply in_map.
  - rewrite cell_eqb_neq.
    + now apply IH.
    + intros E. apply Hx. rewrite E. now apply in_map.
Qed.

Lemma group_one (df : DataFrame) (key : string) (r : row) :
  NoDup (column_values df key) -> In r (rows df) ->
  group df key (cell_at df key r) = [r].
Proof. intros Hnd Hin. unfold group. now apply filter_unique_key. Qed.

Lemma group_none (df : DataFrame) (key : string) (k : cell) :
  ~ In k (column_values df key) -> group df key k = [].
Proof.
  intros Hk. unfold group. apply filter_none. intros r Hr.
  apply cell_eqb_neq. intros E. apply Hk. rewrite <- E.
  unfold column_values. now apply in_map.
Qed.

Lemma group_In (df : DataFrame) (key : string) (k : cell) (r : row) :
  In r (group df key k) <-> In r (rows df) /\ cell_at df key r = k.
Proof.
  unfold group. rewrite filter_In, cell_eqb_eq. tauto.
Qed.

(** The key column of a grouped frame lists the group keys. *)
Lemma grouped_key_column df key spec :
  column_values (grouped df key spec) key = group_keys (column_values df key).
Proof.
  unfold column_values, grouped, cell_at; cbn.
  rewrite String.eqb_refl, map_map. cbn. apply map_id.
Qed.

(** ** Aggregates over typed columns *)

Lemma of_num_numeric o : numeric (of_num o).
Proof. destruct o as [q|]; [right; exists q | left]; reflexivity. Qed.

Lemma of_date_dated o : dated (of_date o).
Proof. destruct o as [t|]; [right; exists t | left]; reflexivity. Qed.

Lemma sum_from_numeric xs q :
  Forall numeric xs ->
  exists q', fold_left cell_add (filter notna xs) (Num q) = Num q'.
Proof.
  intros H. revert q. induction H as [|x xs Hx _ IH]; intros q; cbn.
  - eauto.
  - destruct Hx as [->|[p ->]]; cbn; auto.
Qed.

Lemma aggregate_Sum_numeric xs :
  Forall numeric xs -> exists q, aggregate Sum xs = Num q.
Proof. intros H. cbn. now apply sum_from_numeric. Qed.

Lemma max_from_dated xs t :
  Forall dated xs ->
  exists t', fold_left cell_max (filter notna xs) (Date t) = Date t'.
Proof.
  intros H. revert t. induction H as [|x xs Hx _ IH]; intros t; cbn.
  - eauto.
  - destruct Hx as [->|[u ->]]; cbn; auto.
    unfold cell_max; cbn. destruct (Z.leb t u); auto.
Qed.

Lemma aggregate_Max_dated xs :
  Forall dated xs -> exists o, aggregate Max xs = of_date o.
Proof.
  intros H. cbn. induction H as [|x xs Hx Hxs IH]; cbn.
  - exists None. reflexivity.
  - destruct Hx as [->|[t ->]]; cbn; trivial.
    destruct (max_from_dated xs t Hxs) as [t' Ht']. exists (Some t'). exact Ht'.
Qed.

(** ** Concatenation *)

Lemma index_of_nth {B} (f : string -> B) (d : B) c cols i :
  index_of c cols = Some i -> nth i (map f cols) d = f c.
Proof.
  revert i; induction cols as [|x cols IH]; cbn; intros i H; [discriminate|].
  destruct (String.eqb x c) eqn:E.
  - apply String.eqb_eq in E. injection H as <-. now subst.
  - destruct (index_of c cols) as [j|]; [|discriminate].
    injection H as <-. cbn. now apply IH.
Qed.

Lemma index_of_In c cols : In c cols -> exists i, index_of c cols = Some i.
Proof.
  induction cols as [|x cols IH]; cbn; intros H; [contradiction|].
  destruct (String.eqb x c) eqn:E; [eauto|].
  destruct H as [->|H]; [rewrite String.eqb_refl in E; discriminate|].
  destruct (IH H) as [i ->]. cbn. eauto.
Qed.

(** A row taken over by [concat] shows, under every label of the result,
    the cell it had in its own frame. *)
Lemma cell_at_concat dfs df c r :
  In c (union_columns dfs) ->
  cell_at (concat_frame dfs) c
          (map (fun c' => cell_at df c' r) (union_columns dfs))
  = cell_at df c r.
Proof.
  intros Hc. unfold cell_at at 1. cbn.
  destruct (index_of_In _ _ Hc) as [i Hi]. rewrite Hi.
  exact (index_of_nth (fun c' => cell_at df c' r) NA c _ i Hi).
Qed.

Lemma filter_flat_map {A B} (p : B -> bool) (f : A -> list B) (l : list A) :
  filter p (flat_map f l) = flat_map (fun x => filter p (f x)) l.
Proof.
  induction l as [|x l IH]; cbn; trivial.
  now rewrite filter_app, IH.
Qed.

Lemma group_concat dfs key k :
  In key (union_columns dfs) ->
  group (concat_frame dfs) key k
  = flat_map (fun df =>
                map (fun r => map (fun c => cell_at df c r) (union_columns dfs))
                    (group df key k))
             dfs.
Proof.
  intros Hk. unfold group at 1. cbn [rows concat_frame].
  rewrite filter_flat_map. apply flat_map_ext. intros df.
  unfold reindex. rewrite filter_map_swap. f_equal.
  unfold group. apply filter_ext. intros r.
  now rewrite cell_at_concat.
Qed.

Lemma map_flat_map {A B C} (g : B -> C) (f : A -> list B) (l : list A) :
  map g (flat_map f l) = flat_map (fun x => map g (f x)) l.
Proof.
  induction l as [|x l IH]; cbn; trivial.
  now rewrite map_app, IH.
Qed.

(** The cells a group of the concatenation shows under a label are the
    cells the groups of the parts show under it, in the order of the parts. *)
Lemma group_concat_cells dfs key k c :
  In key (union_columns dfs) -> In c (union_columns dfs) ->
  map (cell_at (concat_frame dfs) c) (group (concat_frame dfs) key k)
  = flat_map (fun df => map (cell_at df c) (group df key k)) dfs.
Proof.
  intros Hk Hc. rewrite group_concat by trivial. rewrite map_flat_map.
  apply flat_map_ext. intros df. rewrite map_map. apply map_ext. intros r.
  now apply cell_at_concat.
Qed.

Lemma column_concat dfs c :
  In c (union_columns dfs) ->
  column_values (concat_frame dfs) c
  = flat_map (fun df => column_values df c) dfs.
Proof.
  intros Hc. unfold column_values at 1. cbn [rows concat_frame].
  rewrite map_flat_map. apply flat_map_ext. intros df.
  unfold reindex, column_values. rewrite map_map. apply map_ext. intros r.
  now apply cell_at_concat.
Qed.

Lemma group_single df key k :
  NoDup (column_values df key) -> In k (column_values df key) ->
  exists r, group df key k = [r] /\ In r (rows df) /\ cell_at df key r = k.
Proof.
  intros Hnd Hin. unfold column_values in Hin. apply in_map_iff in Hin.
  destruct Hin as (r & <- & Hr). exists r. split; [|auto].
  now apply group_one.
Qed.

(** Aggregates of a single cell, and of two. *)
Lemma aggregate_Max_one x : aggregate Max [x] = x.
Proof. destruct x; reflexivity. Qed.

Lemma aggregate_First_one x : aggregate First [x] = x.
Proof. destruct x; reflexivity. Qed.

Lemma aggregate_Sum_one q : aggregate Sum [Num q] = Num q.
Proof. cbn. f_equal. apply Qcplus_0_l. Qed.

Lemma aggregate_Sum_two p q : aggregate Sum [Num p; Num q] = Num (p + q)%Qc.
Proof. cbn. now rewrite Qcplus_0_l. Qed.

Lemma aggregate_Max_two a b :
  aggregate Max [of_date a; of_date b] = of_date (latest a b).
Proof.
  destruct a as [x|], b as [y|]; cbn; trivial.
  unfold cell_max; cbn. destruct (Z.leb_spec x y).
  - now rewrite Z.max_r.
  - rewrite Z.max_l by lia. reflexivity.
Qed.

(** ** The customer rollups *)

Lemma Forall_group (P : cell -> Prop) df key k c :
  (forall r, In r (rows df) -> P (cell_at df c r)) ->
  Forall P (map (cell_at df c) (group df key k)).
Proof.
  intros H. apply Forall_forall. intros x Hx.
  apply in_map_iff in Hx. destruct Hx as (r & <- & Hr).
  apply H. apply group_In in Hr. tauto.
Qed.

Lemma ecc_frame_CustomerID ecc :
  column_values (Ecc.frame ecc) "CustomerID"
  = map (fun r => of_str (Ecc.CustomerID r)) ecc.
Proof. unfold column_values. cbn. rewrite map_map. reflexivity. Qed.

Lemma bw_frame_CustomerID bw :
  column_values (Bw.frame bw) "CustomerID"
  = map (fun r => of_str (Bw.CustomerID r)) bw.
Proof. unfold column_values. cbn. rewrite map_map. reflexivity. Qed.

Lemma ecc_customers_rows ecc :
  rows (ecc_customers_frame ecc)
  = map (fun k => grouped_row (Ecc.frame ecc) "CustomerID" ecc_customer_spec k
                  ++ [Str "SAP_ECC"])
        (group_keys (column_values (Ecc.frame ecc) "CustomerID")).
Proof.
  unfold ecc_customers_frame.
  cbn -[grouped_row group_keys column_values]. now rewrite map_map.
Qed.

Lemma ecc_customers_keys ecc :
  column_values (ecc_customers_frame ecc) "CustomerID"
  = group_keys (column_values (Ecc.frame ecc) "CustomerID").
Proof.
  unfold column_values at 1. rewrite ecc_customers_rows, map_map.
  cbn -[group_keys column_values group aggregate]. apply map_id.
Qed.

Lemma ecc_customers_fields ecc re :
  In re (rows (ecc_customers_frame ecc)) ->
  exists n q d,
    cell_at (ecc_customers_frame ecc) "TotalOrders" re = Num n
    /\ cell_at (ecc_customers_frame ecc) "TotalSalesAmount" re = Num q
    /\ cell_at (ecc_customers_frame ecc) "LastOrderDate" re = of_date d
    /\ cell_at (ecc_customers_frame ecc) "CustomerSegment" re = NA.
Proof.
  rewrite ecc_customers_rows. intros H. apply in_map_iff in H.
  destruct H as (k & <- & _).
  destruct (aggregate_Sum_numeric
              (map (cell_at (Ecc.frame ecc) "TotalAmount")
                   (group (Ecc.frame ecc) "CustomerID" k))) as [q Hq].
  { apply Forall_group. intros r Hr. cbn in Hr. apply in_map_iff in Hr.
    destruct Hr as (x & <- & _). apply of_num_numeric. }
  destruct (aggregate_Max_dated
              (map (cell_at (Ecc.frame ecc) "OrderDate")
                   (group (Ecc.frame ecc) "CustomerID" k))) as [d Hd].
  { apply Forall_group. intros r Hr. cbn in Hr. apply in_map_iff in Hr.
    destruct Hr as (x & <- & _). apply of_date_dated. }
  eexists _, q, d. split; [|split; [|split]].
  - unfold cell_at at 1. cbn -[group cell_at]. reflexivity.
  - unfold cell_at at 1. cbn -[group cell_at aggregate]. exact Hq.
  - unfold cell_at at 1. cbn -[group cell_at aggregate]. exact Hd.
  - reflexivity.
Qed.

Lemma bw_customers_rows bw :
  rows (bw_customers_frame bw)
  = map (fun k => (grouped_row (Bw.frame bw) "CustomerID" bw_customer_spec k
                   ++ [Num 0%Qc]) ++ [Str "SAP_BW"])
        (group_keys (column_values (Bw.frame bw) "CustomerID")).
Proof.
  unfold bw_customers_frame.
  cbn -[grouped_row group_keys column_values]. now rewrite !map_map.
Qed.

Lemma bw_customers_keys bw :
  column_values (bw_customers_frame bw) "CustomerID"
  = group_keys (column_values (Bw.frame bw) "CustomerID").
Proof.
  unfold column_values at 1. rewrite bw_customers_rows, map_map.
  cbn -[group_keys column_values group aggregate]. apply map_id.
Qed.

Lemma bw_customers_fields bw rb :
  In rb (rows (bw_customers_frame bw)) ->
  exists q d,
    cell_at (bw_customers_frame bw) "TotalOrders" rb = Num 0%Qc
    /\ cell_at (bw_customers_frame bw) "TotalSalesAmount" rb = Num q
    /\ cell_at (bw_customers_frame bw) "LastOrderDate" rb = of_date d.
Proof.
  rewrite bw_customers_rows. intros H. apply in_map_iff in H.
  destruct H as (k & <- & _).
  destruct (aggregate_Sum_numeric
              (map (cell_at (Bw.frame bw) "SalesAmount")
                   (group (Bw.frame bw) "CustomerID" k))) as [q Hq].
  { apply Forall_group. intros r Hr. cbn in Hr. apply in_map_iff in Hr.
    destruct Hr as (x & <- & _). apply of_num_numeric. }
  destruct (aggregate_Max_dated
              (map (cell_at (Bw.frame bw) "SalesDate")
                   (group (Bw.frame bw) "CustomerID" k))) as [d Hd].
  { apply Forall_group. intros r Hr. cbn in Hr. apply in_map_iff in Hr.
    destruct Hr as (x & <- & _). apply of_date_dated. }
  exists q, d. split; [|split].
  - reflexivity.
  - unfold cell_at at 1. cbn -[group cell_at aggregate]. exact Hq.
  - unfold cell_at at 1. cbn -[group cell_at aggregate]. exact Hd.
Qed.

(** ** The merged customer frame *)

Lemma merged_customers_rows clk dfs :
  rows (merged "CustomerID" customer_final_spec clk dfs)
  = map (fun k => stamp_row clk
                    (grouped_row (concat_frame dfs) "CustomerID"
                                 customer_final_spec k))
        (group_keys (column_values (concat_frame dfs) "CustomerID")).
Proof.
  unfold merged, stamped.
  cbn -[grouped_row group_keys column_values concat_frame].
  now rewrite !map_map.
Qed.

Lemma merged_customers_keys clk dfs :
  column_values (merged "CustomerID" customer_final_spec clk dfs) "CustomerID"
  = group_keys (column_values (concat_frame dfs) "CustomerID").
Proof.
  unfold column_values at 1. rewrite merged_customers_rows, map_map.
  cbn -[group_keys column_values group aggregate concat_frame]. apply map_id.
Qed.

(** The cells of the merged row of key [k]: each is the aggregate, over
    the rollups in source order, of the cells the rollups hold for [k]. *)
Lemma merged_customers_cell clk dfs k c f :
  In (c, f) customer_final_spec ->
  In "CustomerID" (union_columns dfs) -> In c (union_columns dfs) ->
  cell_at (merged "CustomerID" customer_final_spec clk dfs) c
          (stamp_row clk (grouped_row (concat_frame dfs) "CustomerID"
                                      customer_final_spec k))
  = aggregate f (flat_map (fun df => map (cell_at df c) (group df "CustomerID" k)) dfs).
Proof.
  intros Hcf Hk Hc. rewrite <- group_concat_cells by trivial.
  cbn in Hcf.
  repeat (destruct Hcf as [Hcf|Hcf]; [injection Hcf as <- <-; reflexivity|]).
  contradiction.
Qed.

Lemma In_of_str {A} (f : A -> option string) (l : list A) (k : string) :
  In (Some k) (map f l) <-> In (Str k) (map (fun r => of_str (f r)) l).
Proof.
  rewrite !in_map_iff. split; intros (r & Hr & Hin); exists r; split; trivial.
  - now rewrite Hr.
  - destruct (f r); cbn in Hr; congruence.
Qed.

Lemma merged_customers_row clk dfs k ro :
  In ro (rows (merged "CustomerID" customer_final_spec clk dfs)) ->
  cell_at (merged "CustomerID" customer_final_spec clk dfs) "CustomerID" ro = k ->
  ro = stamp_row clk (grouped_row (concat_frame dfs) "CustomerID"
                                  customer_final_spec k).
Proof.
  rewrite merged_customers_rows. intros H Hk. apply in_map_iff in H.
  destruct H as (k' & <- & _). cbn in Hk. now subst.
Qed.

Lemma customers_both_row clk ecc bw k :
  In (Some k) (map Ecc.CustomerID ecc) ->
  In (Some k) (map Bw.CustomerID bw) ->
  let E := ecc_customers_frame ecc in
  let B := bw_customers_frame bw in
  let OUT := merged "CustomerID" customer_final_spec clk [E; B] in
  exists re rb ro,
    group E "CustomerID" (Str k) = [re]
    /\ group B "CustomerID" (Str k) = [rb]
    /\ group OUT "CustomerID" (Str k) = [ro]
    /\ In re (rows E) /\ In rb (rows B)
    /\ forall c f, In (c, f) customer_final_spec ->
         cell_at OUT c ro = aggregate f [cell_at E c re; cell_at B c rb].
Proof.
  intros He Hb E B OUT.
  assert (HC : union_columns [E; B]
               = ["CustomerID"; "TotalOrders"; "TotalSalesAmount";
                  "LastOrderDate"; "Region"; "SalesRep"; "DataSource";
                  "TotalQuantity"; "CustomerSegment"]) by reflexivity.
  assert (HkE : In (Str k) (column_values E "CustomerID")).
  { unfold E. rewrite ecc_customers_keys, ecc_frame_CustomerID.
    apply group_keys_In. split; [now apply In_of_str | discriminate]. }
  assert (HkB : In (Str k) (column_values B "CustomerID")).
  { unfold B. rewrite bw_customers_keys, bw_frame_CustomerID.
    apply group_keys_In. split; [now apply In_of_str | discriminate]. }
  destruct (group_single E "CustomerID" (Str k)) as (re & Gre & Hre & _).
  { unfold E. rewrite ecc_customers_keys. apply group_keys_NoDup. }
  { exact HkE. }
  destruct (group_single B "CustomerID" (Str k)) as (rb & Grb & Hrb & _).
  { unfold B. rewrite bw_customers_keys. apply group_keys_NoDup. }
  { exact HkB. }
  destruct (group_single OUT "CustomerID" (Str k)) as (ro & Gro & Hro & Kro).
  { unfold OUT. rewrite merged_customers_keys. apply group_keys_NoDup. }
  { unfold OUT. rewrite merged_customers_keys. apply group_keys_In.
    split; [|discriminate].
    rewrite column_concat by (rewrite HC; left; reflexivity).
    cbn [flat_map]. apply in_or_app. left. exact HkE. }
  exists re, rb, ro.
  split; [exact Gre|]. split; [exact Grb|]. split; [exact Gro|].
  split; [exact Hre|]. split; [exact Hrb|].
  intros c f Hcf.
  rewrite (merged_customers_row clk [E; B] (Str k) ro Hro Kro).
  unfold OUT.
  rewrite (merged_customers_cell clk [E; B] (Str k) c f Hcf).
  - cbn [flat_map]. rewrite Gre, Grb. reflexivity.
  - rewrite HC. left; reflexivity.
  - rewrite HC. unfold customer_final_spec in Hcf. cbn [In] in Hcf |- *.
    repeat (destruct Hcf as [Hcf|Hcf]; [injection Hcf as <- _; tauto|]).
    contradiction.
Qed.

Lemma Num_eq (p q : Qc) : (p == q)%Q -> Num p = Num q.
Proof. intros H. f_equal. now apply Qc_is_canon. Qed.

Lemma one_row_with_sound df cells :
  one_row_with df cells = true ->
  exists r, rows df = [r]
            /\ Forall (fun cv => cell_at df (fst cv) r = snd cv) cells.
Proof.
  unfold one_row_with. destruct (rows df) as [|r [|r' t]]; try discriminate.
  intros H. exists r. split; trivial.
  apply Forall_forall. intros cv Hcv.
  rewrite forallb_forall in H. apply cell_eqb_eq. now apply H.
Qed.

(** C3.  For a customer present in both sources, the merged row is unique
    and its [TotalOrders] and [TotalSalesAmount] are the sums of the values
    of the two per-source rollups, its [LastOrderDate] the later of the
    two.  In the scenario of one ECC order of amount 100 and one BW fact
    of amount 50 for customer C1, the output is the single row of C1 with
    [TotalOrders = 1] and [TotalSalesAmount = 150]. *)
Theorem customers_in_both_sources :
  (forall clk ecc bw k,
     In (Some k) (map Ecc.CustomerID ecc) ->
     In (Some k) (map Bw.CustomerID bw) ->
     exists E B OUT re rb ro,
       returned (ecc_customers ecc_ref) (sources clk ecc bw) = Ok E
       /\ returned (bw_customers bw_ref) (sources clk ecc bw) = Ok B
       /\ returned (process_customer_data ecc_ref bw_ref) (sources clk ecc bw)
          = Ok OUT
       /\ group E "CustomerID" (Str k) = [re]
       /\ group B "CustomerID" (Str k) = [rb]
       /\ group OUT "CustomerID" (Str k) = [ro]
       /\ (exists n m,
             cell_at E "TotalOrders" re = Num n
             /\ cell_at B "TotalOrders" rb = Num m
             /\ cell_at OUT "TotalOrders" ro = Num (n + m)%Qc)
       /\ (exists p q,
             cell_at E "TotalSalesAmount" re = Num p
             /\ cell_at B "TotalSalesAmount" rb = Num q
             /\ cell_at OUT "TotalSalesAmount" ro = Num (p + q)%Qc)
       /\ (exists d1 d2,
             cell_at E "LastOrderDate" re = of_date d1
             /\ cell_at B "LastOrderDate" rb = of_date d2
             /\ cell_at OUT "LastOrderDate" ro = of_date (latest d1 d2)))
  /\ (forall clk e b order,
        Ecc.CustomerID e = Some "C1" ->
        Ecc.OrderNumber e = Some order ->
        Ecc.TotalAmount e = Some (qz 100) ->
        Bw.CustomerID b = Some "C1" ->
        Bw.SalesAmount b = Some (qz 50) ->
        exists OUT ro,
          returned (process_customer_data ecc_ref bw_ref) (sources clk [e] [b])
          = Ok OUT
          /\ rows OUT = [ro]
          /\ cell_at OUT "CustomerID" ro = Str "C1"
          /\ cell_at OUT "TotalOrders" ro = Num (qz 1)
          /\ cell_at OUT "TotalSalesAmount" ro = Num (qz 150)).
Proof.
  split.
  - intros clk ecc bw k He Hb.
    destruct ecc as [|e ecc]; [contradiction|].
    destruct bw as [|b bw]; [contradiction|].
    destruct (customers_both_row clk (e :: ecc) (b :: bw) k He Hb)
      as (re & rb & ro & Gre & Grb & Gro & Hre & Hrb & Hcell).
    destruct (ecc_customers_fields _ _ Hre) as (n & p & d1 & En & Ep & Ed & _).
    destruct (bw_customers_fields _ _ Hrb) as (q & d2 & Bn & Bq & Bd).
    exists (ecc_customers_frame (e :: ecc)), (bw_customers_frame (b :: bw)),
      (merged "CustomerID" customer_final_spec clk
         [ecc_customers_frame (e :: ecc); bw_customers_frame (b :: bw)]),
      re, rb, ro.
    split; [apply run_ecc_customers|]. split; [apply run_bw_customers|].
    split; [apply run_customers_both|].
    split; [exact Gre|]. split; [exact Grb|]. split; [exact Gro|].
    split; [|split].
    + exists n, 0%Qc. split; [exact En|]. split; [exact Bn|].
      rewrite (Hcell "TotalOrders" Sum) by (cbn; auto).
      rewrite En, Bn. apply aggregate_Sum_two.
    + exists p, q. split; [exact Ep|]. split; [exact Bq|].
      rewrite (Hcell "TotalSalesAmount" Sum) by (cbn; auto).
      rewrite Ep, Bq. apply aggregate_Sum_two.
    + exists d1, d2. split; [exact Ed|]. split; [exact Bd|].
      rewrite (Hcell "LastOrderDate" Max) by (cbn; auto).
      rewrite Ed, Bd. apply aggregate_Max_two.
  - intros clk [c1 o1 d1 p1 q1 u1 t1 s1 r1 g1 x1] [c2 p2 a2 q2 d2 r2 g2 h2 y2 z2 x2]
      order H1 H2 H3 H4 H5.
    cbn in H1, H2, H3, H4, H5. subst.
    destruct (one_row_with_sound
                (merged "CustomerID" customer_final_spec clk
                   [ecc_customers_frame
                      [Ecc.mk (Some "C1") (Some order) d1 p1 q1 u1
                              (Some (qz 100)) s1 r1 g1 x1];
                    bw_customers_frame
                      [Bw.mk (Some "C1") p2 (Some (qz 50)) q2 d2 r2 g2 h2 y2
                             z2 x2]])
                [("CustomerID", Str "C1"); ("TotalOrders", Num (qz 1));
                 ("TotalSalesAmount", Num (qz 150))])
      as (ro & Hrows & Hcells).
    { vm_compute. reflexivity. }
    inversion Hcells as [|? ? K1 Hc1]; subst.
    inversion Hc1 as [|? ? K2 Hc2]; subst.
    inversion Hc2 as [|? ? K3 _]; subst.
    eexists. exists ro. split; [apply run_customers_both|].
    split; [exact Hrows|]. split; [exact K1|]. split; [exact K2|exact K3].
Qed.

Lemma customers_in_both_sources_witness :
  (exists E B OUT re rb ro,
     returned (ecc_customers ecc_ref)
       (sources (fun _ => 0%Z) [ecc_line "C1" "P1" "O1" 1 100 100 5]
                [bw_fact "C1" "P1" 50 1 7]) = Ok E
     /\ returned (bw_customers bw_ref)
         (sources (fun _ => 0%Z) [ecc_line "C1" "P1" "O1" 1 100 100 5]
                  [bw_fact "C1" "P1" 50 1 7]) = Ok B
     /\ returned (process_customer_data ecc_ref bw_ref)
         (sources (fun _ => 0%Z) [ecc_line "C1" "P1" "O1" 1 100 100 5]
                  [bw_fact "C1" "P1" 50 1 7]) = Ok OUT
     /\ group E "CustomerID" (Str "C1") = [re]
     /\ group B "CustomerID" (Str "C1") = [rb]
     /\ group OUT "CustomerID" (Str "C1") = [ro]
     /\ (exists n m,
           cell_at E "TotalOrders" re = Num n
           /\ cell_at B "TotalOrders" rb = Num m
           /\ cell_at OUT "TotalOrders" ro = Num (n + m)%Qc)
     /\ (exists p q,
           cell_at E "TotalSalesAmount" re = Num p
           /\ cell_at B "TotalSalesAmount" rb = Num q
           /\ cell_at OUT "TotalSalesAmount" ro = Num (p + q)%Qc)
     /\ (exists d1 d2,
           cell_at E "LastOrderDate" re = of_date d1
           /\ cell_at B "LastOrderDate" rb = of_date d2
           /\ cell_at OUT "LastOrderDate" ro = of_date (latest d1 d2)))
  /\ (exists OUT ro,
        returned (process_customer_data ecc_ref bw_ref)
          (sources (fun _ => 0%Z) [ecc_line "C1" "P1" "O1" 1 100 100 5]
                   [bw_fact "C1" "P1" 50 1 7]) = Ok OUT
        /\ rows OUT = [ro]
        /\ cell_at OUT "CustomerID" ro = Str "C1"
        /\ cell_at OUT "TotalOrders" ro = Num (qz 1)
        /\ cell_at OUT "TotalSalesAmount" ro = Num (qz 150)).
Proof.
  split.
  - apply (proj1 customers_in_both_sources); cbn; left; reflexivity.
  - apply (proj2 customers_in_both_sources (fun _ => 0%Z)
             (ecc_line "C1" "P1" "O1" 1 100 100 5)
             (bw_fact "C1" "P1" 50 1 7) "O1"); reflexivity.
Defined.

(** ** Disjoint customer sets *)

Lemma of_str_cases (o : option string) : of_str o = NA \/ exists s, o = Some s /\ of_str o = Str s.
Proof. destruct o as [s|]; [right; exists s; auto | left; reflexivity]. Qed.

Lemma key_is_string {A} (f : A -> option string) (l : list A) (k : cell) :
  In k (group_keys (map (fun r => of_str (f r)) l)) ->
  exists s, k = Str s /\ In (Some s) (map f l).
Proof.
  intros H. apply group_keys_In in H. destruct H as [H Hna].
  apply in_map_iff in H. destruct H as (r & <- & Hr).
  destruct (f r) as [s|] eqn:E; cbn in *; [|contradiction].
  exists s. split; trivial. rewrite <- E. now apply in_map.
Qed.

Lemma NoDup_app_disjoint {A} (l1 l2 : list A) :
  NoDup l1 -> NoDup l2 -> (forall x, In x l1 -> ~ In x l2) -> NoDup (l1 ++ l2).
Proof.
  induction l1 as [|x l1 IH]; cbn; intros H1 H2 Hd; trivial.
  inversion H1; subst. constructor.
  - rewrite in_app_iff. intros [H|H]; [contradiction|]. apply (Hd x); auto.
  - apply IH; auto.
Qed.

Lemma aggregate_one_customer c f x :
  In (c, f) customer_final_spec ->
  (f = Sum -> exists n, x = Num n) ->
  aggregate f [x] = x.
Proof.
  intros Hcf Hsum. cbn in Hcf.
  repeat (destruct Hcf as [Hcf|Hcf];
          [injection Hcf as <- <-;
           first [ destruct (Hsum eq_refl) as [n ->]; apply aggregate_Sum_one
                 | apply aggregate_Max_one | apply aggregate_First_one ] |]).
  contradiction.
Qed.

Lemma customer_fields_cases c :
  In c customer_fields ->
  c = "CustomerID" \/ exists f, In (c, f) customer_final_spec.
Proof.
  cbn. intros H.
  repeat (destruct H as [<-|H]; [first [left; reflexivity | right; eexists; cbn; eauto 10]|]).
  contradiction.
Qed.

Lemma customer_spec_columns e b c f :
  In (c, f) customer_final_spec ->
  In c (union_columns [ecc_customers_frame e; bw_customers_frame b]).
Proof.
  intros H. change (union_columns [ecc_customers_frame e; bw_customers_frame b])
    with ["CustomerID"; "TotalOrders"; "TotalSalesAmount"; "LastOrderDate";
          "Region"; "SalesRep"; "DataSource"; "TotalQuantity"; "CustomerSegment"].
  cbn in H |- *.
  repeat (destruct H as [H|H]; [injection H as <- _; tauto|]).
  contradiction.
Qed.

Lemma customer_key_column e b :
  In "CustomerID" (union_columns [ecc_customers_frame e; bw_customers_frame b]).
Proof. left. reflexivity. Qed.

(** The merged row of a key that only the ECC rollup holds carries the
    cells of the ECC row. *)
Lemma merged_customer_from_ecc clk ecc bw re c :
  In re (rows (ecc_customers_frame ecc)) ->
  ~ In (cell_at (ecc_customers_frame ecc) "CustomerID" re)
       (column_values (bw_customers_frame bw) "CustomerID") ->
  In c customer_fields ->
  cell_at (merged "CustomerID" customer_final_spec clk
             [ecc_customers_frame ecc; bw_customers_frame bw]) c
          (stamp_row clk
             (grouped_row
                (concat_frame [ecc_customers_frame ecc; bw_customers_frame bw])
                "CustomerID" customer_final_spec
                (cell_at (ecc_customers_frame ecc) "CustomerID" re)))
  = cell_at (ecc_customers_frame ecc) c re.
Proof.
  intros Hre Hnb Hc.
  destruct (customer_fields_cases c Hc) as [->|[f Hcf]]; [reflexivity|].
  rewrite (merged_customers_cell clk _ _ c f Hcf (customer_key_column _ _)
             (customer_spec_columns _ _ c f Hcf)).
  cbn [flat_map]. rewrite group_one; trivial.
  2:{ rewrite ecc_customers_keys. apply group_keys_NoDup. }
  rewrite (group_none _ _ _ Hnb). cbn [map app].
  apply (aggregate_one_customer c f); trivial.
  intros ->. destruct (ecc_customers_fields ecc re Hre) as (n & q & d & Hn & Hq & _).
  cbn in Hcf.
  repeat (destruct Hcf as [Hcf|Hcf]; [first [discriminate Hcf | injection Hcf as <-; eauto]|]).
  contradiction.
Qed.

Lemma merged_customer_from_bw clk ecc bw rb c :
  In rb (rows (bw_customers_frame bw)) ->
  ~ In (cell_at (bw_customers_frame bw) "CustomerID" rb)
       (column_values (ecc_customers_frame ecc) "CustomerID") ->
  In c customer_fields ->
  cell_at (merged "CustomerID" customer_final_spec clk
             [ecc_customers_frame ecc; bw_customers_frame bw]) c
          (stamp_row clk
             (grouped_row
                (concat_frame [ecc_customers_frame ecc; bw_customers_frame bw])
                "CustomerID" customer_final_spec
                (cell_at (bw_customers_frame bw) "CustomerID" rb)))
  = cell_at (bw_customers_frame bw) c rb.
Proof.
  intros Hrb Hne Hc.
  destruct (customer_fields_cases c Hc) as [->|[f Hcf]]; [reflexivity|].
  rewrite (merged_customers_cell clk _ _ c f Hcf (customer_key_column _ _)
             (customer_spec_columns _ _ c f Hcf)).
  cbn [flat_map]. rewrite (group_none _ _ _ Hne). rewrite group_one; trivial.
  2:{ rewrite bw_customers_keys. apply group_keys_NoDup. }
  cbn [map app].
  apply (aggregate_one_customer c f); trivial.
  intros ->. destruct (bw_customers_fields bw rb Hrb) as (q & d & Hn & Hq & _).
  cbn in Hcf.
  repeat (destruct Hcf as [Hcf|Hcf]; [first [discriminate Hcf | injection Hcf as <-; eauto]|]).
  contradiction.
Qed.

(** C4.  When both sources are non-empty and share no customer, the
    merged frame holds, in its data columns, exactly the rows of the two
    per-source rollups, each with the cells it had (a column a rollup does
    not have, as [CustomerSegment] for ECC, being null). *)
Theorem disjoint_customers_union clk ecc bw :
  ecc <> [] -> bw <> [] ->
  (forall k, In (Some k) (map Ecc.CustomerID ecc) ->
             ~ In (Some k) (map Bw.CustomerID bw)) ->
  exists E B OUT,
    returned (ecc_customers ecc_ref) (sources clk ecc bw) = Ok E
    /\ returned (bw_customers bw_ref) (sources clk ecc bw) = Ok B
    /\ returned (process_customer_data ecc_ref bw_ref) (sources clk ecc bw) = Ok OUT
    /\ Permutation (reindex customer_fields OUT)
                   (reindex customer_fields E ++ reindex customer_fields B).
Proof.
  intros Hecc Hbw Hdis.
  destruct ecc as [|e ecc]; [contradiction|].
  destruct bw as [|b bw]; [contradiction|].
  set (E := ecc_customers_frame (e :: ecc)).
  set (B := bw_customers_frame (b :: bw)).
  exists E, B, (merged "CustomerID" customer_final_spec clk [E; B]).
  split; [apply run_ecc_customers|]. split; [apply run_bw_customers|].
  split; [apply run_customers_both|].
  assert (HdE : forall k, In k (column_values E "CustomerID") ->
                          ~ In k (column_values B "CustomerID")).
  { unfold E, B. intros k Hk Hk'.
    rewrite ecc_customers_keys, ecc_frame_CustomerID in Hk.
    rewrite bw_customers_keys, bw_frame_CustomerID in Hk'.
    apply key_is_string in Hk. destruct Hk as (s & -> & Hs).
    apply key_is_string in Hk'. destruct Hk' as (s' & Es & Hs').
    injection Es as <-. exact (Hdis s Hs Hs'). }
  assert (HKC : column_values (concat_frame [E; B]) "CustomerID"
                = column_values E "CustomerID" ++ column_values B "CustomerID").
  { rewrite column_concat by apply customer_key_column.
    cbn [flat_map]. now rewrite app_nil_r. }
  assert (Hperm : Permutation
                    (group_keys (column_values (concat_frame [E; B]) "CustomerID"))
                    (column_values E "CustomerID" ++ column_values B "CustomerID")).
  { rewrite HKC. apply group_keys_distinct.
    - apply NoDup_app_disjoint; trivial.
      + unfold E. rewrite ecc_customers_keys. apply group_keys_NoDup.
      + unfold B. rewrite bw_customers_keys. apply group_keys_NoDup.
    - rewrite in_app_iff. unfold E, B.
      rewrite ecc_customers_keys, bw_customers_keys.
      intros [H|H]; apply group_keys_In in H; destruct H as [_ H]; now apply H. }
  set (F := fun k : cell =>
              map (fun c =>
                     cell_at (merged "CustomerID" customer_final_spec clk [E; B]) c
                       (stamp_row clk
                          (grouped_row (concat_frame [E; B]) "CustomerID"
                                       customer_final_spec k)))
                  customer_fields).
  assert (Hrows :
    reindex customer_fields (merged "CustomerID" customer_final_spec clk [E; B])
    = map F (group_keys (column_values (concat_frame [E; B]) "CustomerID"))).
  { unfold reindex. rewrite merged_customers_rows. apply map_map. }
  assert (HE : map F (column_values E "CustomerID") = reindex customer_fields E).
  { unfold column_values, reindex. rewrite map_map.
    apply map_ext_in. intros re Hre. unfold F. apply map_ext_in. intros c Hc.
    apply merged_customer_from_ecc; trivial.
    apply HdE. unfold column_values. now apply in_map. }
  assert (HB : map F (column_values B "CustomerID") = reindex customer_fields B).
  { unfold column_values, reindex. rewrite map_map.
    apply map_ext_in. intros rb Hrb. unfold F. apply map_ext_in. intros c Hc.
    apply merged_customer_from_bw; trivial.
    intros H. apply (HdE _ H). unfold column_values. now apply in_map. }
  rewrite Hrows, <- HE, <- HB, <- map_app.
  apply Permutation_map. exact Hperm.
Qed.

Lemma disjoint_customers_union_witness :
  exists E B OUT,
    returned (ecc_customers ecc_ref)
      (sources (fun _ => 0%Z) [ecc_line "C1" "P1" "O1" 1 100 100 5]
               [bw_fact "C2" "P1" 50 1 7]) = Ok E
    /\ returned (bw_customers bw_ref)
        (sources (fun _ => 0%Z) [ecc_line "C1" "P1" "O1" 1 100 100 5]
                 [bw_fact "C2" "P1" 50 1 7]) = Ok B
    /\ returned (process_customer_data ecc_ref bw_ref)
        (sources (fun _ => 0%Z) [ecc_line "C1" "P1" "O1" 1 100 100 5]
                 [bw_fact "C2" "P1" 50 1 7]) = Ok OUT
    /\ Permutation (reindex customer_fields OUT)
                   (reindex customer_fields E ++ reindex customer_fields B).
Proof.
  apply (disjoint_customers_union (fun _ => 0%Z)
           [ecc_line "C1" "P1" "O1" 1 100 100 5] [bw_fact "C2" "P1" 50 1 7]).
  - discriminate.
  - discriminate.
  - cbn. intros k [H|[]] [H'|[]]. congruence.
Defined.

(** ** The product rollups and the merged product frame *)

Lemma ecc_frame_ProductCode ecc :
  column_values (Ecc.frame ecc) "ProductCode"
  = map (fun r => of_str (Ecc.ProductCode r)) ecc.
Proof. unfold column_values. cbn. rewrite map_map. reflexivity. Qed.

Lemma bw_frame_ProductCode bw :
  column_values (Bw.frame bw) "ProductCode"
  = map (fun r => of_str (Bw.ProductCode r)) bw.
Proof. unfold column_values. cbn. rewrite map_map. reflexivity. Qed.

Lemma ecc_products_rows ecc :
  rows (ecc_products_frame ecc)
  = map (fun k => grouped_row (Ecc.frame ecc) "ProductCode" ecc_product_spec k
                  ++ [Str "SAP_ECC"])
        (group_keys (column_values (Ecc.frame ecc) "ProductCode")).
Proof.
  unfold ecc_products_frame.
  cbn -[grouped_row group_keys column_values]. now rewrite map_map.
Qed.

Lemma ecc_products_keys ecc :
  column_values (ecc_products_frame ecc) "ProductCode"
  = group_keys (column_values (Ecc.frame ecc) "ProductCode").
Proof.
  unfold column_values at 1. rewrite ecc_products_rows, map_map.
  cbn -[group_keys column_values group aggregate]. apply map_id.
Qed.

Lemma aggregate_Mean_numeric xs :
  Forall numeric xs -> exists o, aggregate Mean xs = of_num o.
Proof.
  intros H. cbn. destruct (filter notna xs) as [|y ys] eqn:E.
  - exists None. reflexivity.
  - rewrite <- E.
    destruct (sum_from_numeric xs 0%Qc H) as [q ->].
    exists (Some (q / qnat (List.length (filter notna xs)))%Qc). reflexivity.
Qed.

(** The unit price of an ECC rollup row is the mean of the unit prices of
    the order lines of its product. *)
Lemma ecc_products_fields ecc re :
  In re (rows (ecc_products_frame ecc)) ->
  exists n q o,
    cell_at (ecc_products_frame ecc) "TotalQuantitySold" re = Num n
    /\ cell_at (ecc_products_frame ecc) "TotalSalesAmount" re = Num q
    /\ cell_at (ecc_products_frame ecc) "UnitPrice" re = of_num o
    /\ cell_at (ecc_products_frame ecc) "UnitPrice" re
       = aggregate Mean
           (map (cell_at (Ecc.frame ecc) "UnitPrice")
                (group (Ecc.frame ecc) "ProductCode"
                       (cell_at (ecc_products_frame ecc) "ProductCode" re))).
Proof.
  rewrite ecc_products_rows. intros H. apply in_map_iff in H.
  destruct H as (k & <- & _).
  assert (Hnum : forall c o,
             (forall x, cell_at (Ecc.frame ecc) c (Ecc.cells x) = of_num (o x)) ->
             Forall numeric (map (cell_at (Ecc.frame ecc) c)
                                 (group (Ecc.frame ecc) "ProductCode" k))).
  { intros c o Hc. apply Forall_group. intros r Hr. cbn in Hr.
    apply in_map_iff in Hr. destruct Hr as (x & <- & _).
    rewrite Hc. apply of_num_numeric. }
  destruct (aggregate_Sum_numeric _ (Hnum "Quantity" Ecc.Quantity (fun _ => eq_refl)))
    as [n Hn].
  destruct (aggregate_Sum_numeric _ (Hnum "TotalAmount" Ecc.TotalAmount (fun _ => eq_refl)))
    as [q Hq].
  destruct (aggregate_Mean_numeric _ (Hnum "UnitPrice" Ecc.UnitPrice (fun _ => eq_refl)))
    as [o Ho].
  exists n, q, o. split; [|split; [|split]].
  - unfold cell_at at 1. cbn -[group cell_at aggregate]. exact Hn.
  - unfold cell_at at 1. cbn -[group cell_at aggregate]. exact Hq.
  - unfold cell_at at 1. cbn -[group cell_at aggregate]. exact Ho.
  - reflexivity.
Qed.

Lemma bw_products_rows bw :
  rows (bw_products_frame bw)
  = map (fun k => (grouped_row (Bw.frame bw) "ProductCode" bw_product_spec k
                   ++ [Num 0%Qc]) ++ [Str "SAP_BW"])
        (group_keys (column_values (Bw.frame bw) "ProductCode")).
Proof.
  unfold bw_products_frame.
  cbn -[grouped_row group_keys column_values]. now rewrite !map_map.
Qed.

Lemma bw_products_keys bw :
  column_values (bw_products_frame bw) "ProductCode"
  = group_keys (column_values (Bw.frame bw) "ProductCode").
Proof.
  unfold column_values at 1. rewrite bw_products_rows, map_map.
  cbn -[group_keys column_values group aggregate]. apply map_id.
Qed.

(** BW carries no unit price: its rollup holds the constant 0. *)
Lemma bw_products_fields bw rb :
  In rb (rows (bw_products_frame bw)) ->
  cell_at (bw_products_frame bw) "UnitPrice" rb = Num 0%Qc.
Proof.
  rewrite bw_products_rows. intros H. apply in_map_iff in H.
  destruct H as (k & <- & _). reflexivity.
Qed.

Lemma merged_products_rows clk dfs :
  rows (merged "ProductCode" product_final_spec clk dfs)
  = map (fun k => stamp_row clk
                    (grouped_row (concat_frame dfs) "ProductCode"
                                 product_final_spec k))
        (group_keys (column_values (concat_frame dfs) "ProductCode")).
Proof.
  unfold merged, stamped.
  cbn -[grouped_row group_keys column_values concat_frame].
  now rewrite !map_map.
Qed.

Lemma merged_products_keys clk dfs :
  column_values (merged "ProductCode" product_final_spec clk dfs) "ProductCode"
  = group_keys (column_values (concat_frame dfs) "ProductCode").
Proof.
  unfold column_values at 1. rewrite merged_products_rows, map_map.
  cbn -[group_keys column_values group aggregate concat_frame]. apply map_id.
Qed.

Lemma merged_products_cell clk dfs k c f :
  In (c, f) product_final_spec ->
  In "ProductCode" (union_columns dfs) -> In c (union_columns dfs) ->
  cell_at (merged "ProductCode" product_final_spec clk dfs) c
          (stamp_row clk (grouped_row (concat_frame dfs) "ProductCode"
                                      product_final_spec k))
  = aggregate f (flat_map (fun df => map (cell_at df c) (group df "ProductCode" k)) dfs).
Proof.
  intros Hcf Hk Hc. rewrite <- group_concat_cells by trivial.
  cbn in Hcf.
  repeat (destruct Hcf as [Hcf|Hcf]; [injection Hcf as <- <-; reflexivity|]).
  contradiction.
Qed.

Lemma merged_products_row clk dfs k ro :
  In ro (rows (merged "ProductCode" product_final_spec clk dfs)) ->
  cell_at (merged "ProductCode" product_final_spec clk dfs) "ProductCode" ro = k ->
  ro = stamp_row clk (grouped_row (concat_frame dfs) "ProductCode"
                                  product_final_spec k).
Proof.
  rewrite merged_products_rows. intros H Hk. apply in_map_iff in H.
  destruct H as (k' & <- & _). cbn in Hk. now subst.
Qed.

Lemma products_both_row clk ecc bw k :
  In (Some k) (map Ecc.ProductCode ecc) ->
  In (Some k) (map Bw.ProductCode bw) ->
  let E := ecc_products_frame ecc in
  let B := bw_products_frame bw in
  let OUT := merged "ProductCode" product_final_spec clk [E; B] in
  exists re rb ro,
    group E "ProductCode" (Str k) = [re]
    /\ group B "ProductCode" (Str k) = [rb]
    /\ group OUT "ProductCode" (Str k) = [ro]
    /\ In re (rows E) /\ In rb (rows B)
    /\ cell_at E "ProductCode" re = Str k
    /\ forall c f, In (c, f) product_final_spec ->
         cell_at OUT c ro = aggregate f [cell_at E c re; cell_at B c rb].
Proof.
  intros He Hb E B OUT.
  assert (HC : union_columns [E; B]
               = ["ProductCode"; "TotalQuantitySold"; "TotalSalesAmount";
                  "UnitPrice"; "DataSource"; "ProductCategory"]) by reflexivity.
  assert (HkE : In (Str k) (column_values E "ProductCode")).
  { unfold E. rewrite ecc_products_keys, ecc_frame_ProductCode.
    apply group_keys_In. split; [now apply In_of_str | discriminate]. }
  assert (HkB : In (Str k) (column_values B "ProductCode")).
  { unfold B. rewrite bw_products_keys, bw_frame_ProductCode.
    apply group_keys_In. split; [now apply In_of_str | discriminate]. }
  destruct (group_single E "ProductCode" (Str k)) as (re & Gre & Hre & Kre).
  { unfold E. rewrite ecc_products_keys. apply group_keys_NoDup. }
  { exact HkE. }
  destruct (group_single B "ProductCode" (Str k)) as (rb & Grb & Hrb & _).
  { unfold B. rewrite bw_products_keys. apply group_keys_NoDup. }
  { exact HkB. }
  destruct (group_single OUT "ProductCode" (Str k)) as (ro & Gro & Hro & Kro).
  { unfold OUT. rewrite merged_products_keys. apply group_keys_NoDup. }
  { unfold OUT. rewrite merged_products_keys. apply group_keys_In.
    split; [|discriminate].
    rewrite column_concat by (rewrite HC; left; reflexivity).
    cbn [flat_map]. apply in_or_app. left. exact HkE. }
  exists re, rb, ro.
  split; [exact Gre|]. split; [exact Grb|]. split; [exact Gro|].
  split; [exact Hre|]. split; [exact Hrb|]. split; [exact Kre|].
  intros c f Hcf.
  rewrite (merged_products_row clk [E; B] (Str k) ro Hro Kro).
  unfold OUT.
  rewrite (merged_products_cell clk [E; B] (Str k) c f Hcf).
  - cbn [flat_map]. rewrite Gre, Grb. reflexivity.
  - rewrite HC. left; reflexivity.
  - rewrite HC. unfold product_final_spec in Hcf. cbn [In] in Hcf |- *.
    repeat (destruct Hcf as [Hcf|Hcf]; [injection Hcf as <- _; tauto|]).
    contradiction.
Qed.

Lemma aggregate_Mean_with_zero (o : option Qc) :
  aggregate Mean [of_num o; Num 0%Qc]
  = Num (match o with Some x => (x / qz 2)%Qc | None => 0%Qc end).
Proof.
  destruct o as [x|]; cbn.
  - now rewrite Qcplus_0_l, Qcplus_0_r.
  - apply Num_eq. reflexivity.
Qed.

(** C1 (as the code has it).  For a product present in both sources, the
    merged [UnitPrice] is the mean of the unit prices of the two per-source
    rollups: the ECC rollup holds the mean of the line unit prices of the
    product, the BW rollup the constant 0, so the merged value is half the
    ECC mean, and 0 when ECC has no unit price for the product.  The BW
    value is averaged in, not dropped. *)
Theorem unit_price_of_product_in_both_sources clk ecc bw k :
  In (Some k) (map Ecc.ProductCode ecc) ->
  In (Some k) (map Bw.ProductCode bw) ->
  exists E B OUT re rb ro ecc_mean,
    returned (ecc_products ecc_ref) (sources clk ecc bw) = Ok E
    /\ returned (bw_products bw_ref) (sources clk ecc bw) = Ok B
    /\ returned (process_product_data ecc_ref bw_ref) (sources clk ecc bw) = Ok OUT
    /\ group E "ProductCode" (Str k) = [re]
    /\ group B "ProductCode" (Str k) = [rb]
    /\ group OUT "ProductCode" (Str k) = [ro]
    /\ aggregate Mean
         (map (cell_at (Ecc.frame ecc) "UnitPrice")
              (group (Ecc.frame ecc) "ProductCode" (Str k)))
       = of_num ecc_mean
    /\ cell_at E "UnitPrice" re = of_num ecc_mean
    /\ cell_at B "UnitPrice" rb = Num 0%Qc
    /\ cell_at OUT "UnitPrice" ro
       = Num (match ecc_mean with
              | Some x => (x / qz 2)%Qc
              | None => 0%Qc
              end).
Proof.
  intros He Hb.
  destruct ecc as [|e ecc]; [contradiction|].
  destruct bw as [|b bw]; [contradiction|].
  destruct (products_both_row clk (e :: ecc) (b :: bw) k He Hb)
    as (re & rb & ro & Gre & Grb & Gro & Hre & Hrb & Kre & Hcell).
  destruct (ecc_products_fields _ _ Hre) as (n & q & o & _ & _ & Eo & Emean).
  pose proof (bw_products_fields _ _ Hrb) as Bz.
  exists (ecc_products_frame (e :: ecc)), (bw_products_frame (b :: bw)),
    (merged "ProductCode" product_final_spec clk
       [ecc_products_frame (e :: ecc); bw_products_frame (b :: bw)]),
    re, rb, ro, o.
  split; [apply run_ecc_products|]. split; [apply run_bw_products|].
  split; [apply run_products_both|].
  split; [exact Gre|]. split; [exact Grb|]. split; [exact Gro|].
  split; [rewrite <- Eo, Emean, Kre; reflexivity|].
  split; [exact Eo|]. split; [exact Bz|].
  rewrite (Hcell "UnitPrice" Mean) by (cbn; auto).
  rewrite Eo, Bz. apply aggregate_Mean_with_zero.
Qed.

Lemma unit_price_of_product_in_both_sources_witness :
  exists E B OUT re rb ro ecc_mean,
    returned (ecc_products ecc_ref)
      (sources (fun _ => 0%Z) [ecc_line "C1" "P1" "O1" 1 10 10 5]
               [bw_fact "C1" "P1" 50 1 7]) = Ok E
    /\ returned (bw_products bw_ref)
        (sources (fun _ => 0%Z) [ecc_line "C1" "P1" "O1" 1 10 10 5]
                 [bw_fact "C1" "P1" 50 1 7]) = Ok B
    /\ returned (process_product_data ecc_ref bw_ref)
        (sources (fun _ => 0%Z) [ecc_line "C1" "P1" "O1" 1 10 10 5]
                 [bw_fact "C1" "P1" 50 1 7]) = Ok OUT
    /\ group E "ProductCode" (Str "P1") = [re]
    /\ group B "ProductCode" (Str "P1") = [rb]
    /\ group OUT "ProductCode" (Str "P1") = [ro]
    /\ aggregate Mean
         (map (cell_at (Ecc.frame [ecc_line "C1" "P1" "O1" 1 10 10 5]) "UnitPrice")
              (group (Ecc.frame [ecc_line "C1" "P1" "O1" 1 10 10 5])
                     "ProductCode" (Str "P1")))
       = of_num ecc_mean
    /\ cell_at E "UnitPrice" re = of_num ecc_mean
    /\ cell_at B "UnitPrice" rb = Num 0%Qc
    /\ cell_at OUT "UnitPrice" ro
       = Num (match ecc_mean with
              | Some x => (x / qz 2)%Qc
              | None => 0%Qc
              end).
Proof.
  apply (unit_price_of_product_in_both_sources (fun _ => 0%Z)
           [ecc_line "C1" "P1" "O1" 1 10 10 5] [bw_fact "C1" "P1" 50 1 7] "P1");
    cbn; left; reflexivity.
Defined.

(** C1, counterexample to the claim as stated: with one ECC line of unit
    price 10 and one BW fact for the same product, the ECC rollup holds the
    mean 10 but the merged row holds 5. *)
Lemma unit_price_is_not_the_ecc_mean :
  exists E OUT re ro,
    returned (ecc_products ecc_ref)
      (sources (fun _ => 0%Z) [ecc_line "C1" "P1" "O1" 1 10 10 5]
               [bw_fact "C1" "P1" 50 1 7]) = Ok E
    /\ returned (process_product_data ecc_ref bw_ref)
        (sources (fun _ => 0%Z) [ecc_line "C1" "P1" "O1" 1 10 10 5]
                 [bw_fact "C1" "P1" 50 1 7]) = Ok OUT
    /\ rows E = [re] /\ rows OUT = [ro]
    /\ cell_at E "ProductCode" re = Str "P1"
    /\ cell_at OUT "ProductCode" ro = Str "P1"
    /\ cell_at E "UnitPrice" re = Num (qz 10)
    /\ cell_at OUT "UnitPrice" ro = Num (qz 5)
    /\ cell_at OUT "UnitPrice" ro <> cell_at E "UnitPrice" re.
Proof.
  destruct (one_row_with_sound
              (ecc_products_frame [ecc_line "C1" "P1" "O1" 1 10 10 5])
              [("ProductCode", Str "P1"); ("UnitPrice", Num (qz 10))])
    as (re & Hre & Fe); [vm_compute; reflexivity|].
  destruct (one_row_with_sound
              (merged "ProductCode" product_final_spec (fun _ => 0%Z)
                 [ecc_products_frame [ecc_line "C1" "P1" "O1" 1 10 10 5];
                  bw_products_frame [bw_fact "C1" "P1" 50 1 7]])
              [("ProductCode", Str "P1"); ("UnitPrice", Num (qz 5))])
    as (ro & Hro & Fo); [vm_compute; reflexivity|].
  inversion Fe as [|? ? E1 Fe']; subst. inversion Fe' as [|? ? E2 _]; subst.
  inversion Fo as [|? ? O1 Fo']; subst. inversion Fo' as [|? ? O2 _]; subst.
  cbn [fst snd] in *.
  eexists. eexists. exists re, ro.
  split; [apply run_ecc_products|]. split; [apply run_products_both|].
  split; [exact Hre|]. split; [exact Hro|]. split; [exact E1|].
  split; [exact O1|]. split; [exact E2|]. split; [exact O2|].
  rewrite E2, O2. intros H. injection H as H. discriminate H.
Qed.

(** ** One row per key *)

Lemma of_str_in_keys {A} (f : A -> option string) (l : list A) (k : string) :
  In (Str k) (group_keys (map (fun r => of_str (f r)) l))
  <-> In (Some k) (map f l).
Proof.
  rewrite group_keys_In, <- In_of_str. split; [tauto|].
  intros H. split; [exact H | discriminate].
Qed.

(** X1.  [process_customer_data]: whenever the BW frame has rows, customer
    reconciliation returns a frame with one row per customer id of the
    inputs: no id twice, and an id is there exactly when it is a non-null
    id of an ECC or a BW row. *)
Lemma customers_one_row_per_key clk ecc bw :
  bw <> [] ->
  exists OUT,
    returned (process_customer_data ecc_ref bw_ref) (sources clk ecc bw) = Ok OUT
    /\ NoDup (column_values OUT "CustomerID")
    /\ forall k, In (Str k) (column_values OUT "CustomerID")
                 <-> In (Some k) (map Ecc.CustomerID ecc)
                     \/ In (Some k) (map Bw.CustomerID bw).
Proof.
  intros Hbw. destruct bw as [|b bw]; [contradiction|].
  destruct ecc as [|e ecc].
  - eexists. split; [apply run_customers_bw_only|].
    rewrite merged_customers_keys. split; [apply group_keys_NoDup|].
    intros k. rewrite group_keys_In.
    rewrite column_concat by (left; reflexivity). cbn [flat_map].
    rewrite app_nil_r, bw_customers_keys, bw_frame_CustomerID, of_str_in_keys.
    cbn [map In]. split; [tauto|]. intros [[]|H]. split; [exact H|discriminate].
  - eexists. split; [apply run_customers_both|].
    rewrite merged_customers_keys. split; [apply group_keys_NoDup|].
    intros k. rewrite group_keys_In.
    rewrite column_concat by (left; reflexivity). cbn [flat_map].
    rewrite app_nil_r, in_app_iff, ecc_customers_keys, bw_customers_keys,
      ecc_frame_CustomerID, bw_frame_CustomerID, !of_str_in_keys.
    split; [tauto|]. intros H. split; [exact H|discriminate].
Qed.

(** X2.  [process_product_data]: whenever the BW frame has rows, product
    reconciliation returns a frame with one row per product code of the
    inputs: no code twice, and a code is there exactly when it is a
    non-null code of an ECC or a BW row. *)
Lemma products_one_row_per_key clk ecc bw :
  bw <> [] ->
  exists OUT,
    returned (process_product_data ecc_ref bw_ref) (sources clk ecc bw) = Ok OUT
    /\ NoDup (column_values OUT "ProductCode")
    /\ forall k, In (Str k) (column_values OUT "ProductCode")
                 <-> In (Some k) (map Ecc.ProductCode ecc)
                     \/ In (Some k) (map Bw.ProductCode bw).
Proof.
  intros Hbw. destruct bw as [|b bw]; [contradiction|].
  destruct ecc as [|e ecc].
  - eexists. split; [apply run_products_bw_only|].
    rewrite merged_products_keys. split; [apply group_keys_NoDup|].
    intros k. rewrite group_keys_In.
    rewrite column_concat by (left; reflexivity). cbn [flat_map].
    rewrite app_nil_r, bw_products_keys, bw_frame_ProductCode, of_str_in_keys.
    cbn [map In]. split; [tauto|]. intros [[]|H]. split; [exact H|discriminate].
  - eexists. split; [apply run_products_both|].
    rewrite merged_products_keys. split; [apply group_keys_NoDup|].
    intros k. rewrite group_keys_In.
    rewrite column_concat by (left; reflexivity). cbn [flat_map].
    rewrite app_nil_r, in_app_iff, ecc_products_keys, bw_products_keys,
      ecc_frame_ProductCode, bw_frame_ProductCode, !of_str_in_keys.
    split; [tauto|]. intros H. split; [exact H|discriminate].
Qed.

(** C5, where the code departs from it.  When the ECC frame has rows and
    the BW frame has none, only the ECC rollup is collected; it has no
    [CustomerSegment] (resp. [ProductCategory]) column, which the final
    aggregation names, so both reconciliations raise a [KeyError] instead
    of returning one row per key. *)
Theorem reconciliation_without_bw_rows_raises clk e ecc :
  returned (process_customer_data ecc_ref bw_ref) (sources clk (e :: ecc) [])
  = Raise (KeyError ["CustomerSegment"])
  /\ returned (process_product_data ecc_ref bw_ref) (sources clk (e :: ecc) [])
     = Raise (KeyError ["ProductCategory"]).
Proof.
  split; [apply run_customers_ecc_only | apply run_products_ecc_only].
Qed.

(** ** Sales *)

Lemma cell_div_typed a q : cell_div (of_num a) (of_num q) = Ok (float_div a q).
Proof.
  destruct a as [x|], q as [y|]; cbn; trivial.
  destruct (Qc_eq_bool y 0%Qc); [destruct (Qc_eq_bool x 0%Qc)|]; reflexivity.
Qed.

Lemma series_div_typed {A} (f g : A -> option Qc) (l : list A) :
  series_div (map (fun x => of_num (f x)) l) (map (fun x => of_num (g x)) l)
  = Ok (map (fun x => float_div (f x) (g x)) l).
Proof.
  induction l as [|x l IH]; cbn [map series_div]; trivial.
  rewrite cell_div_typed, IH. reflexivity.
Qed.

Lemma bw_sales_amounts bw :
  column_values (bw_sales_selected bw) "SalesAmount"
  = map (fun b => of_num (Bw.SalesAmount b)) bw.
Proof.
  unfold column_values, bw_sales_selected. cbn. rewrite !map_map. reflexivity.
Qed.

Lemma bw_sales_quantities bw :
  column_values (bw_sales_selected bw) "SalesQuantity"
  = map (fun b => of_num (Bw.SalesQuantity b)) bw.
Proof.
  unfold column_values, bw_sales_selected. cbn. rewrite !map_map. reflexivity.
Qed.

Lemma run_ecc_sales clk ecc bw :
  returned (ecc_sales ecc_ref) (sources clk ecc bw) = Ok (ecc_sales_frame ecc).
Proof. reflexivity. Qed.

Lemma update_nth_last h d d' :
  update_nth (List.length h) d' (h ++ [d]) = h ++ [d'].
Proof. induction h as [|x h IH]; cbn; [reflexivity | now rewrite IH]. Qed.

Lemma bind_run {S A B} (m : SE S A) (k : A -> SE S B) s a s' :
  m s = (Ok a, s') -> bind m k s = k a s'.
Proof. intros H. unfold bind. now rewrite H. Qed.

(** The BW block, run on a store that holds the BW frame at [r]. *)
Lemma bw_sales_exec h clk t r bw :
  nth r h empty_frame = Bw.frame bw ->
  bw_sales r (mkStore h clk t)
  = (Ok (List.length h), mkStore (h ++ [bw_sales_frame bw]) clk t).
Proof.
  intros Hr.
  unfold bw_sales, select_copy, setitem, setitem_series, getitem, bind, deref,
    lift, new, put, ret, lookup.
  cbn [heap clock ticks fst snd]. rewrite Hr.
  change (select ["CustomerID"; "ProductCode"; "SalesDate"; "SalesAmount";
                  "SalesQuantity"; "Region"; "Channel"; "SalesRep"]
                 (Bw.frame bw))
    with (Ok (mkDF ["CustomerID"; "ProductCode"; "SalesDate"; "SalesAmount";
                    "SalesQuantity"; "Region"; "Channel"; "SalesRep"]
                (reindex ["CustomerID"; "ProductCode"; "SalesDate";
                          "SalesAmount"; "SalesQuantity"; "Region"; "Channel";
                          "SalesRep"] (Bw.frame bw)))).
  cbv beta iota. cbn [heap clock ticks].
  rewrite !nth_middle, !update_nth_last.
  fold (bw_sales_selected bw).
  rewrite !nth_middle.
  change (get_item "SalesAmount" (bw_sales_selected bw))
    with (Ok (column_values (bw_sales_selected bw) "SalesAmount")).
  change (get_item "SalesQuantity" (bw_sales_selected bw))
    with (Ok (column_values (bw_sales_selected bw) "SalesQuantity")).
  cbv beta iota.
  rewrite bw_sales_amounts, bw_sales_quantities, series_div_typed.
  repeat (rewrite update_nth_last || rewrite nth_middle).
  reflexivity.
Qed.

Lemma run_sales_both clk e ecc b bw :
  returned (process_sales_data ecc_ref bw_ref) (sources clk (e :: ecc) (b :: bw))
  = Ok (sales_frame clk [ecc_sales_frame (e :: ecc); bw_sales_frame (b :: bw)]).
Proof.
  unfold returned, process_sales_data.
  rewrite (bind_run (is_empty ecc_ref) _ _ false
             (sources clk (e :: ecc) (b :: bw))) by reflexivity.
  cbn [negb].
  rewrite (bind_run _ _ _ [2]
             (mkStore [Ecc.frame (e :: ecc); Bw.frame (b :: bw);
                       ecc_sales_frame (e :: ecc)] clk 0)) by reflexivity.
  rewrite (bind_run (is_empty bw_ref) _ _ false
             (mkStore [Ecc.frame (e :: ecc); Bw.frame (b :: bw);
                       ecc_sales_frame (e :: ecc)] clk 0)) by reflexivity.
  cbn [negb].
  rewrite (bind_run _ _ _ [2; 3]
             (mkStore [Ecc.frame (e :: ecc); Bw.frame (b :: bw);
                       ecc_sales_frame (e :: ecc);
                       bw_sales_frame (b :: bw)] clk 0)).
  2:{ unfold bind. rewrite (bw_sales_exec _ _ _ _ (b :: bw)) by reflexivity.
      reflexivity. }
  reflexivity.
Qed.

Lemma run_sales_bw_only clk b bw :
  returned (process_sales_data ecc_ref bw_ref) (sources clk [] (b :: bw))
  = Ok (sales_frame clk [bw_sales_frame (b :: bw)]).
Proof.
  unfold returned, process_sales_data.
  rewrite (bind_run (is_empty ecc_ref) _ _ true
             (sources clk [] (b :: bw))) by reflexivity.
  cbn [negb].
  rewrite (bind_run _ _ _ [] (sources clk [] (b :: bw))) by reflexivity.
  rewrite (bind_run (is_empty bw_ref) _ _ false
             (sources clk [] (b :: bw))) by reflexivity.
  cbn [negb].
  rewrite (bind_run _ _ _ [2]
             (mkStore [Ecc.frame []; Bw.frame (b :: bw);
                       bw_sales_frame (b :: bw)] clk 0)).
  2:{ unfold bind, sources. rewrite (bw_sales_exec _ _ _ _ (b :: bw)) by reflexivity.
      reflexivity. }
  reflexivity.
Qed.

Lemma run_sales_ecc_only clk e ecc :
  returned (process_sales_data ecc_ref bw_ref) (sources clk (e :: ecc) [])
  = Ok (sales_frame clk [ecc_sales_frame (e :: ecc)]).
Proof. reflexivity. Qed.

Lemma combine_map {A B C} (f : A -> B) (g : A -> C) (l : list A) :
  combine (map f l) (map g l) = map (fun x => (f x, g x)) l.
Proof. induction l as [|x l IH]; cbn; [reflexivity | now rewrite IH]. Qed.

Lemma bw_sales_rows bw : rows (bw_sales_frame bw) = map bw_sale_row bw.
Proof.
  unfold bw_sales_frame, bw_sales_selected, reindex.
  cbn -[bw_unit_price]. rewrite !map_map.
  rewrite combine_map, !map_map. reflexivity.
Qed.

Lemma ecc_sales_length ecc : List.length (rows (ecc_sales_frame ecc)) = List.length ecc.
Proof.
  unfold ecc_sales_frame, reindex. cbn. now rewrite !length_map.
Qed.

Lemma sales_both_rows clk e b :
  rows (sales_frame clk [ecc_sales_frame e; bw_sales_frame b])
  = map (fun r => sale_stamp clk
                    (map (fun c => cell_at (ecc_sales_frame e) c r)
                         (union_columns [ecc_sales_frame e; bw_sales_frame b])))
        (rows (ecc_sales_frame e))
    ++ map (fun r => sale_stamp clk
                       (map (fun c => cell_at (bw_sales_frame b) c r)
                            (union_columns [ecc_sales_frame e; bw_sales_frame b])))
           (rows (bw_sales_frame b)).
Proof.
  unfold sales_frame.
  change (union_columns [ecc_sales_frame e; bw_sales_frame b])
    with ["CustomerID"; "ProductCode"; "OrderNumber"; "SalesDate";
          "SalesAmount"; "SalesQuantity"; "UnitPrice"; "Region"; "SalesRep";
          "DataSource"; "Channel"].
  unfold concat_frame.
  change (union_columns [ecc_sales_frame e; bw_sales_frame b])
    with ["CustomerID"; "ProductCode"; "OrderNumber"; "SalesDate";
          "SalesAmount"; "SalesQuantity"; "UnitPrice"; "Region"; "SalesRep";
          "DataSource"; "Channel"].
  cbn [set_item index_of columns rows String.eqb Ascii.eqb Bool.eqb option_map
       flat_map app].
  unfold reindex, sale_stamp. rewrite app_nil_r, !map_app, !map_map.
  reflexivity.
Qed.

Lemma sales_bw_rows clk b :
  rows (sales_frame clk [bw_sales_frame b])
  = map (fun r => sale_stamp clk
                    (map (fun c => cell_at (bw_sales_frame b) c r)
                         (union_columns [bw_sales_frame b])))
        (rows (bw_sales_frame b)).
Proof.
  unfold sales_frame.
  change (union_columns [bw_sales_frame b])
    with ["CustomerID"; "ProductCode"; "SalesDate"; "SalesAmount";
          "SalesQuantity"; "Region"; "Channel"; "SalesRep"; "OrderNumber";
          "UnitPrice"; "DataSource"].
  unfold concat_frame.
  change (union_columns [bw_sales_frame b])
    with ["CustomerID"; "ProductCode"; "SalesDate"; "SalesAmount";
          "SalesQuantity"; "Region"; "Channel"; "SalesRep"; "OrderNumber";
          "UnitPrice"; "DataSource"].
  cbn [set_item index_of columns rows String.eqb Ascii.eqb Bool.eqb option_map
       flat_map app].
  unfold reindex, sale_stamp. rewrite app_nil_r, !map_map.
  reflexivity.
Qed.

(** The cells of the output row of a BW fact. *)
Lemma sales_bw_row_cells clk parts b :
  union_columns parts
  = ["CustomerID"; "ProductCode"; "OrderNumber"; "SalesDate"; "SalesAmount";
     "SalesQuantity"; "UnitPrice"; "Region"; "SalesRep"; "DataSource"; "Channel"]
  \/ union_columns parts
     = ["CustomerID"; "ProductCode"; "SalesDate"; "SalesAmount"; "SalesQuantity";
        "Region"; "Channel"; "SalesRep"; "OrderNumber"; "UnitPrice"; "DataSource"] ->
  forall bw,
  let ro := sale_stamp clk
              (map (fun c => cell_at (bw_sales_frame bw) c (bw_sale_row b))
                   (union_columns parts)) in
  cell_at (sales_frame clk parts) "DataSource" ro = Str "SAP_BW"
  /\ cell_at (sales_frame clk parts) "CustomerID" ro = of_str (Bw.CustomerID b)
  /\ cell_at (sales_frame clk parts) "ProductCode" ro = of_str (Bw.ProductCode b)
  /\ cell_at (sales_frame clk parts) "SalesAmount" ro = of_num (Bw.SalesAmount b)
  /\ cell_at (sales_frame clk parts) "SalesQuantity" ro = of_num (Bw.SalesQuantity b)
  /\ cell_at (sales_frame clk parts) "UnitPrice" ro = bw_unit_price b.
Proof.
  intros Hcols bw ro. subst ro.
  unfold cell_at at 1 3 5 7 9 11, sales_frame, concat_frame.
  destruct Hcols as [-> | ->]; cbn -[bw_unit_price]; auto 10.
Qed.

Lemma bw_unit_price_zero_quantity b :
  Bw.SalesQuantity b = Some 0%Qc ->
  bw_unit_price b
  = match Bw.SalesAmount b with
    | None => NA
    | Some a => if Qc_eq_bool a 0%Qc then NA else Inf (negb (Qle_bool 0%Q a))
    end.
Proof.
  intros H. unfold bw_unit_price, float_div. rewrite H.
  destruct (Bw.SalesAmount b); [|reflexivity].
  now rewrite Qc_eq_bool_refl.
Qed.

(** C2 (as the code has it).  A BW fact with [SalesQuantity = 0] never
    makes the sales reconciliation raise; its output row has a [UnitPrice]
    that is null when the amount is null or 0, and otherwise the infinity
    of the sign of the amount -- never a finite price. *)
Theorem bw_sale_with_zero_quantity clk ecc bw i b :
  nth_error bw i = Some b ->
  Bw.SalesQuantity b = Some 0%Qc ->
  exists OUT ro,
    returned (process_sales_data ecc_ref bw_ref) (sources clk ecc bw) = Ok OUT
    /\ nth_error (rows OUT) (List.length ecc + i) = Some ro
    /\ cell_at OUT "DataSource" ro = Str "SAP_BW"
    /\ cell_at OUT "CustomerID" ro = of_str (Bw.CustomerID b)
    /\ cell_at OUT "ProductCode" ro = of_str (Bw.ProductCode b)
    /\ cell_at OUT "SalesAmount" ro = of_num (Bw.SalesAmount b)
    /\ cell_at OUT "SalesQuantity" ro = Num 0%Qc
    /\ cell_at OUT "UnitPrice" ro
       = match Bw.SalesAmount b with
         | None => NA
         | Some a =>
             if Qc_eq_bool a 0%Qc then NA else Inf (negb (Qle_bool 0%Q a))
         end.
Proof.
  intros Hi Hq.
  destruct bw as [|b0 bw]; [destruct i; discriminate|].
  destruct ecc as [|e ecc].
  - destruct (sales_bw_row_cells clk [bw_sales_frame (b0 :: bw)] b
                (or_intror eq_refl) (b0 :: bw))
      as (C1 & C2 & C3 & C4 & C5 & C6).
    eexists. eexists. split; [apply run_sales_bw_only|].
    split.
    { rewrite sales_bw_rows, bw_sales_rows. cbn [List.length Nat.add].
      apply map_nth_error. apply map_nth_error. exact Hi. }
    split; [exact C1|]. split; [exact C2|]. split; [exact C3|].
    split; [exact C4|]. split; [rewrite C5, Hq; reflexivity|].
    rewrite C6. now apply bw_unit_price_zero_quantity.
  - destruct (sales_bw_row_cells clk
                [ecc_sales_frame (e :: ecc); bw_sales_frame (b0 :: bw)] b
                (or_introl eq_refl) (b0 :: bw))
      as (C1 & C2 & C3 & C4 & C5 & C6).
    eexists. eexists. split; [apply run_sales_both|].
    split.
    { rewrite sales_both_rows, bw_sales_rows.
      rewrite nth_error_app2 by (rewrite length_map, ecc_sales_length; lia).
      rewrite length_map, ecc_sales_length.
      replace (List.length (e :: ecc) + i - List.length (e :: ecc)) with i by lia.
      apply map_nth_error. apply map_nth_error. exact Hi. }
    split; [exact C1|]. split; [exact C2|]. split; [exact C3|].
    split; [exact C4|]. split; [rewrite C5, Hq; reflexivity|].
    rewrite C6. now apply bw_unit_price_zero_quantity.
Qed.

Lemma bw_sale_with_zero_quantity_witness :
  exists OUT ro,
    returned (process_sales_data ecc_ref bw_ref)
      (sources (fun _ => 0%Z) [ecc_line "C1" "P1" "O1" 1 10 10 5]
               [bw_fact "C1" "P1" 50 0 7]) = Ok OUT
    /\ nth_error (rows OUT) 1 = Some ro
    /\ cell_at OUT "DataSource" ro = Str "SAP_BW"
    /\ cell_at OUT "CustomerID" ro = Str "C1"
    /\ cell_at OUT "ProductCode" ro = Str "P1"
    /\ cell_at OUT "SalesAmount" ro = Num (qz 50)
    /\ cell_at OUT "SalesQuantity" ro = Num 0%Qc
    /\ cell_at OUT "UnitPrice" ro
       = if Qc_eq_bool (qz 50) 0%Qc then NA
         else Inf (negb (Qle_bool 0%Q (qz 50))).
Proof.
  apply (bw_sale_with_zero_quantity (fun _ => 0%Z)
           [ecc_line "C1" "P1" "O1" 1 10 10 5] [bw_fact "C1" "P1" 50 0 7]
           0 (bw_fact "C1" "P1" 50 0 7)).
  - reflexivity.
  - reflexivity.
Defined.

(** C2, counterexample to the claim as stated: a BW fact of amount 50 and
    quantity 0 gets the unit price [+inf], which is not null. *)
Lemma zero_quantity_price_is_not_null :
  exists OUT ro,
    returned (process_sales_data ecc_ref bw_ref)
      (sources (fun _ => 0%Z) [] [bw_fact "C1" "P1" 50 0 7]) = Ok OUT
    /\ rows OUT = [ro]
    /\ cell_at OUT "SalesQuantity" ro = Num (qz 0)
    /\ cell_at OUT "UnitPrice" ro = Inf false
    /\ is_na (cell_at OUT "UnitPrice" ro) = false.
Proof.
  destruct (one_row_with_sound
              (sales_frame (fun _ => 0%Z) [bw_sales_frame [bw_fact "C1" "P1" 50 0 7]])
              [("SalesQuantity", Num (qz 0)); ("UnitPrice", Inf false)])
    as (ro & Hro & Fo); [vm_compute; reflexivity|].
  inversion Fo as [|? ? O1 Fo']; subst. inversion Fo' as [|? ? O2 _]; subst.
  cbn [fst snd] in *.
  eexists. exists ro. split; [apply run_sales_bw_only|].
  split; [exact Hro|]. split; [exact O1|]. split; [exact O2|].
  rewrite O2. reflexivity.
Qed.

(** The sales reconciliation raises on no input. *)
Lemma sales_never_raise clk ecc bw :
  exists OUT,
    returned (process_sales_data ecc_ref bw_ref) (sources clk ecc bw) = Ok OUT.
Proof.
  destruct ecc as [|e ecc], bw as [|b bw]; eexists.
  - reflexivity.
  - apply run_sales_bw_only.
  - apply run_sales_ecc_only.
  - apply run_sales_both.
Qed.

(** ** The orchestrator *)

(** A run of [process_sap_data], stage by stage: which operation of the
    back end and which reconciliation it has run, on what, and the state
    it ends in. *)
Lemma process_sap_data_run {World} `{SapBackend World}
    (w : World) (clk : nat -> Z) :
  (exists w0 ecc w1 bw w2 rc s1 rp s2 rs s3 w3,
      SapDataProcessor w = (Ok tt, w0)
      /\ get_raw_sap_ecc_data w0 = (Ok ecc, w1)
      /\ get_raw_sap_bw_data w1 = (Ok bw, w2)
      /\ process_customer_data ecc_ref bw_ref (sources clk ecc bw) = (Ok rc, s1)
      /\ process_product_data ecc_ref bw_ref s1 = (Ok rp, s2)
      /\ process_sales_data ecc_ref bw_ref s2 = (Ok rs, s3)
      /\ save_processed_data (lookup s3 rc) (lookup s3 rp) (lookup s3 rs) w2
         = (Ok tt, w3)
      /\ process_sap_data (start w clk)
         = (Ok (summary (len (lookup s3 rc)) (len (lookup s3 rp))
                        (len (lookup s3 rs))),
            mkRun w3 s3 (ok_trace pipeline)))
  \/ (exists e w0,
        SapDataProcessor w = (Raise e, w0)
        /\ process_sap_data (start w clk)
           = (Raise e, mkRun w0 (mkStore [] clk 0) [(Construct, Raised e)]))
  \/ (exists w0 e w1,
        SapDataProcessor w = (Ok tt, w0)
        /\ get_raw_sap_ecc_data w0 = (Raise e, w1)
        /\ process_sap_data (start w clk)
           = (Raise e,
              mkRun w1 (mkStore [] clk 0)
                (ok_trace [Construct] ++ [(ReadEcc, Raised e)])))
  \/ (exists w0 ecc w1 e w2,
        SapDataProcessor w = (Ok tt, w0)
        /\ get_raw_sap_ecc_data w0 = (Ok ecc, w1)
        /\ get_raw_sap_bw_data w1 = (Raise e, w2)
        /\ process_sap_data (start w clk)
           = (Raise e,
              mkRun w2 (mkStore [Ecc.frame ecc] clk 0)
                (ok_trace [Construct; ReadEcc] ++ [(ReadBw, Raised e)])))
  \/ (exists w0 ecc w1 bw w2 e s1,
        SapDataProcessor w = (Ok tt, w0)
        /\ get_raw_sap_ecc_data w0 = (Ok ecc, w1)
        /\ get_raw_sap_bw_data w1 = (Ok bw, w2)
        /\ process_customer_data ecc_ref bw_ref (sources clk ecc bw)
           = (Raise e, s1)
        /\ process_sap_data (start w clk)
           = (Raise e,
              mkRun w2 s1
                (ok_trace [Construct; ReadEcc; ReadBw]
                 ++ [(ReconcileCustomers, Raised e)])))
  \/ (exists w0 ecc w1 bw w2 rc s1 e s2,
        SapDataProcessor w = (Ok tt, w0)
        /\ get_raw_sap_ecc_data w0 = (Ok ecc, w1)
        /\ get_raw_sap_bw_data w1 = (Ok bw, w2)
        /\ process_customer_data ecc_ref bw_ref (sources clk ecc bw) = (Ok rc, s1)
        /\ process_product_data ecc_ref bw_ref s1 = (Raise e, s2)
        /\ process_sap_data (start w clk)
           = (Raise e,
              mkRun w2 s2
                (ok_trace [Construct; ReadEcc; ReadBw; ReconcileCustomers]
                 ++ [(ReconcileProducts, Raised e)])))
  \/ (exists w0 ecc w1 bw w2 rc s1 rp s2 e s3,
        SapDataProcessor w = (Ok tt, w0)
        /\ get_raw_sap_ecc_data w0 = (Ok ecc, w1)
        /\ get_raw_sap_bw_data w1 = (Ok bw, w2)
        /\ process_customer_data ecc_ref bw_ref (sources clk ecc bw) = (Ok rc, s1)
        /\ process_product_data ecc_ref bw_ref s1 = (Ok rp, s2)
        /\ process_sales_data ecc_ref bw_ref s2 = (Raise e, s3)
        /\ process_sap_data (start w clk)
           = (Raise e,
              mkRun w2 s3
                (ok_trace [Construct; ReadEcc; ReadBw; ReconcileCustomers;
                           ReconcileProducts]
                 ++ [(ReconcileSales, Raised e)])))
  \/ (exists w0 ecc w1 bw w2 rc s1 rp s2 rs s3 e w3,
        SapDataProcessor w = (Ok tt, w0)
        /\ get_raw_sap_ecc_data w0 = (Ok ecc, w1)
        /\ get_raw_sap_bw_data w1 = (Ok bw, w2)
        /\ process_customer_data ecc_ref bw_ref (sources clk ecc bw) = (Ok rc, s1)
        /\ process_product_data ecc_ref bw_ref s1 = (Ok rp, s2)
        /\ process_sales_data ecc_ref bw_ref s2 = (Ok rs, s3)
        /\ save_processed_data (lookup s3 rc) (lookup s3 rp) (lookup s3 rs) w2
           = (Raise e, w3)
        /\ process_sap_data (start w clk)
           = (Raise e,
              mkRun w3 s3
                (ok_trace [Construct; ReadEcc; ReadBw; ReconcileCustomers;
                           ReconcileProducts; ReconcileSales]
                 ++ [(Write, Raised e)]))).
Proof.
  destruct (process_sap_data (start w clk)) as [r s'] eqn:E.
  unfold process_sap_data, start, bind, in_stage, external, internal, ret,
    new, deref in E.
  cbn [world objects trace heap clock ticks] in E.
  destruct (SapDataProcessor w) as [[[]|e0] w0] eqn:E0;
    cbn [world objects trace heap clock ticks fst snd outcome_of app
         List.length] in E.
  2:{ right. left. exists e0, w0. split; [reflexivity|]. now rewrite <- E. }
  destruct (get_raw_sap_ecc_data w0) as [[ecc|e1] w1] eqn:E1;
    cbn [world objects trace heap clock ticks fst snd outcome_of app
         List.length] in E.
  2:{ right. right. left. exists w0, e1, w1.
      split; [reflexivity|]. split; [exact E1|]. now rewrite <- E. }
  destruct (get_raw_sap_bw_data w1) as [[bw|e2] w2] eqn:E2;
    cbn [world objects trace heap clock ticks fst snd outcome_of app
         List.length] in E.
  2:{ right. right. right. left. exists w0, ecc, w1, e2, w2.
      split; [reflexivity|]. split; [exact E1|]. split; [exact E2|].
      now rewrite <- E. }
  change (process_customer_data 0 1
            {| heap := [Ecc.frame ecc; Bw.frame bw]; clock := clk; ticks := 0 |})
    with (process_customer_data ecc_ref bw_ref (sources clk ecc bw)) in E.
  change (process_product_data 0 1) with (process_product_data ecc_ref bw_ref) in E.
  change (process_sales_data 0 1) with (process_sales_data ecc_ref bw_ref) in E.
  destruct (process_customer_data ecc_ref bw_ref (sources clk ecc bw))
    as [[rc|e3] s1] eqn:E3;
    cbn [world objects trace heap clock ticks fst snd outcome_of app] in E.
  2:{ do 4 right. left. exists w0, ecc, w1, bw, w2, e3, s1.
      split; [reflexivity|]. split; [exact E1|]. split; [exact E2|].
      split; [exact E3|]. now rewrite <- E. }
  destruct (process_product_data ecc_ref bw_ref s1) as [[rp|e4] s2] eqn:E4;
    cbn [world objects trace heap clock ticks fst snd outcome_of app] in E.
  2:{ do 5 right. left. exists w0, ecc, w1, bw, w2, rc, s1, e4, s2.
      split; [reflexivity|]. split; [exact E1|]. split; [exact E2|].
      split; [exact E3|]. split; [exact E4|]. now rewrite <- E. }
  destruct (process_sales_data ecc_ref bw_ref s2) as [[rs|e5] s3] eqn:E5;
    cbn [world objects trace heap clock ticks fst snd outcome_of app] in E.
  2:{ do 6 right. left. exists w0, ecc, w1, bw, w2, rc, s1, rp, s2, e5, s3.
      split; [reflexivity|]. split; [exact E1|]. split; [exact E2|].
      split; [exact E3|]. split; [exact E4|]. split; [exact E5|].
      now rewrite <- E. }
  destruct (save_processed_data (lookup s3 rc) (lookup s3 rp) (lookup s3 rs) w2)
    as [[[]|e6] w3] eqn:E6;
    cbn [world objects trace heap clock ticks fst snd outcome_of app] in E.
  - left. exists w0, ecc, w1, bw, w2, rc, s1, rp, s2, rs, s3, w3.
    split; [reflexivity|]. split; [exact E1|]. split; [exact E2|].
    split; [exact E3|]. split; [exact E4|]. split; [exact E5|].
    split; [exact E6|]. now rewrite <- E.
  - do 7 right. exists w0, ecc, w1, bw, w2, rc, s1, rp, s2, rs, s3, e6, w3.
    split; [reflexivity|]. split; [exact E1|]. split; [exact E2|].
    split; [exact E3|]. split; [exact E4|]. split; [exact E5|].
    split; [exact E6|]. now rewrite <- E.
Qed.


(** ** Uploading in batches *)

Lemma firstn_add {A} (a b : nat) (xs : list A) :
  firstn (a + b) xs = firstn a xs ++ firstn b (skipn a xs).
Proof.
  revert xs; induction a as [|a IH]; intros xs; cbn; trivial.
  destruct xs as [|x xs]; cbn.
  - now rewrite firstn_nil.
  - now rewrite IH.
Qed.

Lemma slice_step {A} (xs : list A) (i size : nat) :
  slice xs i (i + size) = firstn size (skipn i xs).
Proof. unfold slice. f_equal. lia. Qed.

Lemma slices_upto {A} (xs : list A) (size k : nat) :
  List.concat (map (fun i => slice xs i (i + size))
                   (map (fun j => j * size) (seq 0 k)))
  = firstn (k * size) xs.
Proof.
  induction k as [|k IH].
  - reflexivity.
  - rewrite seq_S, !map_app, concat_app, IH. cbn [map List.concat Nat.add].
    rewrite app_nil_r, slice_step.
    replace (S k * size) with (k * size + size) by lia.
    now rewrite firstn_add.
Qed.

Lemma range_step_covers (n size : nat) :
  0 < size -> n <= ((n + size - 1) / size) * size.
Proof.
  intros Hs.
  pose proof (Nat.div_mod_eq (n + size - 1) size) as E.
  pose proof (Nat.mod_upper_bound (n + size - 1) size) as U.
  nia.
Qed.

Lemma range_step_In (n size i : nat) :
  0 < size -> In i (range_step n size) ->
  i < n /\ exists j, i = j * size /\ S j * size <= n + size - 1.
Proof.
  intros Hs H. unfold range_step in H. apply in_map_iff in H.
  destruct H as (j & <- & Hj). apply in_seq in Hj.
  pose proof (Nat.div_mod_eq (n + size - 1) size) as E.
  assert (K : S j * size <= n + size - 1) by nia.
  split; [nia|]. exists j. split; [reflexivity | exact K].
Qed.

Lemma slices_cover {A} (xs : list A) (size : nat) :
  0 < size ->
  List.concat (map (fun i => slice xs i (i + size))
                   (range_step (List.length xs) size))
  = xs.
Proof.
  intros Hs. unfold range_step. rewrite slices_upto.
  apply firstn_all2. now apply range_step_covers.
Qed.

Lemma slice_length {A} (xs : list A) (i size : nat) :
  List.length (slice xs i (i + size)) = Nat.min size (List.length xs - i).
Proof. rewrite slice_step, length_firstn, length_skipn. reflexivity. Qed.

Section Batches.
Context {World : Type} `{SearchBackend World}.





Lemma for_each_cons {S A} (body : A -> SE S unit) x xs s :
  for_each (x :: xs) body s
  = match body x s with
    | (Ok _, s') => for_each xs body s'
    | (Raise e, s') => (Raise e, s')
    end.
Proof. reflexivity. Qed.


End Batches.

Section Uploads.
Context {World : Type} `{SearchBackend World}.


Lemma upload_documents_run (self : AISearchService)
      (documents : list document) (st : search_run World) :
  upload_documents self documents st
  = match get_ai_search_credentials self st with
    | (Ok cred, s1) =>
        match for_each (range_step (List.length documents) batch_size)
                (fun i =>
                   (record_batch
                      (map json_document (slice documents i (i + batch_size))) ;;;
                    sdk (client_upload_documents
                           (mkClient (fst cred) default_index (snd cred))
                           (map json_document
                                (slice documents i (i + batch_size)))) ;;;
                    ret tt)) s1 with
        | (Ok _, s2) => (Ok true, s2)
        | (Raise _, s2) => (Ok false, s2)
        end
    | (Raise _, s1) => (Ok false, s1)
    end.
Proof.
  unfold upload_documents, upload_documents_body, try_except.
  unfold bind at 1.
  destruct (get_ai_search_credentials self st) as [[cred|e] s1];
    [|reflexivity].
  unfold bind at 1.
  destruct (for_each _ _ s1) as [[[]|e] s2]; reflexivity.
Qed.

End Uploads.




(** ** The search-index update *)

Section SearchUpdate.
Context {World : Type} `{SearchBackend World}.

Lemma try_except_fallback {A} (m : SE (search_run World) A) (a : A) st :
  fst (try_except m (fun _ => ret a) st)
  = match fst (m st) with Ok x => Ok x | Raise _ => Ok a end.
Proof. unfold try_except, ret. destruct (m st) as [[x|e] s]; reflexivity. Qed.

Lemma bind_ret_value {A B} (m : SE (search_run World) A) (b : B) st :
  fst (bind m (fun _ => ret b) st)
  = match fst (m st) with Ok _ => Ok b | Raise e => Raise e end.
Proof. unfold bind, ret. destruct (m st) as [[x|e] s]; reflexivity. Qed.

Lemma body_returns_true {A} (m : SE (search_run World) A)
      (k : A -> SE (search_run World) bool) st :
  (forall a s, fst (k a s) = Ok true \/ exists e, fst (k a s) = Raise e) ->
  fst (bind m k st) = Ok true \/ exists e, fst (bind m k st) = Raise e.
Proof.
  intros Hk. unfold bind. destruct (m st) as [[a|e] s]; [apply Hk|].
  right. now exists e.
Qed.

Lemma create_body_value self st :
  fst (create_search_index_body self st) = Ok true
  \/ exists e, fst (create_search_index_body self st) = Raise e.
Proof.
  unfold create_search_index_body. apply body_returns_true. intros cred s.
  rewrite bind_ret_value. destruct (fst (sdk _ s)); eauto.
Qed.

Lemma clear_body_value self st :
  fst (clear_index_body self st) = Ok true
  \/ exists e, fst (clear_index_body self st) = Raise e.
Proof.
  unfold clear_index_body. apply body_returns_true. intros cred s.
  apply body_returns_true. intros ids s'. destruct ids as [|i ids].
  - left. reflexivity.
  - rewrite bind_ret_value. destruct (fst (for_each _ _ s')); eauto.
Qed.

Lemma upload_body_value self docs st :
  fst (upload_documents_body self docs st) = Ok true
  \/ exists e, fst (upload_documents_body self docs st) = Raise e.
Proof.
  unfold upload_documents_body. apply body_returns_true. intros cred s.
  rewrite bind_ret_value. destruct (fst (for_each _ _ s)); eauto.
Qed.

Lemma create_search_index_value self st :
  fst (create_search_index self st)
  = Ok (succeeded (fst (create_search_index_body self st))).
Proof.
  unfold create_search_index. rewrite try_except_fallback.
  destruct (create_body_value self st) as [-> | [e ->]]; reflexivity.
Qed.

Lemma clear_index_value self st :
  fst (clear_index self st) = Ok (succeeded (fst (clear_index_body self st))).
Proof.
  unfold clear_index. rewrite try_except_fallback.
  destruct (clear_body_value self st) as [-> | [e ->]]; reflexivity.
Qed.

Lemma upload_documents_value self docs st :
  fst (upload_documents self docs st)
  = Ok (succeeded (fst (upload_documents_body self docs st))).
Proof.
  unfold upload_documents. rewrite try_except_fallback.
  destruct (upload_body_value self docs st) as [-> | [e ->]]; reflexivity.
Qed.

Lemma get_documents_value self t st :
  fst (get_documents self t st)
  = Ok (documents_or_none (fst (get_documents_body self t st))).
Proof.
  unfold get_documents. rewrite try_except_fallback.
  destruct (fst (get_documents_body self t st)); reflexivity.
Qed.

Lemma all_documents_value self st :
  exists docs s', all_documents self st = (Ok docs, s').
Proof.
  unfold all_documents, get_customer_documents, get_sales_documents,
    get_product_documents, bind, ret.
  pose proof (get_documents_value self Customers st) as H1.
  destruct (get_documents self Customers st) as [[d1|e] s1];
    [|discriminate H1].
  pose proof (get_documents_value self Sales s1) as H2.
  destruct (get_documents self Sales s1) as [[d2|e] s2];
    [|discriminate H2].
  pose proof (get_documents_value self Products s2) as H3.
  destruct (get_documents self Products s2) as [[d3|e] s3];
    [|discriminate H3].
  eauto.
Qed.

Lemma update_search_index_report self st :
  exists msg,
    fst (update_search_index self st) = Ok msg
    /\ ((fst (create_search_index self st) = Ok false
         /\ msg = "Failed to create/update search index")
        \/ exists s1,
             create_search_index self st = (Ok true, s1)
             /\ ((fst (clear_index self s1) = Ok false
                  /\ msg = "Failed to clear existing documents")
                 \/ exists s2 docs s3,
                      clear_index self s1 = (Ok true, s2)
                      /\ all_documents self s2 = (Ok docs, s3)
                      /\ ((docs = [] /\ msg = "No documents found to upload")
                          \/ ((exists d rest, docs = d :: rest)
                              /\ fst (upload_documents self docs s3) = Ok false
                              /\ msg = "Failed to upload documents to search index")
                          \/ ((exists d rest, docs = d :: rest)
                              /\ fst (upload_documents self docs s3) = Ok true
                              /\ msg = upload_report (List.length docs))))).
Proof.
  unfold update_search_index, update_search_index_body, try_except.
  unfold bind at 1.
  pose proof (create_search_index_value self st) as Hc.
  destruct (create_search_index self st) as [[created|e] s1] eqn:Ec;
    [|discriminate Hc].
  destruct created; cbn [negb fst].
  2:{ eexists. split; [reflexivity|]. left. split; reflexivity. }
  unfold bind at 1.
  pose proof (clear_index_value self s1) as Hd.
  destruct (clear_index self s1) as [[cleared|e] s2] eqn:Ed; [|discriminate Hd].
  destruct cleared; cbn [negb fst].
  2:{ eexists. split; [reflexivity|]. right. exists s1. split; [reflexivity|].
      left. rewrite Ed. split; reflexivity. }
  unfold bind at 1.
  destruct (all_documents_value self s2) as (docs & s3 & Ha). rewrite Ha.
  destruct docs as [|d docs].
  { eexists. split; [reflexivity|]. right. exists s1. split; [reflexivity|].
    right. exists s2, [], s3. rewrite Ed, Ha.
    split; [reflexivity|]. split; [reflexivity|]. left. split; reflexivity. }
  unfold bind at 1.
  pose proof (upload_documents_value self (d :: docs) s3) as Hu.
  destruct (upload_documents self (d :: docs) s3) as [[done|e] s4] eqn:Eu;
    [|discriminate Hu].
  destruct done; cbn [fst].
  - eexists. split; [reflexivity|]. right. exists s1. split; [reflexivity|].
    right. exists s2, (d :: docs), s3. rewrite Ed, Ha, Eu.
    split; [reflexivity|]. split; [reflexivity|]. right. right.
    split; [now exists d, docs|]. split; reflexivity.
  - eexists. split; [reflexivity|]. right. exists s1. split; [reflexivity|].
    right. exists s2, (d :: docs), s3. rewrite Ed, Ha, Eu.
    split; [reflexivity|]. split; [reflexivity|]. right. left.
    split; [now exists d, docs|]. split; reflexivity.
Qed.

Lemma update_ai_search_value st :
  (exists msg, fst (update_ai_search st) = Ok msg)
  \/ (exists e, fst (AISearchService_init st) = Raise e
                /\ fst (update_ai_search st) = Raise e).
Proof.
  unfold update_ai_search, bind.
  destruct (AISearchService_init st) as [[service|e] s1].
  - left. destruct (update_search_index_report service s1) as (msg & Hm & _).
    now exists msg.
  - right. exists e. split; reflexivity.
Qed.
End SearchUpdate.

(** C9 (as the code has it).  Each step catches what is raised inside it:
    index creation, clearing and upload then return [False], a document
    retrieval returns the empty list.  [update_search_index] always returns
    a string: the failure string of the first of creation, clearing and
    upload that returned [False], and otherwise "No documents found to
    upload" or the success message -- a failed retrieval is not reported.
    The entry point raises only what constructing the service raises. *)
Theorem search_update_reports {World} `{SearchBackend World} :
  (forall self st,
      fst (create_search_index self st)
      = Ok (succeeded (fst (create_search_index_body self st))))
  /\ (forall self st,
        fst (clear_index self st)
        = Ok (succeeded (fst (clear_index_body self st))))
  /\ (forall self docs st,
        fst (upload_documents self docs st)
        = Ok (succeeded (fst (upload_documents_body self docs st))))
  /\ (forall self t st,
        fst (get_documents self t st)
        = Ok (documents_or_none (fst (get_documents_body self t st))))
  /\ (forall self st,
        exists msg,
          fst (update_search_index self st) = Ok msg
          /\ ((fst (create_search_index self st) = Ok false
               /\ msg = "Failed to create/update search index")
              \/ exists s1,
                   create_search_index self st = (Ok true, s1)
                   /\ ((fst (clear_index self s1) = Ok false
                        /\ msg = "Failed to clear existing documents")
                       \/ exists s2 docs s3,
                            clear_index self s1 = (Ok true, s2)
                            /\ all_documents self s2 = (Ok docs, s3)
                            /\ ((docs = []
                                 /\ msg = "No documents found to upload")
                                \/ ((exists d rest, docs = d :: rest)
                                    /\ fst (upload_documents self docs s3) = Ok false
                                    /\ msg = "Failed to upload documents to search index")
                                \/ ((exists d rest, docs = d :: rest)
                                    /\ fst (upload_documents self docs s3) = Ok true
                                    /\ msg = upload_report (List.length docs))))))
  /\ (forall st,
        (exists msg, fst (update_ai_search st) = Ok msg)
        \/ (exists e, fst (AISearchService_init st) = Raise e
                      /\ fst (update_ai_search st) = Raise e)).
Proof.
  split; [exact create_search_index_value|].
  split; [exact clear_index_value|].
  split; [exact upload_documents_value|].
  split; [exact get_documents_value|].
  split; [exact update_search_index_report | exact update_ai_search_value].
Qed.

(** C9, counterexample to the claim as stated: the customer query raises,
    the failure is swallowed, and the entry point reports a success. *)
Lemma retrieval_failure_is_not_reported :
  fst (@get_documents_body unit demo_search demo_service Customers demo_start)
  = Raise (Failure "connection lost")
  /\ fst (@update_ai_search unit demo_search demo_start)
     = Ok "Successfully updated search index with 1 documents"
  /\ ~ failure_report "Successfully updated search index with 1 documents".
Proof.
  split; [reflexivity|]. split; [vm_compute; reflexivity|].
  intros [F|[F|[F|[e F]]]]; discriminate F.
Qed.

(** * Further properties of the reconciliations *)

(** ** First non-null wins, ECC before BW *)

Lemma aggregate_First_two a b :
  aggregate First [a; b] = if is_na a then b else a.
Proof. destruct a, b; reflexivity. Qed.

(** X3.  For a customer present in both sources, [Region] and [SalesRep] of the
    merged row are those of the ECC rollup unless ECC has none, in which
    case the BW values are taken; [CustomerSegment], which ECC does not
    carry, is the BW value. *)
Theorem customer_attributes_ecc_before_bw clk ecc bw k :
  In (Some k) (map Ecc.CustomerID ecc) ->
  In (Some k) (map Bw.CustomerID bw) ->
  exists E B OUT re rb ro,
    returned (ecc_customers ecc_ref) (sources clk ecc bw) = Ok E
    /\ returned (bw_customers bw_ref) (sources clk ecc bw) = Ok B
    /\ returned (process_customer_data ecc_ref bw_ref) (sources clk ecc bw) = Ok OUT
    /\ group E "CustomerID" (Str k) = [re]
    /\ group B "CustomerID" (Str k) = [rb]
    /\ group OUT "CustomerID" (Str k) = [ro]
    /\ cell_at OUT "Region" ro
       = (if is_na (cell_at E "Region" re) then cell_at B "Region" rb
          else cell_at E "Region" re)
    /\ cell_at OUT "SalesRep" ro
       = (if is_na (cell_at E "SalesRep" re) then cell_at B "SalesRep" rb
          else cell_at E "SalesRep" re)
    /\ cell_at OUT "CustomerSegment" ro = cell_at B "CustomerSegment" rb.
Proof.
  intros He Hb.
  destruct ecc as [|e ecc]; [contradiction|].
  destruct bw as [|b bw]; [contradiction|].
  destruct (customers_both_row clk (e :: ecc) (b :: bw) k He Hb)
    as (re & rb & ro & Gre & Grb & Gro & Hre & Hrb & Hcell).
  exists (ecc_customers_frame (e :: ecc)), (bw_customers_frame (b :: bw)),
    (merged "CustomerID" customer_final_spec clk
       [ecc_customers_frame (e :: ecc); bw_customers_frame (b :: bw)]),
    re, rb, ro.
  split; [apply run_ecc_customers|]. split; [apply run_bw_customers|].
  split; [apply run_customers_both|].
  split; [exact Gre|]. split; [exact Grb|]. split; [exact Gro|].
  split; [|split].
  - rewrite (Hcell "Region" First) by (cbn; auto 10). apply aggregate_First_two.
  - rewrite (Hcell "SalesRep" First) by (cbn; auto 10). apply aggregate_First_two.
  - rewrite (Hcell "CustomerSegment" First) by (cbn; auto 10).
    rewrite aggregate_First_two.
    destruct (ecc_customers_fields _ _ Hre) as (n & q & d & _ & _ & _ & ->).
    reflexivity.
Qed.

Lemma customer_attributes_ecc_before_bw_witness :
  exists E B OUT re rb ro,
    returned (ecc_customers ecc_ref)
      (sources (fun _ => 0%Z) [ecc_line "C1" "P1" "O1" 1 100 100 5]
               [bw_fact "C1" "P1" 50 1 7]) = Ok E
    /\ returned (bw_customers bw_ref)
        (sources (fun _ => 0%Z) [ecc_line "C1" "P1" "O1" 1 100 100 5]
                 [bw_fact "C1" "P1" 50 1 7]) = Ok B
    /\ returned (process_customer_data ecc_ref bw_ref)
        (sources (fun _ => 0%Z) [ecc_line "C1" "P1" "O1" 1 100 100 5]
                 [bw_fact "C1" "P1" 50 1 7]) = Ok OUT
    /\ group E "CustomerID" (Str "C1") = [re]
    /\ group B "CustomerID" (Str "C1") = [rb]
    /\ group OUT "CustomerID" (Str "C1") = [ro]
    /\ cell_at OUT "Region" ro
       = (if is_na (cell_at E "Region" re) then cell_at B "Region" rb
          else cell_at E "Region" re)
    /\ cell_at OUT "SalesRep" ro
       = (if is_na (cell_at E "SalesRep" re) then cell_at B "SalesRep" rb
          else cell_at E "SalesRep" re)
    /\ cell_at OUT "CustomerSegment" ro = cell_at B "CustomerSegment" rb.
Proof.
  apply (customer_attributes_ecc_before_bw (fun _ => 0%Z)
           [ecc_line "C1" "P1" "O1" 1 100 100 5] [bw_fact "C1" "P1" 50 1 7] "C1");
    cbn; left; reflexivity.
Defined.

(** ** Product totals across the two sources *)

Lemma bw_products_totals bw rb :
  In rb (rows (bw_products_frame bw)) ->
  exists n q,
    cell_at (bw_products_frame bw) "TotalQuantitySold" rb = Num n
    /\ cell_at (bw_products_frame bw) "TotalSalesAmount" rb = Num q
    /\ cell_at (bw_products_frame bw) "ProductCategory" rb
       = aggregate First
           (map (cell_at (Bw.frame bw) "ProductCategory")
                (group (Bw.frame bw) "ProductCode"
                       (cell_at (bw_products_frame bw) "ProductCode" rb))).
Proof.
  rewrite bw_products_rows. intros H. apply in_map_iff in H.
  destruct H as (k & <- & _).
  assert (Hnum : forall c o,
             (forall x, cell_at (Bw.frame bw) c (Bw.cells x) = of_num (o x)) ->
             Forall numeric (map (cell_at (Bw.frame bw) c)
                                 (group (Bw.frame bw) "ProductCode" k))).
  { intros c o Hc. apply Forall_group. intros r Hr. cbn in Hr.
    apply in_map_iff in Hr. destruct Hr as (x & <- & _).
    rewrite Hc. apply of_num_numeric. }
  destruct (aggregate_Sum_numeric _
              (Hnum "SalesQuantity" Bw.SalesQuantity (fun _ => eq_refl))) as [n Hn].
  destruct (aggregate_Sum_numeric _
              (Hnum "SalesAmount" Bw.SalesAmount (fun _ => eq_refl))) as [q Hq].
  exists n, q. split; [|split].
  - unfold cell_at at 1. cbn -[group cell_at aggregate]. exact Hn.
  - unfold cell_at at 1. cbn -[group cell_at aggregate]. exact Hq.
  - reflexivity.
Qed.

(** X4.  For a product present in both sources, the merged quantity and amount
    are the sums of the quantities and amounts of the two rollups. *)
Theorem product_totals_in_both_sources clk ecc bw k :
  In (Some k) (map Ecc.ProductCode ecc) ->
  In (Some k) (map Bw.ProductCode bw) ->
  exists E B OUT re rb ro,
    returned (ecc_products ecc_ref) (sources clk ecc bw) = Ok E
    /\ returned (bw_products bw_ref) (sources clk ecc bw) = Ok B
    /\ returned (process_product_data ecc_ref bw_ref) (sources clk ecc bw) = Ok OUT
    /\ group E "ProductCode" (Str k) = [re]
    /\ group B "ProductCode" (Str k) = [rb]
    /\ group OUT "ProductCode" (Str k) = [ro]
    /\ (exists n m,
          cell_at E "TotalQuantitySold" re = Num n
          /\ cell_at B "TotalQuantitySold" rb = Num m
          /\ cell_at OUT "TotalQuantitySold" ro = Num (n + m)%Qc)
    /\ (exists p q,
          cell_at E "TotalSalesAmount" re = Num p
          /\ cell_at B "TotalSalesAmount" rb = Num q
          /\ cell_at OUT "TotalSalesAmount" ro = Num (p + q)%Qc)
    /\ cell_at OUT "ProductCategory" ro = cell_at B "ProductCategory" rb.
Proof.
  intros He Hb.
  destruct ecc as [|e ecc]; [contradiction|].
  destruct bw as [|b bw]; [contradiction|].
  destruct (products_both_row clk (e :: ecc) (b :: bw) k He Hb)
    as (re & rb & ro & Gre & Grb & Gro & Hre & Hrb & Kre & Hcell).
  destruct (ecc_products_fields _ _ Hre) as (n & p & o & En & Ep & _ & _).
  destruct (bw_products_totals _ _ Hrb) as (m & q & Bm & Bq & _).
  exists (ecc_products_frame (e :: ecc)), (bw_products_frame (b :: bw)),
    (merged "ProductCode" product_final_spec clk
       [ecc_products_frame (e :: ecc); bw_products_frame (b :: bw)]),
    re, rb, ro.
  split; [apply run_ecc_products|]. split; [apply run_bw_products|].
  split; [apply run_products_both|].
  split; [exact Gre|]. split; [exact Grb|]. split; [exact Gro|].
  split; [|split].
  - exists n, m. split; [exact En|]. split; [exact Bm|].
    rewrite (Hcell "TotalQuantitySold" Sum) by (cbn; auto).
    rewrite En, Bm. apply aggregate_Sum_two.
  - exists p, q. split; [exact Ep|]. split; [exact Bq|].
    rewrite (Hcell "TotalSalesAmount" Sum) by (cbn; auto).
    rewrite Ep, Bq. apply aggregate_Sum_two.
  - rewrite (Hcell "ProductCategory" First) by (cbn; auto 10).
    rewrite aggregate_First_two.
    replace (cell_at (ecc_products_frame (e :: ecc)) "ProductCategory" re)
      with NA by reflexivity.
    reflexivity.
Qed.

Lemma product_totals_in_both_sources_witness :
  exists E B OUT re rb ro,
    returned (ecc_products ecc_ref)
      (sources (fun _ => 0%Z) [ecc_line "C1" "P1" "O1" 1 10 10 5]
               [bw_fact "C1" "P1" 50 1 7]) = Ok E
    /\ returned (bw_products bw_ref)
        (sources (fun _ => 0%Z) [ecc_line "C1" "P1" "O1" 1 10 10 5]
                 [bw_fact "C1" "P1" 50 1 7]) = Ok B
    /\ returned (process_product_data ecc_ref bw_ref)
        (sources (fun _ => 0%Z) [ecc_line "C1" "P1" "O1" 1 10 10 5]
                 [bw_fact "C1" "P1" 50 1 7]) = Ok OUT
    /\ group E "ProductCode" (Str "P1") = [re]
    /\ group B "ProductCode" (Str "P1") = [rb]
    /\ group OUT "ProductCode" (Str "P1") = [ro]
    /\ (exists n m,
          cell_at E "TotalQuantitySold" re = Num n
          /\ cell_at B "TotalQuantitySold" rb = Num m
          /\ cell_at OUT "TotalQuantitySold" ro = Num (n + m)%Qc)
    /\ (exists p q,
          cell_at E "TotalSalesAmount" re = Num p
          /\ cell_at B "TotalSalesAmount" rb = Num q
          /\ cell_at OUT "TotalSalesAmount" ro = Num (p + q)%Qc)
    /\ cell_at OUT "ProductCategory" ro = cell_at B "ProductCategory" rb.
Proof.
  apply (product_totals_in_both_sources (fun _ => 0%Z)
           [ecc_line "C1" "P1" "O1" 1 10 10 5] [bw_fact "C1" "P1" 50 1 7] "P1");
    cbn; left; reflexivity.
Defined.

(** ** A single non-empty source: BW *)

Lemma aggregate_Mean_zero : aggregate Mean [Num 0%Qc] = Num 0%Qc.
Proof. apply Num_eq. reflexivity. Qed.

Lemma products_bw_row clk bw k :
  In (Some k) (map Bw.ProductCode bw) ->
  let B := bw_products_frame bw in
  let OUT := merged "ProductCode" product_final_spec clk [B] in
  exists rb ro,
    group B "ProductCode" (Str k) = [rb]
    /\ group OUT "ProductCode" (Str k) = [ro]
    /\ In rb (rows B)
    /\ cell_at B "ProductCode" rb = Str k
    /\ forall c f, In (c, f) product_final_spec ->
         cell_at OUT c ro = aggregate f [cell_at B c rb].
Proof.
  intros Hb B OUT.
  assert (HC : union_columns [B]
               = ["ProductCode"; "TotalQuantitySold"; "TotalSalesAmount";
                  "ProductCategory"; "UnitPrice"; "DataSource"]) by reflexivity.
  assert (HkB : In (Str k) (column_values B "ProductCode")).
  { unfold B. rewrite bw_products_keys, bw_frame_ProductCode.
    apply group_keys_In. split; [now apply In_of_str | discriminate]. }
  destruct (group_single B "ProductCode" (Str k)) as (rb & Grb & Hrb & Krb).
  { unfold B. rewrite bw_products_keys. apply group_keys_NoDup. }
  { exact HkB. }
  destruct (group_single OUT "ProductCode" (Str k)) as (ro & Gro & Hro & Kro).
  { unfold OUT. rewrite merged_products_keys. apply group_keys_NoDup. }
  { unfold OUT. rewrite merged_products_keys. apply group_keys_In.
    split; [|discriminate].
    rewrite column_concat by (rewrite HC; left; reflexivity).
    cbn [flat_map]. rewrite app_nil_r. exact HkB. }
  exists rb, ro.
  split; [exact Grb|]. split; [exact Gro|]. split; [exact Hrb|].
  split; [exact Krb|].
  intros c f Hcf.
  rewrite (merged_products_row clk [B] (Str k) ro Hro Kro).
  unfold OUT.
  rewrite (merged_products_cell clk [B] (Str k) c f Hcf).
  - cbn [flat_map]. rewrite Grb. reflexivity.
  - rewrite HC. left; reflexivity.
  - rewrite HC. unfold product_final_spec in Hcf. cbn [In] in Hcf |- *.
    repeat (destruct Hcf as [Hcf|Hcf]; [injection Hcf as <- _; tauto|]).
    contradiction.
Qed.

(** X5.  With no ECC row, product reconciliation succeeds: a product of the BW
    source gets exactly one row, with [UnitPrice] 0, the first non-null BW
    category of the product, and the BW totals. *)
Theorem products_from_bw_only clk bw k :
  In (Some k) (map Bw.ProductCode bw) ->
  exists B OUT rb ro,
    returned (bw_products bw_ref) (sources clk [] bw) = Ok B
    /\ returned (process_product_data ecc_ref bw_ref) (sources clk [] bw) = Ok OUT
    /\ group B "ProductCode" (Str k) = [rb]
    /\ group OUT "ProductCode" (Str k) = [ro]
    /\ cell_at OUT "UnitPrice" ro = Num 0%Qc
    /\ cell_at OUT "ProductCategory" ro
       = aggregate First
           (map (cell_at (Bw.frame bw) "ProductCategory")
                (group (Bw.frame bw) "ProductCode" (Str k)))
    /\ cell_at OUT "TotalQuantitySold" ro = cell_at B "TotalQuantitySold" rb
    /\ cell_at OUT "TotalSalesAmount" ro = cell_at B "TotalSalesAmount" rb.
Proof.
  intros Hb. destruct bw as [|b bw]; [contradiction|].
  destruct (products_bw_row clk (b :: bw) k Hb)
    as (rb & ro & Grb & Gro & Hrb & Krb & Hcell).
  destruct (bw_products_totals _ _ Hrb) as (n & q & Bn & Bq & Bc).
  pose proof (bw_products_fields _ _ Hrb) as Bz.
  exists (bw_products_frame (b :: bw)),
    (merged "ProductCode" product_final_spec clk [bw_products_frame (b :: bw)]),
    rb, ro.
  split; [apply run_bw_products|]. split; [apply run_products_bw_only|].
  split; [exact Grb|]. split; [exact Gro|].
  split; [|split; [|split]].
  - rewrite (Hcell "UnitPrice" Mean) by (cbn; auto). rewrite Bz.
    apply aggregate_Mean_zero.
  - rewrite (Hcell "ProductCategory" First) by (cbn; auto 10).
    rewrite aggregate_First_one, Bc, Krb. reflexivity.
  - rewrite (Hcell "TotalQuantitySold" Sum) by (cbn; auto). rewrite Bn.
    apply aggregate_Sum_one.
  - rewrite (Hcell "TotalSalesAmount" Sum) by (cbn; auto). rewrite Bq.
    apply aggregate_Sum_one.
Qed.

Lemma products_from_bw_only_witness :
  exists B OUT rb ro,
    returned (bw_products bw_ref)
      (sources (fun _ => 0%Z) [] [bw_fact "C1" "P1" 50 1 7]) = Ok B
    /\ returned (process_product_data ecc_ref bw_ref)
        (sources (fun _ => 0%Z) [] [bw_fact "C1" "P1" 50 1 7]) = Ok OUT
    /\ group B "ProductCode" (Str "P1") = [rb]
    /\ group OUT "ProductCode" (Str "P1") = [ro]
    /\ cell_at OUT "UnitPrice" ro = Num 0%Qc
    /\ cell_at OUT "ProductCategory" ro
       = aggregate First
           (map (cell_at (Bw.frame [bw_fact "C1" "P1" 50 1 7]) "ProductCategory")
                (group (Bw.frame [bw_fact "C1" "P1" 50 1 7]) "ProductCode"
                       (Str "P1")))
    /\ cell_at OUT "TotalQuantitySold" ro = cell_at B "TotalQuantitySold" rb
    /\ cell_at OUT "TotalSalesAmount" ro = cell_at B "TotalSalesAmount" rb.
Proof.
  apply (products_from_bw_only (fun _ => 0%Z) [bw_fact "C1" "P1" 50 1 7] "P1").
  cbn. left. reflexivity.
Defined.

Lemma customers_bw_row clk bw k :
  In (Some k) (map Bw.CustomerID bw) ->
  let B := bw_customers_frame bw in
  let OUT := merged "CustomerID" customer_final_spec clk [B] in
  exists rb ro,
    group B "CustomerID" (Str k) = [rb]
    /\ group OUT "CustomerID" (Str k) = [ro]
    /\ In rb (rows B)
    /\ forall c f, In (c, f) customer_final_spec ->
         cell_at OUT c ro = aggregate f [cell_at B c rb].
Proof.
  intros Hb B OUT.
  assert (HC : union_columns [B]
               = ["CustomerID"; "TotalSalesAmount"; "TotalQuantity";
                  "LastOrderDate"; "Region"; "CustomerSegment"; "SalesRep";
                  "TotalOrders"; "DataSource"]) by reflexivity.
  assert (HkB : In (Str k) (column_values B "CustomerID")).
  { unfold B. rewrite bw_customers_keys, bw_frame_CustomerID.
    apply group_keys_In. split; [now apply In_of_str | discriminate]. }
  destruct (group_single B "CustomerID" (Str k)) as (rb & Grb & Hrb & Krb).
  { unfold B. rewrite bw_customers_keys. apply group_keys_NoDup. }
  { exact HkB. }
  destruct (group_single OUT "CustomerID" (Str k)) as (ro & Gro & Hro & Kro).
  { unfold OUT. rewrite merged_customers_keys. apply group_keys_NoDup. }
  { unfold OUT. rewrite merged_customers_keys. apply group_keys_In.
    split; [|discriminate].
    rewrite column_concat by (rewrite HC; left; reflexivity).
    cbn [flat_map]. rewrite app_nil_r. exact HkB. }
  exists rb, ro.
  split; [exact Grb|]. split; [exact Gro|]. split; [exact Hrb|].
  intros c f Hcf.
  rewrite (merged_customers_row clk [B] (Str k) ro Hro Kro).
  unfold OUT.
  rewrite (merged_customers_cell clk [B] (Str k) c f Hcf).
  - cbn [flat_map]. rewrite Grb. reflexivity.
  - rewrite HC. left; reflexivity.
  - rewrite HC. unfold customer_final_spec in Hcf. cbn [In] in Hcf |- *.
    repeat (destruct Hcf as [Hcf|Hcf]; [injection Hcf as <- _; tauto|]).
    contradiction.
Qed.

(** X6.  With no ECC row, customer reconciliation succeeds: a customer of the
    BW source gets exactly one row, with [TotalOrders] 0 (BW has no order
    count) and the amount, last date and attributes of the BW rollup. *)
Theorem customers_from_bw_only clk bw k :
  In (Some k) (map Bw.CustomerID bw) ->
  exists B OUT rb ro,
    returned (bw_customers bw_ref) (sources clk [] bw) = Ok B
    /\ returned (process_customer_data ecc_ref bw_ref) (sources clk [] bw) = Ok OUT
    /\ group B "CustomerID" (Str k) = [rb]
    /\ group OUT "CustomerID" (Str k) = [ro]
    /\ cell_at OUT "TotalOrders" ro = Num 0%Qc
    /\ map (fun c => cell_at OUT c ro) customer_fields
       = map (fun c => cell_at B c rb) customer_fields.
Proof.
  intros Hb. destruct bw as [|b bw]; [contradiction|].
  destruct (customers_bw_row clk (b :: bw) k Hb)
    as (rb & ro & Grb & Gro & Hrb & Hcell).
  destruct (bw_customers_fields _ _ Hrb) as (q & d & Bn & Bq & Bd).
  exists (bw_customers_frame (b :: bw)),
    (merged "CustomerID" customer_final_spec clk [bw_customers_frame (b :: bw)]),
    rb, ro.
  split; [apply run_bw_customers|]. split; [apply run_customers_bw_only|].
  split; [exact Grb|]. split; [exact Gro|].
  assert (Hall : forall c f, In (c, f) customer_final_spec ->
                   cell_at (merged "CustomerID" customer_final_spec clk
                              [bw_customers_frame (b :: bw)]) c ro
                   = cell_at (bw_customers_frame (b :: bw)) c rb).
  { intros c f Hcf. rewrite (Hcell c f Hcf).
    apply (aggregate_one_customer c f); trivial.
    intros ->. cbn in Hcf.
    repeat (destruct Hcf as [Hcf|Hcf];
            [first [discriminate Hcf | injection Hcf as <-; eauto]|]).
    contradiction. }
  split.
  - rewrite (Hall "TotalOrders" Sum) by (cbn; auto). exact Bn.
  - apply map_ext_in. intros c Hc.
    destruct (customer_fields_cases c Hc) as [->|[f Hcf]]; [|now apply (Hall c f)].
    assert (Ko : In ro (group (merged "CustomerID" customer_final_spec clk
                                 [bw_customers_frame (b :: bw)])
                              "CustomerID" (Str k)))
      by (rewrite Gro; left; reflexivity).
    assert (Kb : In rb (group (bw_customers_frame (b :: bw)) "CustomerID" (Str k)))
      by (rewrite Grb; left; reflexivity).
    apply group_In in Ko. apply group_In in Kb.
    destruct Ko as [_ ->]. destruct Kb as [_ ->]. reflexivity.
Qed.

Lemma customers_from_bw_only_witness :
  exists B OUT rb ro,
    returned (bw_customers bw_ref)
      (sources (fun _ => 0%Z) [] [bw_fact "C1" "P1" 50 1 7]) = Ok B
    /\ returned (process_customer_data ecc_ref bw_ref)
        (sources (fun _ => 0%Z) [] [bw_fact "C1" "P1" 50 1 7]) = Ok OUT
    /\ group B "CustomerID" (Str "C1") = [rb]
    /\ group OUT "CustomerID" (Str "C1") = [ro]
    /\ cell_at OUT "TotalOrders" ro = Num 0%Qc
    /\ map (fun c => cell_at OUT c ro) customer_fields
       = map (fun c => cell_at B c rb) customer_fields.
Proof.
  apply (customers_from_bw_only (fun _ => 0%Z) [bw_fact "C1" "P1" 50 1 7] "C1").
  cbn. left. reflexivity.
Defined.

Lemma customers_one_row_per_key_witness :
  exists OUT,
    returned (process_customer_data ecc_ref bw_ref)
      (sources (fun _ => 0%Z) [ecc_line "C1" "P1" "O1" 1 100 100 5]
               [bw_fact "C2" "P1" 50 1 7]) = Ok OUT
    /\ NoDup (column_values OUT "CustomerID")
    /\ forall k, In (Str k) (column_values OUT "CustomerID")
                 <-> In (Some k) (map Ecc.CustomerID
                                      [ecc_line "C1" "P1" "O1" 1 100 100 5])
                     \/ In (Some k) (map Bw.CustomerID [bw_fact "C2" "P1" 50 1 7]).
Proof.
  apply (customers_one_row_per_key (fun _ => 0%Z)
           [ecc_line "C1" "P1" "O1" 1 100 100 5] [bw_fact "C2" "P1" 50 1 7]).
  discriminate.
Defined.

Lemma products_one_row_per_key_witness :
  exists OUT,
    returned (process_product_data ecc_ref bw_ref)
      (sources (fun _ => 0%Z) [ecc_line "C1" "P1" "O1" 1 100 100 5]
               [bw_fact "C2" "P2" 50 1 7]) = Ok OUT
    /\ NoDup (column_values OUT "ProductCode")
    /\ forall k, In (Str k) (column_values OUT "ProductCode")
                 <-> In (Some k) (map Ecc.ProductCode
                                      [ecc_line "C1" "P1" "O1" 1 100 100 5])
                     \/ In (Some k) (map Bw.ProductCode [bw_fact "C2" "P2" 50 1 7]).
Proof.
  apply (products_one_row_per_key (fun _ => 0%Z)
           [ecc_line "C1" "P1" "O1" 1 100 100 5] [bw_fact "C2" "P2" 50 1 7]).
  discriminate.
Defined.

(** ** The output is sorted by key *)

Lemma key_le_total_strings a b :
  is_string a -> is_string b -> cell_leb a b = false -> key_le b a.
Proof.
  destruct a as [|x| | | |], b as [|y| | | |]; cbn; try contradiction.
  intros _ _ H. unfold key_le. cbn.
  destruct (String.leb_total x y) as [L|L]; [congruence | exact L].
Qed.

Lemma HdRel_insert_key x k t :
  HdRel key_le x t -> key_le x k -> HdRel key_le x (insert_key k t).
Proof.
  intros Ht Hk. destruct t as [|y t]; cbn.
  - now constructor.
  - destruct (cell_leb k y); constructor; trivial.
    now inversion Ht.
Qed.

Lemma insert_key_sorted k l :
  is_string k -> Forall is_string l ->
  Sorted key_le l -> Sorted key_le (insert_key k l).
Proof.
  intros Hk Hl Hs. induction l as [|x l IH]; cbn.
  - repeat constructor.
  - inversion Hl as [|? ? Hx Hl']; subst. inversion Hs as [|? ? Hs' Hhd]; subst.
    destruct (cell_leb k x) eqn:E.
    + constructor; [exact Hs | constructor; exact E].
    + constructor; [now apply IH|].
      apply HdRel_insert_key; trivial.
      now apply key_le_total_strings.
Qed.

Lemma insert_key_strings k l :
  is_string k -> Forall is_string l -> Forall is_string (insert_key k l).
Proof.
  intros Hk Hl. induction Hl as [|x l Hx Hl IH]; cbn.
  - now constructor.
  - destruct (cell_leb k x); repeat (constructor; trivial).
Qed.

Lemma sort_keys_sorted l :
  Forall is_string l ->
  Sorted key_le (sort_keys l) /\ Forall is_string (sort_keys l).
Proof.
  induction 1 as [|x l Hx Hl [IH1 IH2]]; cbn.
  - split; constructor.
  - split; [now apply insert_key_sorted | now apply insert_key_strings].
Qed.

Lemma group_keys_of_strings {A} (f : A -> option string) (l : list A) :
  exists ids,
    group_keys (map (fun r => of_str (f r)) l) = map Str ids
    /\ Sorted string_le ids.
Proof.
  destruct (sort_keys_sorted
              (nodup cell_eq_dec (filter notna (map (fun r => of_str (f r)) l))))
    as [Hs Hstr].
  { apply Forall_forall. intros c Hc. apply nodup_In, filter_In in Hc.
    destruct Hc as [Hc Hn]. apply in_map_iff in Hc.
    destruct Hc as (r & <- & _). destruct (f r); [exact I | discriminate]. }
  fold (group_keys (map (fun r => of_str (f r)) l)) in Hs, Hstr.
  revert Hs Hstr.
  generalize (group_keys (map (fun r => of_str (f r)) l)) as ks.
  induction ks as [|c ks IH]; intros Hs Hstr.
  - exists []. split; constructor.
  - inversion Hstr as [|? ? Hc Hstr']; subst.
    inversion Hs as [|? ? Hs' Hhd]; subst.
    destruct c as [|s| | | |]; try contradiction.
    destruct (IH Hs' Hstr') as (ids & -> & Hids).
    exists (s :: ids). split; [reflexivity|].
    constructor; trivial.
    destruct ids as [|t ids]; constructor.
    inversion Hhd; subst. assumption.
Qed.

(** X7.  Whenever the BW frame has rows, the customer frame and the product
    frame come out sorted by key: their key columns hold strings in
    ascending lexicographic order. *)
Theorem reconciled_frames_sorted_by_key clk ecc bw :
  bw <> [] ->
  (exists OUT ids,
      returned (process_customer_data ecc_ref bw_ref) (sources clk ecc bw) = Ok OUT
      /\ column_values OUT "CustomerID" = map Str ids
      /\ Sorted string_le ids)
  /\ (exists OUT ids,
        returned (process_product_data ecc_ref bw_ref) (sources clk ecc bw) = Ok OUT
        /\ column_values OUT "ProductCode" = map Str ids
        /\ Sorted string_le ids).
Proof.
  intros Hbw. destruct bw as [|b bw]; [contradiction|].
  split.
  - destruct ecc as [|e ecc].
    + destruct (group_keys_of_strings Bw.CustomerID
                  (b :: bw)) as (ids0 & E0 & _).
      destruct (group_keys_of_strings (fun s : string => Some s) ids0)
        as (ids & Eids & Hids).
      eexists. exists ids. split; [apply run_customers_bw_only|].
      split; [|exact Hids].
      rewrite merged_customers_keys.
      rewrite column_concat by (left; reflexivity). cbn [flat_map].
      rewrite app_nil_r, bw_customers_keys, bw_frame_CustomerID, E0.
      exact Eids.
    + destruct (group_keys_of_strings Ecc.CustomerID (e :: ecc)) as (i1 & E1 & _).
      destruct (group_keys_of_strings Bw.CustomerID (b :: bw)) as (i2 & E2 & _).
      destruct (group_keys_of_strings (fun s : string => Some s) (i1 ++ i2))
        as (ids & Eids & Hids).
      eexists. exists ids. split; [apply run_customers_both|].
      split; [|exact Hids].
      rewrite merged_customers_keys.
      rewrite column_concat by (left; reflexivity). cbn [flat_map].
      rewrite app_nil_r, ecc_customers_keys, bw_customers_keys,
        ecc_frame_CustomerID, bw_frame_CustomerID, E1, E2.
      rewrite <- map_app. exact Eids.
  - destruct ecc as [|e ecc].
    + destruct (group_keys_of_strings Bw.ProductCode
                  (b :: bw)) as (ids0 & E0 & _).
      destruct (group_keys_of_strings (fun s : string => Some s) ids0)
        as (ids & Eids & Hids).
      eexists. exists ids. split; [apply run_products_bw_only|].
      split; [|exact Hids].
      rewrite merged_products_keys.
      rewrite column_concat by (left; reflexivity). cbn [flat_map].
      rewrite app_nil_r, bw_products_keys, bw_frame_ProductCode, E0.
      exact Eids.
    + destruct (group_keys_of_strings Ecc.ProductCode (e :: ecc)) as (i1 & E1 & _).
      destruct (group_keys_of_strings Bw.ProductCode (b :: bw)) as (i2 & E2 & _).
      destruct (group_keys_of_strings (fun s : string => Some s) (i1 ++ i2))
        as (ids & Eids & Hids).
      eexists. exists ids. split; [apply run_products_both|].
      split; [|exact Hids].
      rewrite merged_products_keys.
      rewrite column_concat by (left; reflexivity). cbn [flat_map].
      rewrite app_nil_r, ecc_products_keys, bw_products_keys,
        ecc_frame_ProductCode, bw_frame_ProductCode, E1, E2.
      rewrite <- map_app. exact Eids.
Qed.

Lemma reconciled_frames_sorted_by_key_witness :
  (exists OUT ids,
      returned (process_customer_data ecc_ref bw_ref)
        (sources (fun _ => 0%Z) [ecc_line "C2" "P1" "O1" 1 100 100 5]
                 [bw_fact "C1" "P1" 50 1 7]) = Ok OUT
      /\ column_values OUT "CustomerID" = map Str ids
      /\ Sorted string_le ids)
  /\ (exists OUT ids,
        returned (process_product_data ecc_ref bw_ref)
          (sources (fun _ => 0%Z) [ecc_line "C2" "P1" "O1" 1 100 100 5]
                   [bw_fact "C1" "P1" 50 1 7]) = Ok OUT
        /\ column_values OUT "ProductCode" = map Str ids
        /\ Sorted string_le ids).
Proof.
  apply (reconciled_frames_sorted_by_key (fun _ => 0%Z)
           [ecc_line "C2" "P1" "O1" 1 100 100 5] [bw_fact "C1" "P1" 50 1 7]).
  discriminate.
Defined.

(** ** Sales: one output row per input row *)

Lemma ecc_sales_rows ecc : rows (ecc_sales_frame ecc) = map ecc_sale_row ecc.
Proof.
  unfold ecc_sales_frame, reindex. cbn. rewrite !map_map. reflexivity.
Qed.

Lemma sales_ecc_rows clk e :
  rows (sales_frame clk [ecc_sales_frame e])
  = map (fun r => sale_stamp clk
                    (map (fun c => cell_at (ecc_sales_frame e) c r)
                         (union_columns [ecc_sales_frame e])))
        (rows (ecc_sales_frame e)).
Proof.
  unfold sales_frame.
  change (union_columns [ecc_sales_frame e]) with sale_fields.
  unfold concat_frame.
  change (union_columns [ecc_sales_frame e]) with sale_fields.
  unfold sale_fields.
  cbn [set_item index_of columns rows String.eqb Ascii.eqb Bool.eqb option_map
       flat_map app].
  unfold reindex, sale_stamp. rewrite app_nil_r, !map_map.
  reflexivity.
Qed.

(** A row taken over into the sales frame shows, under each of its own
    labels, the cell it had. *)
Lemma sales_cell clk parts df r c :
  union_columns parts = sale_fields
  \/ union_columns parts
     = ["CustomerID"; "ProductCode"; "SalesDate"; "SalesAmount"; "SalesQuantity";
        "Region"; "Channel"; "SalesRep"; "OrderNumber"; "UnitPrice"; "DataSource"] ->
  In c (union_columns parts) ->
  cell_at (sales_frame clk parts) c
          (sale_stamp clk (map (fun c' => cell_at df c' r) (union_columns parts)))
  = cell_at df c r.
Proof.
  intros Hcols Hc. unfold cell_at at 1, sales_frame, concat_frame.
  destruct Hcols as [E|E]; rewrite E in *; unfold sale_fields in *;
    cbn [In] in Hc;
    repeat (destruct Hc as [<-|Hc]; [reflexivity|]); contradiction.
Qed.

Lemma sales_stamp_cells clk parts df r :
  union_columns parts = sale_fields
  \/ union_columns parts
     = ["CustomerID"; "ProductCode"; "SalesDate"; "SalesAmount"; "SalesQuantity";
        "Region"; "Channel"; "SalesRep"; "OrderNumber"; "UnitPrice"; "DataSource"] ->
  let ro := sale_stamp clk (map (fun c' => cell_at df c' r) (union_columns parts)) in
  cell_at (sales_frame clk parts) "CreatedDate" ro = Date (clk 0)
  /\ cell_at (sales_frame clk parts) "IsActive" ro = Flag true.
Proof.
  intros Hcols ro. subst ro. unfold cell_at, sales_frame, concat_frame.
  destruct Hcols as [E|E]; rewrite E; split; reflexivity.
Qed.

(** X8.  Sales reconciliation raises for no pair of inputs; it returns one row per ECC
    order line followed by one row per BW fact, so facts are never merged
    or dropped. *)
Theorem sales_one_row_per_input clk ecc bw :
  exists OUT,
    returned (process_sales_data ecc_ref bw_ref) (sources clk ecc bw) = Ok OUT
    /\ len OUT = List.length ecc + List.length bw.
Proof.
  destruct ecc as [|e ecc], bw as [|b bw]; eexists.
  - split; reflexivity.
  - split; [apply run_sales_bw_only|].
    unfold len. now rewrite sales_bw_rows, bw_sales_rows, !length_map.
  - split; [apply run_sales_ecc_only|].
    unfold len. rewrite sales_ecc_rows, ecc_sales_rows, !length_map.
    cbn [List.length]. lia.
  - split; [apply run_sales_both|].
    unfold len.
    now rewrite sales_both_rows, ecc_sales_rows, bw_sales_rows, length_app,
      !length_map.
Qed.

(** X9.  The [i]-th ECC order line is the [i]-th output row: relabelled, with
    the unit price of the line, source [SAP_ECC] and channel "Direct". *)
Theorem ecc_sale_row_carried clk ecc bw i e :
  nth_error ecc i = Some e ->
  exists OUT ro,
    returned (process_sales_data ecc_ref bw_ref) (sources clk ecc bw) = Ok OUT
    /\ nth_error (rows OUT) i = Some ro
    /\ map (fun c => cell_at OUT c ro) sale_fields = ecc_sale_row e
    /\ cell_at OUT "CreatedDate" ro = Date (clk 0)
    /\ cell_at OUT "IsActive" ro = Flag true.
Proof.
  intros Hi.
  destruct ecc as [|e0 ecc]; [destruct i; discriminate|].
  destruct bw as [|b bw].
  - pose proof (sales_stamp_cells clk [ecc_sales_frame (e0 :: ecc)]
                  (ecc_sales_frame (e0 :: ecc)) (ecc_sale_row e)
                  (or_introl eq_refl)) as [S1 S2].
    eexists. eexists. split; [apply run_sales_ecc_only|].
    split.
    { rewrite sales_ecc_rows, ecc_sales_rows.
      apply map_nth_error. apply map_nth_error. exact Hi. }
    split; [|split; [exact S1 | exact S2]].
    transitivity (map (fun c => cell_at (ecc_sales_frame (e0 :: ecc)) c
                                        (ecc_sale_row e)) sale_fields).
    + apply map_ext_in. intros c Hc.
      apply (sales_cell clk [ecc_sales_frame (e0 :: ecc)]); [left; reflexivity|].
      exact Hc.
    + reflexivity.
  - pose proof (sales_stamp_cells clk
                  [ecc_sales_frame (e0 :: ecc); bw_sales_frame (b :: bw)]
                  (ecc_sales_frame (e0 :: ecc)) (ecc_sale_row e)
                  (or_introl eq_refl)) as [S1 S2].
    eexists. eexists. split; [apply run_sales_both|].
    split.
    { rewrite sales_both_rows, ecc_sales_rows.
      rewrite nth_error_app1.
      2:{ rewrite !length_map. apply nth_error_Some. congruence. }
      apply map_nth_error. apply map_nth_error. exact Hi. }
    split; [|split; [exact S1 | exact S2]].
    transitivity (map (fun c => cell_at (ecc_sales_frame (e0 :: ecc)) c
                                        (ecc_sale_row e)) sale_fields).
    + apply map_ext_in. intros c Hc.
      apply (sales_cell clk
               [ecc_sales_frame (e0 :: ecc); bw_sales_frame (b :: bw)]);
        [left; reflexivity|].
      exact Hc.
    + reflexivity.
Qed.

Lemma ecc_sale_row_carried_witness :
  exists OUT ro,
    returned (process_sales_data ecc_ref bw_ref)
      (sources (fun _ => 0%Z) [ecc_line "C1" "P1" "O1" 1 10 10 5]
               [bw_fact "C1" "P1" 50 2 7]) = Ok OUT
    /\ nth_error (rows OUT) 0 = Some ro
    /\ map (fun c => cell_at OUT c ro) sale_fields
       = ecc_sale_row (ecc_line "C1" "P1" "O1" 1 10 10 5)
    /\ cell_at OUT "CreatedDate" ro = Date 0
    /\ cell_at OUT "IsActive" ro = Flag true.
Proof.
  apply (ecc_sale_row_carried (fun _ => 0%Z)
           [ecc_line "C1" "P1" "O1" 1 10 10 5] [bw_fact "C1" "P1" 50 2 7] 0
           (ecc_line "C1" "P1" "O1" 1 10 10 5)).
  reflexivity.
Defined.





(** ** Metadata *)

Lemma merged_customers_stamped clk dfs :
  Forall (stamped_row clk (merged "CustomerID" customer_final_spec clk dfs))
         (rows (merged "CustomerID" customer_final_spec clk dfs)).
Proof.
  rewrite merged_customers_rows. apply Forall_map, Forall_forall.
  intros k _. repeat split.
Qed.

Lemma merged_products_stamped clk dfs :
  Forall (stamped_row clk (merged "ProductCode" product_final_spec clk dfs))
         (rows (merged "ProductCode" product_final_spec clk dfs)).
Proof.
  rewrite merged_products_rows. apply Forall_map, Forall_forall.
  intros k _. repeat split.
Qed.

(** X11.  Every reconciled customer and product row is active, and its
    [CreatedDate] and [UpdatedDate] are two successive readings of the
    clock (the first and the second reading of the run), not one. *)
Theorem merged_rows_are_stamped clk ecc bw :
  bw <> [] ->
  (exists OUT,
      returned (process_customer_data ecc_ref bw_ref) (sources clk ecc bw) = Ok OUT
      /\ Forall (stamped_row clk OUT) (rows OUT))
  /\ (exists OUT,
        returned (process_product_data ecc_ref bw_ref) (sources clk ecc bw) = Ok OUT
        /\ Forall (stamped_row clk OUT) (rows OUT)).
Proof.
  intros Hbw. destruct bw as [|b bw]; [contradiction|].
  destruct ecc as [|e ecc]; split; eexists.
  - split; [apply run_customers_bw_only | apply merged_customers_stamped].
  - split; [apply run_products_bw_only | apply merged_products_stamped].
  - split; [apply run_customers_both | apply merged_customers_stamped].
  - split; [apply run_products_both | apply merged_products_stamped].
Qed.

Lemma merged_rows_are_stamped_witness :
  (exists OUT,
      returned (process_customer_data ecc_ref bw_ref)
        (sources (fun n => Z.of_nat n) [ecc_line "C1" "P1" "O1" 1 10 10 5]
                 [bw_fact "C1" "P1" 50 2 7]) = Ok OUT
      /\ Forall (stamped_row (fun n => Z.of_nat n) OUT) (rows OUT))
  /\ (exists OUT,
        returned (process_product_data ecc_ref bw_ref)
          (sources (fun n => Z.of_nat n) [ecc_line "C1" "P1" "O1" 1 10 10 5]
                   [bw_fact "C1" "P1" 50 2 7]) = Ok OUT
        /\ Forall (stamped_row (fun n => Z.of_nat n) OUT) (rows OUT)).
Proof.
  apply (merged_rows_are_stamped (fun n => Z.of_nat n)
           [ecc_line "C1" "P1" "O1" 1 10 10 5] [bw_fact "C1" "P1" 50 2 7]).
  discriminate.
Defined.

(* ================================================================== *)
(** * The readers and the writer *)

Section Writer.
Context {World : Type} `{SqlBackend World}.









End Writer.



(** ** The writer on the frames of the reconciliations *)

Lemma index_of_missing c cols : has_column cols c = false -> index_of c cols = None.
Proof.
  unfold has_column. induction cols as [|x t IH]; cbn; [reflexivity|].
  rewrite (String.eqb_sym x c). destruct (String.eqb c x); cbn; [discriminate|].
  intros Ht. now rewrite (IH Ht).
Qed.

Lemma row_get_NA df c r : row_get df c NA r = cell_at df c r.
Proof.
  unfold row_get, cell_at. destruct (has_column (columns df) c) eqn:Hc;
    [reflexivity|].
  now rewrite (index_of_missing _ _ Hc).
Qed.

Lemma row_get_present df c d r :
  has_column (columns df) c = true -> row_get df c d r = cell_at df c r.
Proof. unfold row_get. now intros ->. Qed.

Lemma row_item_present df c r :
  has_column (columns df) c = true -> row_item df c r = Ok (cell_at df c r).
Proof. unfold row_item. now intros ->. Qed.

Lemma customer_params_present df r :
  forallb (has_column (columns df))
    ["CustomerID"; "TotalOrders"; "TotalSalesAmount"; "LastOrderDate"] = true ->
  customer_params df r = Ok (map (fun c => cell_at df c r) customer_param_fields).
Proof.
  cbn [forallb]. rewrite !andb_true_iff. intros (H1 & H2 & H3 & H4 & _).
  unfold customer_params.
  rewrite !row_get_NA, !row_item_present by assumption. reflexivity.
Qed.

Lemma product_params_present df r :
  forallb (has_column (columns df))
    ["ProductCode"; "UnitPrice"; "TotalQuantitySold"; "TotalSalesAmount"] = true ->
  product_params df r = Ok (map (fun c => cell_at df c r) product_param_fields).
Proof.
  cbn [forallb]. rewrite !andb_true_iff. intros (H1 & H2 & H3 & H4 & _).
  unfold product_params.
  rewrite !row_get_NA, (row_get_present _ "UnitPrice"), !row_item_present
    by assumption.
  reflexivity.
Qed.

Lemma sale_params_present df r :
  forallb (has_column (columns df))
    ["CustomerID"; "ProductCode"; "SalesDate"; "SalesAmount"; "SalesQuantity";
     "UnitPrice"; "DataSource"] = true ->
  sale_params df r = Ok (map (fun c => cell_at df c r) sale_param_fields).
Proof.
  cbn [forallb]. rewrite !andb_true_iff.
  intros (H1 & H2 & H3 & H4 & H5 & H6 & H7 & _).
  unfold sale_params.
  rewrite !row_get_NA, (row_get_present _ "UnitPrice"), !row_item_present
    by assumption.
  reflexivity.
Qed.

Lemma all_params_map (params : row -> result (list cell)) (f : row -> list cell) rs :
  (forall r, params r = Ok (f r)) -> all_params params rs = Ok (map f rs).
Proof.
  intros Hp. induction rs as [|r rs IH]; cbn; [reflexivity|].
  now rewrite Hp, IH.
Qed.

Lemma statements_of_reindex params make fields df :
  (forall r, params df r = Ok (map (fun c => cell_at df c r) fields)) ->
  columns df <> [] ->
  statements_of params make df = Ok (map make (reindex fields df)).
Proof.
  intros Hp Hc. unfold statements_of, reindex, empty.
  destruct (columns df) as [|c cs]; [contradiction|].
  destruct (rows df) as [|r rs] eqn:Er; [reflexivity|].
  now rewrite (all_params_map _ _ _ Hp).
Qed.

Lemma merged_customers_columns clk srcs :
  columns (merged "CustomerID" customer_final_spec clk srcs)
  = ["CustomerID"; "TotalOrders"; "TotalSalesAmount"; "LastOrderDate"; "Region";
     "SalesRep"; "CustomerSegment"; "CreatedDate"; "UpdatedDate"; "IsActive"].
Proof. reflexivity. Qed.

Lemma merged_products_columns clk srcs :
  columns (merged "ProductCode" product_final_spec clk srcs)
  = ["ProductCode"; "TotalQuantitySold"; "TotalSalesAmount"; "UnitPrice";
     "ProductCategory"; "CreatedDate"; "UpdatedDate"; "IsActive"].
Proof. reflexivity. Qed.

Lemma sales_frame_columns clk parts :
  columns (sales_frame clk parts)
  = match index_of "CreatedDate" (union_columns parts) with
    | Some _ => match index_of "IsActive" (union_columns parts) with
                | Some _ => union_columns parts
                | None => union_columns parts ++ ["IsActive"]
                end
    | None => match index_of "IsActive" (union_columns parts ++ ["CreatedDate"]) with
              | Some _ => union_columns parts ++ ["CreatedDate"]
              | None => (union_columns parts ++ ["CreatedDate"]) ++ ["IsActive"]
              end
    end.
Proof.
  unfold sales_frame, set_item, concat_frame. cbn [columns].
  destruct (index_of "CreatedDate" (union_columns parts)); cbn [columns];
    destruct (index_of "IsActive" _); reflexivity.
Qed.
(** The statements of the writer for the frames of the reconciliations. *)
Lemma reconciled_statements clk ecc bw :
  bw <> [] ->
  exists C P S,
    returned (process_customer_data ecc_ref bw_ref) (sources clk ecc bw) = Ok C
    /\ returned (process_product_data ecc_ref bw_ref) (sources clk ecc bw) = Ok P
    /\ returned (process_sales_data ecc_ref bw_ref) (sources clk ecc bw) = Ok S
    /\ statements_of customer_params MergeCustomer C
       = Ok (map MergeCustomer (reindex customer_param_fields C))
    /\ statements_of product_params MergeProduct P
       = Ok (map MergeProduct (reindex product_param_fields P))
    /\ statements_of sale_params InsertSale S
       = Ok (map InsertSale (reindex sale_param_fields S)).
Proof.
  intros Hbw. destruct bw as [|b bw]; [contradiction|].
  assert (HC : forall srcs r,
            customer_params (merged "CustomerID" customer_final_spec clk srcs) r
            = Ok (map (fun c => cell_at
                         (merged "CustomerID" customer_final_spec clk srcs) c r)
                      customer_param_fields)).
  { intros srcs r. apply customer_params_present.
    rewrite merged_customers_columns. reflexivity. }
  assert (HP : forall srcs r,
            product_params (merged "ProductCode" product_final_spec clk srcs) r
            = Ok (map (fun c => cell_at
                         (merged "ProductCode" product_final_spec clk srcs) c r)
                      product_param_fields)).
  { intros srcs r. apply product_params_present.
    rewrite merged_products_columns. reflexivity. }
  assert (HS : forall parts r,
            union_columns parts = sale_fields \/ union_columns parts = bw_sale_fields ->
            sale_params (sales_frame clk parts) r
            = Ok (map (fun c => cell_at (sales_frame clk parts) c r)
                      sale_param_fields)).
  { intros parts r Hu. apply sale_params_present.
    rewrite sales_frame_columns. destruct Hu as [-> | ->]; reflexivity. }
  assert (HSc : forall parts,
            union_columns parts = sale_fields \/ union_columns parts = bw_sale_fields ->
            columns (sales_frame clk parts) <> []).
  { intros parts Hu. rewrite sales_frame_columns.
    destruct Hu as [-> | ->]; discriminate. }
  destruct ecc as [|e ecc].
  - do 3 eexists.
    split; [apply run_customers_bw_only|].
    split; [apply run_products_bw_only|].
    split; [apply run_sales_bw_only|].
    split; [|split].
    + apply statements_of_reindex; [intros r; apply HC|].
      rewrite merged_customers_columns. discriminate.
    + apply statements_of_reindex; [intros r; apply HP|].
      rewrite merged_products_columns. discriminate.
    + apply statements_of_reindex; [intros r; apply HS|apply HSc];
        right; reflexivity.
  - do 3 eexists.
    split; [apply run_customers_both|].
    split; [apply run_products_both|].
    split; [apply run_sales_both|].
    split; [|split].
    + apply statements_of_reindex; [intros r; apply HC|].
      rewrite merged_customers_columns. discriminate.
    + apply statements_of_reindex; [intros r; apply HP|].
      rewrite merged_products_columns. discriminate.
    + apply statements_of_reindex; [intros r; apply HS|apply HSc];
        left; reflexivity.
Qed.

(** X14.  [_save_customers], [_save_products], [_save_sales] on the frames
    of [process_customer_data], [process_product_data] and
    [process_sales_data]: whenever the BW frame has rows, the three
    reconciliations return frames that hold every column the writer reads
    with [row[...]], so building the parameters raises no [KeyError]: the
    writer has one statement per reconciled row, and its parameters are the
    cells of that row under the labels of the statement, in their order. *)
Theorem writer_accepts_reconciled_frames clk ecc bw :
  bw <> [] ->
  exists C P S,
    returned (process_customer_data ecc_ref bw_ref) (sources clk ecc bw) = Ok C
    /\ returned (process_product_data ecc_ref bw_ref) (sources clk ecc bw) = Ok P
    /\ returned (process_sales_data ecc_ref bw_ref) (sources clk ecc bw) = Ok S
    /\ statements_of customer_params MergeCustomer C
       = Ok (map MergeCustomer (reindex customer_param_fields C))
    /\ statements_of product_params MergeProduct P
       = Ok (map MergeProduct (reindex product_param_fields P))
    /\ statements_of sale_params InsertSale S
       = Ok (map InsertSale (reindex sale_param_fields S)).
Proof. apply reconciled_statements. Qed.

Lemma writer_accepts_reconciled_frames_witness :
  exists C P S,
    returned (process_customer_data ecc_ref bw_ref)
      (sources (fun n => Z.of_nat n) [ecc_line "C1" "P1" "O1" 1 10 10 5]
               [bw_fact "C1" "P1" 50 2 7]) = Ok C
    /\ returned (process_product_data ecc_ref bw_ref)
         (sources (fun n => Z.of_nat n) [ecc_line "C1" "P1" "O1" 1 10 10 5]
                  [bw_fact "C1" "P1" 50 2 7]) = Ok P
    /\ returned (process_sales_data ecc_ref bw_ref)
         (sources (fun n => Z.of_nat n) [ecc_line "C1" "P1" "O1" 1 10 10 5]
                  [bw_fact "C1" "P1" 50 2 7]) = Ok S
    /\ statements_of customer_params MergeCustomer C
       = Ok (map MergeCustomer (reindex customer_param_fields C))
    /\ statements_of product_params MergeProduct P
       = Ok (map MergeProduct (reindex product_param_fields P))
    /\ statements_of sale_params InsertSale S
       = Ok (map InsertSale (reindex sale_param_fields S)).
Proof.
  apply (writer_accepts_reconciled_frames (fun n => Z.of_nat n)
           [ecc_line "C1" "P1" "O1" 1 10 10 5] [bw_fact "C1" "P1" 50 2 7]).
  discriminate.
Defined.

(* ================================================================== *)
(** * The run as a whole *)

Lemma returned_raised (m : M ref) s e :
  returned m s = Raise e -> fst (m s) = Raise e.
Proof. unfold returned. destruct (m s) as [[r|e'] s']; cbn; congruence. Qed.

Section Orchestrated.
Context {World : Type} `{SapBackend World}.

(** The state of a run once the processor is built and both reads have
    returned: the two raw frames are the first two objects. *)
Lemma process_sap_data_after_reads (w w0 w1 w2 : World) clk ecc bw :
  SapDataProcessor w = (Ok tt, w0) ->
  get_raw_sap_ecc_data w0 = (Ok ecc, w1) ->
  get_raw_sap_bw_data w1 = (Ok bw, w2) ->
  process_sap_data (start w clk)
  = (customers_df <- in_stage ReconcileCustomers
                       (internal (process_customer_data ecc_ref bw_ref)) ;;
     products_df <- in_stage ReconcileProducts
                       (internal (process_product_data ecc_ref bw_ref)) ;;
     sales_df <- in_stage ReconcileSales
                       (internal (process_sales_data ecc_ref bw_ref)) ;;
     customers <- internal (deref customers_df) ;;
     products <- internal (deref products_df) ;;
     sales <- internal (deref sales_df) ;;
     in_stage Write (external (save_processed_data customers products sales)) ;;;
     ret (summary (len customers) (len products) (len sales)))
    (mkRun w2 (sources clk ecc bw) (ok_trace [Construct; ReadEcc; ReadBw])).
Proof.
  intros H0 H1 H2. unfold process_sap_data, start.
  unfold bind at 1, in_stage at 1, external at 1. cbn [world objects trace].
  rewrite H0. cbn [world objects trace outcome_of app].
  unfold bind at 1, in_stage at 1, external at 1. cbn [world objects trace].
  rewrite H1. cbn [world objects trace outcome_of app].
  unfold bind at 1, internal at 1, new at 1.
  cbn [world objects trace heap clock ticks app List.length].
  unfold bind at 1, in_stage at 1, external at 1. cbn [world objects trace].
  rewrite H2. cbn [world objects trace outcome_of app].
  unfold bind at 1, internal at 1, new at 1.
  cbn [world objects trace heap clock ticks app List.length].
  reflexivity.
Qed.

End Orchestrated.

(** ** The stores of a complete run

    The three reconciliations run one after the other on the same store:
    the frames of an earlier one are still there, and the clock has been
    read twice by each of the first two. *)

Lemma customers_store_both clk e ecc b bw :
  process_customer_data ecc_ref bw_ref (sources clk (e :: ecc) (b :: bw))
  = (Ok 5, mkStore [Ecc.frame (e :: ecc); Bw.frame (b :: bw);
         ecc_customers_frame (e :: ecc); bw_customers_frame (b :: bw);
         concat_frame [ecc_customers_frame (e :: ecc); bw_customers_frame (b :: bw)];
         merged "CustomerID" customer_final_spec clk
          [ecc_customers_frame (e :: ecc); bw_customers_frame (b :: bw)]] clk 2).
Proof. reflexivity. Qed.

Lemma customers_store_bw_only clk b bw :
  process_customer_data ecc_ref bw_ref (sources clk [] (b :: bw))
  = (Ok 4, mkStore [Ecc.frame []; Bw.frame (b :: bw);
         bw_customers_frame (b :: bw);
         concat_frame [bw_customers_frame (b :: bw)];
         merged "CustomerID" customer_final_spec clk
          [bw_customers_frame (b :: bw)]] clk 2).
Proof. reflexivity. Qed.

Lemma products_store_both clk t e ecc b bw f2 f3 f4 f5 :
  process_product_data ecc_ref bw_ref
    (mkStore [Ecc.frame (e :: ecc); Bw.frame (b :: bw); f2; f3; f4; f5] clk t)
  = (Ok 9, mkStore [Ecc.frame (e :: ecc); Bw.frame (b :: bw); f2; f3; f4; f5;
         ecc_products_frame (e :: ecc); bw_products_frame (b :: bw);
         concat_frame [ecc_products_frame (e :: ecc); bw_products_frame (b :: bw)];
         merged "ProductCode" product_final_spec (fun n => clk (n + t))
          [ecc_products_frame (e :: ecc); bw_products_frame (b :: bw)]]
        clk (S (S t))).
Proof. reflexivity. Qed.

Lemma products_store_bw_only clk t b bw f2 f3 f4 :
  process_product_data ecc_ref bw_ref
    (mkStore [Ecc.frame []; Bw.frame (b :: bw); f2; f3; f4] clk t)
  = (Ok 7, mkStore [Ecc.frame []; Bw.frame (b :: bw); f2; f3; f4;
         bw_products_frame (b :: bw);
         concat_frame [bw_products_frame (b :: bw)];
         merged "ProductCode" product_final_spec (fun n => clk (n + t))
          [bw_products_frame (b :: bw)]]
        clk (S (S t))).
Proof. reflexivity. Qed.

Lemma sales_store_both clk t e ecc b bw f2 f3 f4 f5 f6 f7 f8 f9 :
  process_sales_data ecc_ref bw_ref
    (mkStore [Ecc.frame (e :: ecc); Bw.frame (b :: bw);
              f2; f3; f4; f5; f6; f7; f8; f9] clk t)
  = (Ok 12, mkStore [Ecc.frame (e :: ecc); Bw.frame (b :: bw);
         f2; f3; f4; f5; f6; f7; f8; f9;
         ecc_sales_frame (e :: ecc); bw_sales_frame (b :: bw);
         sales_frame (fun n => clk (n + t))
          [ecc_sales_frame (e :: ecc); bw_sales_frame (b :: bw)]] clk (S t)).
Proof.
  unfold process_sales_data.
  rewrite (bind_run (is_empty ecc_ref) _ _ false
             (mkStore [Ecc.frame (e :: ecc); Bw.frame (b :: bw);
                       f2; f3; f4; f5; f6; f7; f8; f9] clk t)) by reflexivity.
  cbn [negb].
  rewrite (bind_run _ _ _ [10]
             (mkStore [Ecc.frame (e :: ecc); Bw.frame (b :: bw);
                       f2; f3; f4; f5; f6; f7; f8; f9;
                       ecc_sales_frame (e :: ecc)] clk t)) by reflexivity.
  rewrite (bind_run (is_empty bw_ref) _ _ false
             (mkStore [Ecc.frame (e :: ecc); Bw.frame (b :: bw);
                       f2; f3; f4; f5; f6; f7; f8; f9;
                       ecc_sales_frame (e :: ecc)] clk t)) by reflexivity.
  cbn [negb].
  rewrite (bind_run _ _ _ [10; 11]
             (mkStore [Ecc.frame (e :: ecc); Bw.frame (b :: bw);
                       f2; f3; f4; f5; f6; f7; f8; f9;
                       ecc_sales_frame (e :: ecc);
                       bw_sales_frame (b :: bw)] clk t)).
  2:{ unfold bind. rewrite (bw_sales_exec _ _ _ _ (b :: bw)) by reflexivity.
      reflexivity. }
  reflexivity.
Qed.

Lemma sales_store_bw_only clk t b bw f2 f3 f4 f5 f6 f7 :
  process_sales_data ecc_ref bw_ref
    (mkStore [Ecc.frame []; Bw.frame (b :: bw); f2; f3; f4; f5; f6; f7] clk t)
  = (Ok 9, mkStore [Ecc.frame []; Bw.frame (b :: bw); f2; f3; f4; f5; f6; f7;
         bw_sales_frame (b :: bw);
         sales_frame (fun n => clk (n + t)) [bw_sales_frame (b :: bw)]] clk (S t)).
Proof.
  unfold process_sales_data.
  rewrite (bind_run (is_empty ecc_ref) _ _ true
             (mkStore [Ecc.frame []; Bw.frame (b :: bw);
                       f2; f3; f4; f5; f6; f7] clk t)) by reflexivity.
  cbn [negb].
  rewrite (bind_run _ _ _ []
             (mkStore [Ecc.frame []; Bw.frame (b :: bw);
                       f2; f3; f4; f5; f6; f7] clk t)) by reflexivity.
  rewrite (bind_run (is_empty bw_ref) _ _ false
             (mkStore [Ecc.frame []; Bw.frame (b :: bw);
                       f2; f3; f4; f5; f6; f7] clk t)) by reflexivity.
  cbn [negb].
  rewrite (bind_run _ _ _ [8]
             (mkStore [Ecc.frame []; Bw.frame (b :: bw); f2; f3; f4; f5; f6; f7;
                       bw_sales_frame (b :: bw)] clk t)).
  2:{ unfold bind. rewrite (bw_sales_exec _ _ _ _ (b :: bw)) by reflexivity.
      reflexivity. }
  reflexivity.
Qed.

Section CompleteRun.
Context {World : Type} `{SapBackend World}.

Lemma stage_internal_run {A B} (st : stage) (m : M A)
      (k : A -> SE (run World) B) (w : World) (o : store) tr a o' :
  m o = (Ok a, o') ->
  bind (in_stage st (internal m)) k (mkRun w o tr)
  = k a (mkRun w o' (tr ++ [(st, Returned)])).
Proof.
  intros Hm. unfold bind, in_stage, internal. cbn [objects world trace].
  rewrite Hm. reflexivity.
Qed.

Lemma stage_internal_raise {A B} (st : stage) (m : M A)
      (k : A -> SE (run World) B) (w : World) (o : store) tr e o' :
  m o = (Raise e, o') ->
  bind (in_stage st (internal m)) k (mkRun w o tr)
  = (Raise e, mkRun w o' (tr ++ [(st, Raised e)])).
Proof.
  intros Hm. unfold bind, in_stage, internal. cbn [objects world trace].
  rewrite Hm. reflexivity.
Qed.

(** The end of a run whose three reconciliations have returned. *)
Lemma write_stage_run (w2 : World) (o : store) tr rc rp rs :
  (customers <- internal (deref rc) ;;
   products <- internal (deref rp) ;;
   sales <- internal (deref rs) ;;
   in_stage Write (external (save_processed_data customers products sales)) ;;;
   ret (summary (len customers) (len products) (len sales)))
    (mkRun w2 o tr)
  = match save_processed_data (lookup o rc) (lookup o rp) (lookup o rs) w2 with
    | (Ok _, w3) =>
        (Ok (summary (len (lookup o rc)) (len (lookup o rp)) (len (lookup o rs))),
         mkRun w3 o (tr ++ [(Write, Returned)]))
    | (Raise e, w3) => (Raise e, mkRun w3 o (tr ++ [(Write, Raised e)]))
    end.
Proof.
  unfold bind, internal, deref, in_stage, external, ret.
  cbn [objects world trace].
  destruct (save_processed_data _ _ _ w2) as [[[]|e] w3]; reflexivity.
Qed.

(** A run whose reads have returned, the BW read with rows: what the
    writer is called with. *)
Lemma process_sap_data_with_bw_rows (w w0 w1 w2 : World) clk ecc bw :
  SapDataProcessor w = (Ok tt, w0) ->
  get_raw_sap_ecc_data w0 = (Ok ecc, w1) ->
  get_raw_sap_bw_data w1 = (Ok bw, w2) ->
  bw <> [] ->
  exists C P S,
    returned (process_customer_data ecc_ref bw_ref) (sources clk ecc bw) = Ok C
    /\ returned (process_product_data ecc_ref bw_ref)
         (sources (fun n => clk (n + 2)) ecc bw) = Ok P
    /\ returned (process_sales_data ecc_ref bw_ref)
         (sources (fun n => clk (n + 4)) ecc bw) = Ok S
    /\ fst (process_sap_data (start w clk))
       = match fst (save_processed_data C P S w2) with
         | Ok _ => Ok (summary (len C) (len P) (len S))
         | Raise e => Raise e
         end
    /\ world (snd (process_sap_data (start w clk)))
       = snd (save_processed_data C P S w2).
Proof.
  intros H0 H1 H2 Hbw. destruct bw as [|b bw]; [contradiction|].
  rewrite (process_sap_data_after_reads w w0 w1 w2 clk ecc (b :: bw) H0 H1 H2).
  destruct ecc as [|e ecc].
  - do 3 eexists.
    split; [apply run_customers_bw_only|].
    split; [apply run_products_bw_only|].
    split; [apply run_sales_bw_only|].
    rewrite (stage_internal_run ReconcileCustomers _ _ _ _ _ _ _
               (customers_store_bw_only clk b bw)).
    rewrite (stage_internal_run ReconcileProducts _ _ _ _ _ _ _
               (products_store_bw_only clk 2 b bw _ _ _)).
    rewrite (stage_internal_run ReconcileSales _ _ _ _ _ _ _
               (sales_store_bw_only clk 4 b bw _ _ _ _ _ _)).
    rewrite write_stage_run. cbn [lookup heap nth].
    destruct (save_processed_data _ _ _ w2) as [[[]|e'] w3]; split; reflexivity.
  - do 3 eexists.
    split; [apply run_customers_both|].
    split; [apply run_products_both|].
    split; [apply run_sales_both|].
    rewrite (stage_internal_run ReconcileCustomers _ _ _ _ _ _ _
               (customers_store_both clk e ecc b bw)).
    rewrite (stage_internal_run ReconcileProducts _ _ _ _ _ _ _
               (products_store_both clk 2 e ecc b bw _ _ _ _)).
    rewrite (stage_internal_run ReconcileSales _ _ _ _ _ _ _
               (sales_store_both clk 4 e ecc b bw _ _ _ _ _ _ _ _)).
    rewrite write_stage_run. cbn [lookup heap nth].
    destruct (save_processed_data _ _ _ w2) as [[[]|e'] w3]; split; reflexivity.
Qed.

(** X15.  [process_sap_data] with [process_customer_data],
    [process_product_data], [process_sales_data] and [save_processed_data]:
    when the processor is built, both reads return and the BW read has
    rows, no reconciliation raises, and the writer is called once, with the
    customer, product and sales reconciliation of the very rows the two
    reads returned.  The three run one after the other and each reads the
    clock itself: the customer frame carries the first two readings, the
    product frame the third and fourth, the sales frame the fifth.  The
    run returns the summary with the row counts of these three frames if
    the writer returns, and raises what the writer raises otherwise; the
    outside world is left as the writer leaves it. *)
Theorem complete_run_saves_the_reconciliations (w w0 w1 w2 : World) clk ecc bw :
  SapDataProcessor w = (Ok tt, w0) ->
  get_raw_sap_ecc_data w0 = (Ok ecc, w1) ->
  get_raw_sap_bw_data w1 = (Ok bw, w2) ->
  bw <> [] ->
  exists C P S,
    returned (process_customer_data ecc_ref bw_ref) (sources clk ecc bw) = Ok C
    /\ returned (process_product_data ecc_ref bw_ref)
         (sources (fun n => clk (n + 2)) ecc bw) = Ok P
    /\ returned (process_sales_data ecc_ref bw_ref)
         (sources (fun n => clk (n + 4)) ecc bw) = Ok S
    /\ fst (process_sap_data (start w clk))
       = match fst (save_processed_data C P S w2) with
         | Ok _ => Ok (summary (len C) (len P) (len S))
         | Raise e => Raise e
         end
    /\ world (snd (process_sap_data (start w clk)))
       = snd (save_processed_data C P S w2).
Proof. apply process_sap_data_with_bw_rows. Qed.

(** X16.  [process_sap_data] and [process_sap_data_http] when the ECC read
    returns rows and the BW read returns none: the customer reconciliation,
    the first one to run, raises the [KeyError] on [CustomerSegment]; the
    run raises it too, after the stages construct, read ECC and read BW;
    the products and sales reconciliations and the writer are not entered,
    so the outside world is as the BW read left it; and the HTTP trigger
    answers with status 500. *)
Theorem run_without_bw_rows_stops_before_write (w w0 w1 w2 : World) clk e ecc :
  SapDataProcessor w = (Ok tt, w0) ->
  get_raw_sap_ecc_data w0 = (Ok (e :: ecc), w1) ->
  get_raw_sap_bw_data w1 = (Ok [], w2) ->
  fst (process_sap_data (start w clk)) = Raise (KeyError ["CustomerSegment"])
  /\ trace (snd (process_sap_data (start w clk)))
     = ok_trace [Construct; ReadEcc; ReadBw]
       ++ [(ReconcileCustomers, Raised (KeyError ["CustomerSegment"]))]
  /\ world (snd (process_sap_data (start w clk))) = w2
  /\ exists resp,
       fst (process_sap_data_http (start w clk)) = Ok resp
       /\ status_code resp = 500.
Proof.
  intros H0 H1 H2.
  destruct (process_customer_data ecc_ref bw_ref (sources clk (e :: ecc) []))
    as [r o'] eqn:E.
  pose proof (run_customers_ecc_only clk e ecc) as R.
  unfold returned in R. rewrite E in R.
  destruct r as [x|e']; [discriminate|]. injection R as ->.
  assert (EP : process_sap_data (start w clk)
               = (Raise (KeyError ["CustomerSegment"]),
                  mkRun w2 o'
                    (ok_trace [Construct; ReadEcc; ReadBw]
                     ++ [(ReconcileCustomers,
                          Raised (KeyError ["CustomerSegment"]))]))).
  { rewrite (process_sap_data_after_reads w w0 w1 w2 clk (e :: ecc) [] H0 H1 H2).
    apply (stage_internal_raise ReconcileCustomers _ _ _ _ _ _ _ E). }
  unfold process_sap_data_http, try_except, bind. rewrite EP.
  cbn [fst snd trace world]. repeat (split; [reflexivity|]).
  eexists. split; reflexivity.
Qed.

(** The trigger, given the outcome of the run. *)
Lemma process_sap_data_http_run (st : run World) r st' :
  process_sap_data st = (r, st') ->
  process_sap_data_http st
  = (Ok match r with
        | Ok msg =>
            mkResponse ("SAP data processing completed: " ++ msg)%string 200
        | Raise e =>
            mkResponse ("Error processing SAP data: " ++ exn_message e)%string 500
        end, st').
Proof.
  intros E. unfold process_sap_data_http, try_except, bind. rewrite E.
  destruct r; reflexivity.
Qed.

(** X17.  [process_sap_data_http] over [process_sap_data]: the HTTP
    trigger never raises and leaves the run exactly as [process_sap_data]
    leaves it.  It answers 200 exactly when the processor was built, both
    reads, the three reconciliations of the rows read and the writer,
    called with their three frames, have returned; the body is then the
    completion text followed by the summary with the row counts of these
    frames.  Otherwise the run has raised some [e], and the answer is 500
    with the error prefix followed by the text of [e]: its message for a
    [ValueError], a [TypeError] or an error of the database, and for a
    [KeyError] the wording of pandas, which is not modelled. *)
Theorem http_trigger_never_raises (w : World) (clk : nat -> Z) :
  exists resp,
    process_sap_data_http (start w clk)
    = (Ok resp, snd (process_sap_data (start w clk)))
    /\ ((exists w0 ecc w1 bw w2 rc s1 rp s2 rs s3 w3,
           SapDataProcessor w = (Ok tt, w0)
           /\ get_raw_sap_ecc_data w0 = (Ok ecc, w1)
           /\ get_raw_sap_bw_data w1 = (Ok bw, w2)
           /\ process_customer_data ecc_ref bw_ref (sources clk ecc bw)
              = (Ok rc, s1)
           /\ process_product_data ecc_ref bw_ref s1 = (Ok rp, s2)
           /\ process_sales_data ecc_ref bw_ref s2 = (Ok rs, s3)
           /\ save_processed_data (lookup s3 rc) (lookup s3 rp) (lookup s3 rs) w2
              = (Ok tt, w3)
           /\ resp
              = mkResponse
                  ("SAP data processing completed: "
                   ++ summary (len (lookup s3 rc)) (len (lookup s3 rp))
                              (len (lookup s3 rs)))%string 200)
        \/ (exists e,
              fst (process_sap_data (start w clk)) = Raise e
              /\ status_code resp = 500
              /\ match e with
                 | KeyError _ =>
                     exists detail,
                       body resp
                       = ("Error processing SAP data: " ++ detail)%string
                 | _ =>
                     body resp
                     = ("Error processing SAP data: " ++ exn_message e)%string
                 end)).
Proof.
  assert (Hfail : forall e st',
            process_sap_data (start w clk) = (Raise e, st') ->
            exists resp,
              process_sap_data_http (start w clk)
              = (Ok resp, snd (process_sap_data (start w clk)))
              /\ exists e0,
                   fst (process_sap_data (start w clk)) = Raise e0
                   /\ status_code resp = 500
                   /\ match e0 with
                      | KeyError _ =>
                          exists detail,
                            body resp
                            = ("Error processing SAP data: " ++ detail)%string
                      | _ =>
                          body resp
                          = ("Error processing SAP data: "
                             ++ exn_message e0)%string
                      end).
  { intros e st' E. rewrite (process_sap_data_http_run _ _ _ E), E.
    eexists. split; [reflexivity|]. exists e. split; [reflexivity|].
    split; [reflexivity|].
    destruct e; cbn [body]; [eexists|..]; reflexivity. }
  destruct (process_sap_data_run w clk)
    as [Hok | [F | [F | [F | [F | [F | [F | F]]]]]]].
  - destruct Hok as (w0 & ecc & w1 & bw & w2 & rc & s1 & rp & s2 & rs & s3 & w3
                     & H0 & H1 & H2 & H3 & H4 & H5 & H6 & E).
    rewrite (process_sap_data_http_run _ _ _ E), E.
    eexists. split; [reflexivity|]. left.
    exists w0, ecc, w1, bw, w2, rc, s1, rp, s2, rs, s3, w3.
    repeat (split; [assumption|]). reflexivity.
  - destruct F as (e & w0 & _ & E).
    destruct (Hfail _ _ E) as (resp & Hr & Hf). exists resp. split; [exact Hr|].
    right. exact Hf.
  - destruct F as (w0 & e & w1 & _ & _ & E).
    destruct (Hfail _ _ E) as (resp & Hr & Hf). exists resp. split; [exact Hr|].
    right. exact Hf.
  - destruct F as (w0 & ecc & w1 & e & w2 & _ & _ & _ & E).
    destruct (Hfail _ _ E) as (resp & Hr & Hf). exists resp. split; [exact Hr|].
    right. exact Hf.
  - destruct F as (w0 & ecc & w1 & bw & w2 & e & s1 & _ & _ & _ & _ & E).
    destruct (Hfail _ _ E) as (resp & Hr & Hf). exists resp. split; [exact Hr|].
    right. exact Hf.
  - destruct F as (w0 & ecc & w1 & bw & w2 & rc & s1 & e & s2
                   & _ & _ & _ & _ & _ & E).
    destruct (Hfail _ _ E) as (resp & Hr & Hf). exists resp. split; [exact Hr|].
    right. exact Hf.
  - destruct F as (w0 & ecc & w1 & bw & w2 & rc & s1 & rp & s2 & e & s3
                   & _ & _ & _ & _ & _ & _ & E).
    destruct (Hfail _ _ E) as (resp & Hr & Hf). exists resp. split; [exact Hr|].
    right. exact Hf.
  - destruct F as (w0 & ecc & w1 & bw & w2 & rc & s1 & rp & s2 & rs & s3 & e & w3
                   & _ & _ & _ & _ & _ & _ & _ & E).
    destruct (Hfail _ _ E) as (resp & Hr & Hf). exists resp. split; [exact Hr|].
    right. exact Hf.
Qed.

End CompleteRun.

(* ================================================================== *)
(** * The run over SQL Server *)

Section SqlRun.
Context {World : Type} `{SqlBackend World}.





End SqlRun.

Section SqlOrchestrated.
Context {World : Type} `{SqlBackend World}.

(** X20.  [process_sap_data] over [SapDataProcessor.__init__],
    [get_raw_sap_ecc_data] and [get_connection_string]: with neither
    [SQL_CONNECTION_STRING] nor [KEY_VAULT_URL] in the environment, a run
    whose processor is built stops in the ECC read with the [ValueError] of
    [get_connection_string], also when [PROCESSED_SQL_CONNECTION_STRING] is
    set: no database call is made, the object store stays empty, and the
    HTTP trigger answers 500 with that message. *)
Theorem unconfigured_run_reaches_no_database (env : string -> option string)
      (w w0 : World) (clk : nat -> Z) :
  truthy (env "SQL_CONNECTION_STRING") = false ->
  truthy (env "KEY_VAULT_URL") = false ->
  azure_identity w = (Ok tt, w0) ->
  @process_sap_data _ (sql_backend (SapDataProcessor_init env))
    (start (mkDb w []) clk)
  = (Raise (ValueError "No SQL connection string available"),
     mkRun (mkDb w0 []) (mkStore [] clk 0)
       [(Construct, Returned);
        (ReadEcc, Raised (ValueError "No SQL connection string available"))])
  /\ fst (@process_sap_data_http _ (sql_backend (SapDataProcessor_init env))
            (start (mkDb w []) clk))
     = Ok (mkResponse
             "Error processing SAP data: No SQL connection string available" 500).
Proof.
  intros Hs Hv Hi.
  assert (EP : @process_sap_data _ (sql_backend (SapDataProcessor_init env))
                 (start (mkDb w []) clk)
               = (Raise (ValueError "No SQL connection string available"),
                  mkRun (mkDb w0 []) (mkStore [] clk 0)
                    [(Construct, Returned);
                     (ReadEcc,
                      Raised (ValueError "No SQL connection string available"))])).
  { unfold process_sap_data, start.
    unfold bind at 1, in_stage at 1, external at 1.
    cbn [world objects trace SapDataProcessor sql_backend].
    unfold quiet. cbn [database calls]. rewrite Hi.
    cbn [world objects trace outcome_of app].
    unfold bind at 1, in_stage at 1, external at 1.
    cbn [world objects trace get_raw_sap_ecc_data sql_backend].
    unfold Sql.get_raw_sap_ecc_data, Sql.get_connection_string,
      SapDataProcessor_init.
    cbn [andb Processor.sql_connection_string Processor.secret_client
         Processor.processed_sql_connection_string].
    rewrite Hs, Hv. reflexivity. }
  split; [exact EP|].
  unfold process_sap_data_http, try_except, bind. rewrite EP. reflexivity.
Qed.



End SqlOrchestrated.

(** ** The theorems of this part on sample databases *)

Lemma complete_run_saves_the_reconciliations_witness :
  exists C P S,
    returned (process_customer_data ecc_ref bw_ref)
      (sources (fun n => Z.of_nat n) [ecc_line "C1" "P1" "O1" 1 10 10 5]
               [bw_fact "C1" "P1" 50 2 7]) = Ok C
    /\ returned (process_product_data ecc_ref bw_ref)
         (sources (fun n => Z.of_nat (n + 2)) [ecc_line "C1" "P1" "O1" 1 10 10 5]
                  [bw_fact "C1" "P1" 50 2 7]) = Ok P
    /\ returned (process_sales_data ecc_ref bw_ref)
         (sources (fun n => Z.of_nat (n + 4)) [ecc_line "C1" "P1" "O1" 1 10 10 5]
                  [bw_fact "C1" "P1" 50 2 7]) = Ok S
    /\ fst (@process_sap_data _ (@sql_backend unit demo_sql demo_processor)
              (start demo_db (fun n => Z.of_nat n)))
       = match fst (@save_processed_data _ (@sql_backend unit demo_sql demo_processor)
                      C P S
                      (mkDb tt [Connect "Server=raw"; ReadSql SapEccRawData;
                                Connect "Server=raw"; ReadSql SapBwRawData])) with
         | Ok _ => Ok (summary (len C) (len P) (len S))
         | Raise e => Raise e
         end
    /\ world (snd (@process_sap_data _ (@sql_backend unit demo_sql demo_processor)
                     (start demo_db (fun n => Z.of_nat n))))
       = snd (@save_processed_data _ (@sql_backend unit demo_sql demo_processor)
                C P S
                (mkDb tt [Connect "Server=raw"; ReadSql SapEccRawData;
                          Connect "Server=raw"; ReadSql SapBwRawData])).
Proof.
  apply (@complete_run_saves_the_reconciliations _
           (@sql_backend unit demo_sql demo_processor)
           demo_db demo_db
           (mkDb tt [Connect "Server=raw"; ReadSql SapEccRawData])
           (mkDb tt [Connect "Server=raw"; ReadSql SapEccRawData;
                     Connect "Server=raw"; ReadSql SapBwRawData])
           (fun n => Z.of_nat n)
           [ecc_line "C1" "P1" "O1" 1 10 10 5] [bw_fact "C1" "P1" 50 2 7]).
  - reflexivity.
  - reflexivity.
  - reflexivity.
  - discriminate.
Defined.

Lemma run_without_bw_rows_stops_before_write_witness :
  fst (@process_sap_data _ (@sql_backend unit no_bw_sql demo_processor)
         (start demo_db (fun n => Z.of_nat n)))
  = Raise (KeyError ["CustomerSegment"])
  /\ trace (snd (@process_sap_data _ (@sql_backend unit no_bw_sql demo_processor)
                   (start demo_db (fun n => Z.of_nat n))))
     = ok_trace [Construct; ReadEcc; ReadBw]
       ++ [(ReconcileCustomers, Raised (KeyError ["CustomerSegment"]))]
  /\ world (snd (@process_sap_data _ (@sql_backend unit no_bw_sql demo_processor)
                   (start demo_db (fun n => Z.of_nat n))))
     = mkDb tt [Connect "Server=raw"; ReadSql SapEccRawData;
                Connect "Server=raw"; ReadSql SapBwRawData]
  /\ exists resp,
       fst (@process_sap_data_http _ (@sql_backend unit no_bw_sql demo_processor)
              (start demo_db (fun n => Z.of_nat n))) = Ok resp
       /\ status_code resp = 500.
Proof.
  apply (@run_without_bw_rows_stops_before_write _
           (@sql_backend unit no_bw_sql demo_processor)
           demo_db demo_db
           (mkDb tt [Connect "Server=raw"; ReadSql SapEccRawData])
           (mkDb tt [Connect "Server=raw"; ReadSql SapEccRawData;
                     Connect "Server=raw"; ReadSql SapBwRawData])
           (fun n => Z.of_nat n) (ecc_line "C1" "P1" "O1" 1 10 10 5) []).
  - reflexivity.
  - reflexivity.
  - reflexivity.
Defined.



Lemma unconfigured_run_reaches_no_database_witness :
  @process_sap_data _ (@sql_backend unit demo_sql
                         (SapDataProcessor_init processed_only_env))
    (start (mkDb tt []) (fun n => Z.of_nat n))
  = (Raise (ValueError "No SQL connection string available"),
     mkRun (mkDb tt []) (mkStore [] (fun n => Z.of_nat n) 0)
       [(Construct, Returned);
        (ReadEcc, Raised (ValueError "No SQL connection string available"))])
  /\ fst (@process_sap_data_http _ (@sql_backend unit demo_sql
                                      (SapDataProcessor_init processed_only_env))
            (start (mkDb tt []) (fun n => Z.of_nat n)))
     = Ok (mkResponse
             "Error processing SAP data: No SQL connection string available" 500).
Proof.
  apply (@unconfigured_run_reaches_no_database unit demo_sql processed_only_env
           tt tt (fun n => Z.of_nat n)).
  - reflexivity.
  - reflexivity.
  - reflexivity.
Defined.


(* ================================================================== *)
(** * The search service: what reaches the index *)

Section IndexCalls.
Context {World : Type} (B : SearchBackend World).

Lemma logging_run {A} (c : index_call) (op : SE World A)
      (s : World * list index_call) :
  logging c op s = match op (fst s) with
                   | (Ok a, w) => (Ok a, (w, snd s ++ [c]))
                   | (Raise e, w) => (Raise e, (w, snd s))
                   end.
Proof. unfold logging. destruct (op (fst s)) as [[a|e] w]; reflexivity. Qed.

Lemma sdk_logging_run {A} (c : index_call) (op : SE World A)
      (st : search_run (World * list index_call)) :
  sdk (logging c op) st
  = match op (fst (outside st)) with
    | (Ok a, w) => (Ok a, mkSearch (w, index_calls st ++ [c]) (uploaded st))
    | (Raise e, w) => (Raise e, mkSearch (w, index_calls st) (uploaded st))
    end.
Proof.
  unfold sdk, index_calls. rewrite logging_run.
  destruct (op (fst (outside st))) as [[a|e] w]; reflexivity.
Qed.

Lemma credentials_calls (self : AISearchService)
      (st : search_run (World * list index_call)) :
  index_calls (snd (@get_ai_search_credentials _ (logged B) self st))
  = index_calls st.
Proof.
  unfold get_ai_search_credentials.
  destruct (truthy (ai_search_endpoint self) && truthy (ai_search_key self));
    [reflexivity|].
  destruct (secret_client self); [|reflexivity].
  unfold bind, sdk, ret, index_calls. cbn [get_secret logged]. unfold unlogged.
  destruct (@get_secret _ B "ai-search-endpoint" (fst (outside st)))
    as [[x|e] w1]; cbn [outside uploaded fst snd]; [|reflexivity].
  destruct (@get_secret _ B "ai-search-key" w1) as [[y|e] w2]; reflexivity.
Qed.

(** The loop of [clear_index]: the batches deleted are a prefix of the
    batches, all of them when the loop returns. *)
Lemma delete_loop client (ids : list string) (starts : list nat)
      (st : search_run (World * list index_call)) :
  exists k,
    index_calls (snd (for_each starts
       (fun i => sdk (@delete_documents _ (logged B) client
                        (slice ids i (i + batch_size)))) st))
    = index_calls st
      ++ map DeleteDocuments
           (firstn k (map (fun i => slice ids i (i + batch_size)) starts))
    /\ match fst (for_each starts
         (fun i => sdk (@delete_documents _ (logged B) client
                          (slice ids i (i + batch_size)))) st) with
       | Ok _ => k = List.length starts
       | Raise _ => k < List.length starts
       end.
Proof.
  revert st. induction starts as [|i starts IH]; intros st.
  - exists 0. cbn. now rewrite app_nil_r.
  - rewrite for_each_cons. cbn [delete_documents logged].
    rewrite sdk_logging_run.
    destruct (@delete_documents _ B client (slice ids i (i + batch_size))
                (fst (outside st))) as [[[]|e] w].
    + destruct (IH (mkSearch (w, index_calls st
                                 ++ [DeleteDocuments (slice ids i (i + batch_size))])
                      (uploaded st))) as (k & Hc & Hk).
      exists (S k). cbn [delete_documents logged] in Hc, Hk. split.
      * rewrite Hc. cbn [index_calls outside snd map firstn].
        now rewrite <- app_assoc.
      * destruct (fst (for_each starts _ _)); cbn [List.length]; lia.
    + exists 0. cbn [fst snd firstn map List.length index_calls outside].
      rewrite app_nil_r. split; [reflexivity|lia].
Qed.

(** [clear_index], step by step. *)
Lemma clear_index_run (self : AISearchService)
      (st : search_run (World * list index_call)) r st' :
  @clear_index _ (logged B) self st = (r, st') ->
  match r with
  | Ok true =>
      exists cred s1 ids,
        @get_ai_search_credentials _ (logged B) self st = (Ok cred, s1)
        /\ fst (@search_all_ids _ B (mkClient (fst cred) default_index (snd cred))
                  (fst (outside s1))) = Ok ids
        /\ index_calls st'
           = index_calls st ++ SearchIds :: map DeleteDocuments (id_batches ids)
  | Ok false =>
      (index_calls st' = index_calls st
       /\ ((exists e,
              fst (@get_ai_search_credentials _ (logged B) self st) = Raise e)
           \/ exists cred s1 e,
                @get_ai_search_credentials _ (logged B) self st = (Ok cred, s1)
                /\ fst (@search_all_ids _ B
                          (mkClient (fst cred) default_index (snd cred))
                          (fst (outside s1))) = Raise e))
      \/ exists cred s1 ids k,
           @get_ai_search_credentials _ (logged B) self st = (Ok cred, s1)
           /\ fst (@search_all_ids _ B
                     (mkClient (fst cred) default_index (snd cred))
                     (fst (outside s1))) = Ok ids
           /\ k < List.length (id_batches ids)
           /\ index_calls st'
              = index_calls st
                ++ SearchIds :: map DeleteDocuments (firstn k (id_batches ids))
  | Raise _ => False
  end.
Proof.
  intros HR.
  unfold clear_index, clear_index_body, try_except, bind in HR.
  pose proof (credentials_calls self st) as Hc.
  destruct (@get_ai_search_credentials _ (logged B) self st) as [[cred|e] s1];
    cbn [fst snd] in *.
  2:{ unfold ret in HR. inversion HR; subst. left. split; [exact Hc|].
      left. now exists e. }
  cbn [search_all_ids logged] in HR. rewrite sdk_logging_run in HR.
  destruct (@search_all_ids _ B (mkClient (fst cred) default_index (snd cred))
              (fst (outside s1))) as [[ids|e] w2] eqn:Es.
  2:{ unfold ret in HR. inversion HR; subst. left. split; [exact Hc|].
      right. exists cred, s1, e. split; [reflexivity|]. now rewrite Es. }
  destruct ids as [|i ids].
  - unfold ret in HR. inversion HR; subst. exists cred, s1, [].
    split; [reflexivity|]. split; [now rewrite Es|].
    cbn [index_calls outside snd]. fold (index_calls s1). now rewrite Hc.
  - destruct (delete_loop (mkClient (fst cred) default_index (snd cred))
                (i :: ids) (range_step (List.length (i :: ids)) batch_size)
                (mkSearch (w2, index_calls s1 ++ [SearchIds]) (uploaded s1)))
      as (k & Hk & Hr).
    fold (id_batches (i :: ids)) in Hk.
    destruct (for_each _ _ _) as [[[]|e] s3]; cbn [fst snd] in *;
      unfold ret in HR; inversion HR; subst.
    + exists cred, s1, (i :: ids). split; [reflexivity|].
      split; [now rewrite Es|].
      rewrite Hk. cbn [index_calls outside snd]. fold (index_calls s1).
      rewrite Hc, <- app_assoc. cbn [app]. f_equal. f_equal. f_equal.
      apply firstn_all2. unfold id_batches. rewrite length_map. lia.
    + right. exists cred, s1, (i :: ids), k. split; [reflexivity|].
      split; [now rewrite Es|]. split.
      * unfold id_batches. now rewrite length_map.
      * rewrite Hk. cbn [index_calls outside snd]. fold (index_calls s1).
        now rewrite Hc, <- app_assoc.
Qed.

(** X22.  [clear_index]: when it returns [True], it has listed the ids of
    the index once and then deleted every id listed, in batches that are
    the consecutive slices of the list: concatenated they give the list
    back, each holds between 1 and 1000 ids, and it has made no other call
    to the index. *)
Theorem clear_index_deletes_every_id (self : AISearchService)
      (st : search_run (World * list index_call)) :
  fst (@clear_index _ (logged B) self st) = Ok true ->
  exists cred s1 ids,
    @get_ai_search_credentials _ (logged B) self st = (Ok cred, s1)
    /\ fst (@search_all_ids _ B (mkClient (fst cred) default_index (snd cred))
              (fst (outside s1))) = Ok ids
    /\ index_calls (snd (@clear_index _ (logged B) self st))
       = index_calls st ++ SearchIds :: map DeleteDocuments (id_batches ids)
    /\ List.concat (id_batches ids) = ids
    /\ Forall (fun b => 1 <= List.length b <= 1000) (id_batches ids).
Proof.
  intros Hok.
  destruct (@clear_index _ (logged B) self st) as [r st'] eqn:E.
  pose proof (clear_index_run self st r st' E) as HR.
  cbn [fst snd] in *. subst r.
  destruct HR as (cred & s1 & ids & Hc & Hs & Hcalls).
  exists cred, s1, ids. repeat (split; [assumption|]). split.
  - unfold id_batches. apply slices_cover. unfold batch_size. lia.
  - unfold id_batches. apply Forall_map, Forall_forall. intros i Hi.
    rewrite slice_length.
    apply range_step_In in Hi; [|unfold batch_size; lia].
    destruct Hi as (Hi & _). unfold batch_size. lia.
Qed.

(** X23.  [clear_index]: when it returns [False], the index is left as it
    was or partly cleared.  Either the credentials or the listing of the
    ids raised, and no call to the index has returned; or the ids were
    listed, and of the batches of the ids listed a proper initial part
    was deleted: the batch whose deletion raised and those after it stay
    in the index. *)
Theorem clear_index_failure_is_partial (self : AISearchService)
      (st : search_run (World * list index_call)) :
  fst (@clear_index _ (logged B) self st) = Ok false ->
  (index_calls (snd (@clear_index _ (logged B) self st)) = index_calls st
   /\ ((exists e,
          fst (@get_ai_search_credentials _ (logged B) self st) = Raise e)
       \/ exists cred s1 e,
            @get_ai_search_credentials _ (logged B) self st = (Ok cred, s1)
            /\ fst (@search_all_ids _ B
                      (mkClient (fst cred) default_index (snd cred))
                      (fst (outside s1))) = Raise e))
  \/ exists cred s1 ids k,
       @get_ai_search_credentials _ (logged B) self st = (Ok cred, s1)
       /\ fst (@search_all_ids _ B (mkClient (fst cred) default_index (snd cred))
                 (fst (outside s1))) = Ok ids
       /\ k < List.length (id_batches ids)
       /\ index_calls (snd (@clear_index _ (logged B) self st))
          = index_calls st
            ++ SearchIds :: map DeleteDocuments (firstn k (id_batches ids)).
Proof.
  intros Hf.
  destruct (@clear_index _ (logged B) self st) as [r st'] eqn:E.
  pose proof (clear_index_run self st r st' E) as HR.
  cbn [fst snd] in *. subst r. exact HR.
Qed.

(** [create_search_index], step by step. *)
Lemma create_search_index_run (self : AISearchService)
      (st : search_run (World * list index_call)) r st' :
  @create_search_index _ (logged B) self st = (r, st') ->
  match r with
  | Ok true =>
      exists cred s0,
        @get_ai_search_credentials _ (logged B) self st = (Ok cred, s0)
        /\ index_calls st'
           = index_calls st ++ [CreateIndex (fst cred) (snd cred) default_index]
  | Ok false => index_calls st' = index_calls st
  | Raise _ => False
  end.
Proof.
  intros HR.
  unfold create_search_index, create_search_index_body, try_except, bind in HR.
  pose proof (credentials_calls self st) as Hc.
  destruct (@get_ai_search_credentials _ (logged B) self st) as [[cred|e] s1];
    cbn [fst snd] in *.
  2:{ unfold ret in HR. inversion HR; subst. exact Hc. }
  cbn [create_or_update_index logged] in HR. rewrite sdk_logging_run in HR.
  destruct (@create_or_update_index _ B (fst cred) (snd cred) default_index
              (fst (outside s1))) as [[[]|e] w2];
    unfold ret in HR; inversion HR; subst; cbn [index_calls outside snd];
    fold (index_calls s1); rewrite Hc.
  - exists cred, s1. split; reflexivity.
  - reflexivity.
Qed.

Lemma connection_string_calls (self : AISearchService)
      (st : search_run (World * list index_call)) :
  index_calls (snd (@get_sql_connection_string _ (logged B) self st))
  = index_calls st.
Proof.
  unfold get_sql_connection_string.
  destruct (truthy (sql_connection_string self)); [reflexivity|].
  destruct (secret_client self); [|reflexivity].
  unfold sdk, index_calls. cbn [get_secret logged]. unfold unlogged.
  now destruct (@get_secret _ B "sql-connection-string" (fst (outside st)))
    as [[x|e] w1].
Qed.

(** A retrieval makes no call to the index. *)
Lemma get_documents_calls (self : AISearchService) (t : table)
      (st : search_run (World * list index_call)) :
  index_calls (snd (@get_documents _ (logged B) self t st)) = index_calls st.
Proof.
  unfold get_documents, get_documents_body, try_except, bind.
  pose proof (connection_string_calls self st) as Hc.
  destruct (@get_sql_connection_string _ (logged B) self st) as [[cs|e] s1];
    cbn [fst snd] in *; [|exact Hc].
  unfold sdk. cbn [read_sql logged]. unfold unlogged, ret.
  destruct (@read_sql _ B cs t (fst (outside s1))) as [[docs|e] w2];
    cbn [snd index_calls outside]; exact Hc.
Qed.

Lemma all_documents_calls (self : AISearchService)
      (st : search_run (World * list index_call)) :
  index_calls (snd (@all_documents _ (logged B) self st)) = index_calls st.
Proof.
  unfold all_documents, get_customer_documents, get_sales_documents,
    get_product_documents, bind, ret.
  pose proof (get_documents_calls self Customers st) as H1.
  destruct (@get_documents _ (logged B) self Customers st) as [[d1|e] s1];
    cbn [snd] in *; [|exact H1].
  pose proof (get_documents_calls self Sales s1) as H2.
  destruct (@get_documents _ (logged B) self Sales s1) as [[d2|e] s2];
    cbn [snd] in *; [|congruence].
  pose proof (get_documents_calls self Products s2) as H3.
  destruct (@get_documents _ (logged B) self Products s2) as [[d3|e] s3];
    cbn [snd] in *; congruence.
Qed.

(** One turn of the loop of [upload_documents]. *)
Lemma upload_turn_calls client (batch : list document)
      (st : search_run (World * list index_call)) :
  (record_batch batch ;;;
   sdk (@client_upload_documents _ (logged B) client batch) ;;;
   ret tt) st
  = match @client_upload_documents _ B client batch (fst (outside st)) with
    | (Ok _, w) =>
        (Ok tt, mkSearch (w, index_calls st ++ [UploadDocuments batch])
                  (uploaded st ++ [batch]))
    | (Raise e, w) =>
        (Raise e, mkSearch (w, index_calls st) (uploaded st ++ [batch]))
    end.
Proof.
  unfold bind, record_batch, sdk, ret, index_calls.
  cbn [outside uploaded client_upload_documents logged]. rewrite logging_run.
  destruct (@client_upload_documents _ B client batch (fst (outside st)))
    as [[flags|e] w]; reflexivity.
Qed.

(** The loop of [upload_documents]: the batches the index has taken are a
    prefix of the batches, all of them when the loop returns. *)
Lemma upload_loop_calls client (documents : list document) (starts : list nat)
      (st : search_run (World * list index_call)) :
  exists k,
    index_calls (snd (for_each starts
       (fun i =>
          (record_batch (map (@json_document _ (logged B))
                             (slice documents i (i + batch_size))) ;;;
           sdk (@client_upload_documents _ (logged B) client
                  (map (@json_document _ (logged B))
                       (slice documents i (i + batch_size)))) ;;;
           ret tt)) st))
    = index_calls st
      ++ map UploadDocuments
           (firstn k (map (fun i => map (@json_document _ B)
                                        (slice documents i (i + batch_size)))
                          starts))
    /\ match fst (for_each starts
         (fun i =>
            (record_batch (map (@json_document _ (logged B))
                               (slice documents i (i + batch_size))) ;;;
             sdk (@client_upload_documents _ (logged B) client
                    (map (@json_document _ (logged B))
                         (slice documents i (i + batch_size)))) ;;;
             ret tt)) st) with
       | Ok _ => k = List.length starts
       | Raise _ => k < List.length starts
       end.
Proof.
  revert st. induction starts as [|i starts IH]; intros st.
  - exists 0. cbn. now rewrite app_nil_r.
  - rewrite for_each_cons, upload_turn_calls.
    destruct (@client_upload_documents _ B client
                (map (@json_document _ (logged B))
                     (slice documents i (i + batch_size)))
                (fst (outside st))) as [[flags|e] w].
    + destruct (IH (mkSearch
                      (w, index_calls st
                          ++ [UploadDocuments
                                (map (@json_document _ (logged B))
                                     (slice documents i (i + batch_size)))])
                      (uploaded st
                       ++ [map (@json_document _ (logged B))
                               (slice documents i (i + batch_size))])))
        as (k & Hc & Hk).
      exists (S k). split.
      * rewrite Hc. cbn [index_calls outside snd map firstn].
        rewrite <- app_assoc. reflexivity.
      * destruct (fst (for_each starts _ _)); cbn [List.length]; lia.
    + exists 0. cbn [fst snd firstn map List.length index_calls outside].
      rewrite app_nil_r. split; [reflexivity|lia].
Qed.

Lemma batches_of_nonempty (d : document) (documents : list document) :
  0 < List.length (@batches_of _ B (d :: documents)).
Proof.
  unfold batches_of, range_step. rewrite !length_map, length_seq.
  cbn [List.length]. unfold batch_size.
  apply (Nat.div_le_lower_bound _ 1000 1); lia.
Qed.

(** [upload_documents], step by step. *)
Lemma upload_documents_calls (self : AISearchService)
      (d : document) (documents : list document)
      (st : search_run (World * list index_call)) r st' :
  @upload_documents _ (logged B) self (d :: documents) st = (r, st') ->
  match r with
  | Ok true =>
      index_calls st'
      = index_calls st
        ++ map UploadDocuments (@batches_of _ B (d :: documents))
  | Ok false =>
      exists k,
        k < List.length (@batches_of _ B (d :: documents))
        /\ index_calls st'
           = index_calls st
             ++ map UploadDocuments
                  (firstn k (@batches_of _ B (d :: documents)))
  | Raise _ => False
  end.
Proof.
  intros HR. rewrite (@upload_documents_run _ (logged B)) in HR.
  pose proof (credentials_calls self st) as Hc.
  destruct (@get_ai_search_credentials _ (logged B) self st) as [[cred|e] s1];
    cbn [fst snd] in *.
  2:{ inversion HR; subst. exists 0. split; [apply batches_of_nonempty|].
      cbn [firstn map]. now rewrite app_nil_r. }
  destruct (upload_loop_calls (mkClient (fst cred) default_index (snd cred))
              (d :: documents)
              (range_step (List.length (d :: documents)) batch_size) s1)
    as (k & Hk & Hr).
  fold (@batches_of _ B (d :: documents)) in Hk.
  destruct (for_each _ _ s1) as [[[]|e] s2]; cbn [fst snd] in *;
    inversion HR; subst.
  - rewrite Hk, Hc. f_equal. f_equal. apply firstn_all2.
    unfold batches_of. rewrite length_map. lia.
  - exists k. split.
    + unfold batches_of. now rewrite length_map.
    + now rewrite Hk, Hc.
Qed.

(** X24.  [update_search_index] with [create_search_index], [clear_index],
    the three retrievals and [upload_documents]: the calls a run makes to
    the index, by the text it returns; a run never raises.

    - "Failed to create/update search index": creation returned [False]
      and no call to the index has returned.
    - Otherwise the index was created with the credentials in force, and
      this is the first call.
    - "Failed to clear existing documents": clearing returned [False];
      besides the creation, either nothing was done or the ids were listed
      and a proper initial part of the batches of the ids listed was
      deleted.
    - Otherwise the ids were listed and every batch of the ids listed was
      deleted, before anything is retrieved or uploaded.
    - "No documents found to upload": the retrievals gave no document, and
      nothing was uploaded: the index is left cleared.
    - "Failed to upload documents to search index": the upload returned
      [False], and a proper initial part of the batches of the documents
      retrieved was uploaded.
    - The success text: it counts the documents retrieved, and every batch
      of them was uploaded, in order. *)
Theorem update_search_index_calls (self : AISearchService)
      (st : search_run (World * list index_call)) :
  exists msg,
    fst (@update_search_index _ (logged B) self st) = Ok msg
    /\ ((fst (@create_search_index _ (logged B) self st) = Ok false
         /\ msg = "Failed to create/update search index"
         /\ index_calls (snd (@update_search_index _ (logged B) self st))
            = index_calls st)
        \/ exists cred0 s0 s1,
             @get_ai_search_credentials _ (logged B) self st = (Ok cred0, s0)
             /\ @create_search_index _ (logged B) self st = (Ok true, s1)
             /\ index_calls s1
                = index_calls st
                  ++ [CreateIndex (fst cred0) (snd cred0) default_index]
             /\ ((fst (@clear_index _ (logged B) self s1) = Ok false
                  /\ msg = "Failed to clear existing documents"
                  /\ (index_calls (snd (@update_search_index _ (logged B) self st))
                      = index_calls s1
                      \/ exists cred s1' ids j,
                           @get_ai_search_credentials _ (logged B) self s1
                           = (Ok cred, s1')
                           /\ fst (@search_all_ids _ B
                                     (mkClient (fst cred) default_index (snd cred))
                                     (fst (outside s1'))) = Ok ids
                           /\ j < List.length (id_batches ids)
                           /\ index_calls
                                (snd (@update_search_index _ (logged B) self st))
                              = index_calls s1
                                ++ SearchIds
                                   :: map DeleteDocuments
                                        (firstn j (id_batches ids))))
                 \/ exists cred s1' ids s2 docs s3,
                      @get_ai_search_credentials _ (logged B) self s1
                      = (Ok cred, s1')
                      /\ fst (@search_all_ids _ B
                                (mkClient (fst cred) default_index (snd cred))
                                (fst (outside s1'))) = Ok ids
                      /\ @clear_index _ (logged B) self s1 = (Ok true, s2)
                      /\ index_calls s2
                         = index_calls s1
                           ++ SearchIds :: map DeleteDocuments (id_batches ids)
                      /\ @all_documents _ (logged B) self s2 = (Ok docs, s3)
                      /\ ((docs = []
                           /\ msg = "No documents found to upload"
                           /\ index_calls
                                (snd (@update_search_index _ (logged B) self st))
                              = index_calls s2)
                          \/ (exists d rest j,
                                docs = d :: rest
                                /\ fst (@upload_documents _ (logged B) self docs s3)
                                   = Ok false
                                /\ msg = "Failed to upload documents to search index"
                                /\ j < List.length (@batches_of _ B docs)
                                /\ index_calls
                                     (snd (@update_search_index _ (logged B)
                                             self st))
                                   = index_calls s2
                                     ++ map UploadDocuments
                                          (firstn j (@batches_of _ B docs)))
                          \/ (exists d rest,
                                docs = d :: rest
                                /\ fst (@upload_documents _ (logged B) self docs s3)
                                   = Ok true
                                /\ msg = upload_report (List.length docs)
                                /\ index_calls
                                     (snd (@update_search_index _ (logged B)
                                             self st))
                                   = index_calls s2
                                     ++ map UploadDocuments
                                          (@batches_of _ B docs))))).
Proof.
  destruct (@update_search_index _ (logged B) self st) as [r s'] eqn:E.
  cbn [fst snd].
  unfold update_search_index, update_search_index_body, try_except in E.
  unfold bind at 1 in E.
  destruct (@create_search_index _ (logged B) self st) as [rc s1] eqn:Ec.
  pose proof (create_search_index_run self st rc s1 Ec) as Hc.
  destruct rc as [[|]|e0]; [| |contradiction]; cbn [negb fst] in *.
  2:{ unfold ret in E. inversion E; subst. eexists. split; [reflexivity|].
      left. split; [reflexivity|]. split; [reflexivity|exact Hc]. }
  destruct Hc as (cred0 & s0 & Hcred0 & Hc).
  unfold bind at 1 in E.
  destruct (@clear_index _ (logged B) self s1) as [rd s2] eqn:Ed.
  pose proof (clear_index_run self s1 rd s2 Ed) as Hd.
  destruct rd as [[|]|e0]; [| |contradiction]; cbn [negb fst] in *.
  2:{ unfold ret in E. inversion E; subst. eexists. split; [reflexivity|].
      right. exists cred0, s0, s1. split; [exact Hcred0|].
      split; [reflexivity|]. split; [exact Hc|]. left.
      split; [now rewrite Ed|]. split; [reflexivity|].
      destruct Hd as [[Hd _] | (cred & s1' & ids & j & H1 & H2 & Hj & Hd)].
      - left. exact Hd.
      - right. exists cred, s1', ids, j. repeat (split; [assumption|]).
        exact Hd. }
  destruct Hd as (cred & s1' & ids & Hcred & Hids & Hd).
  unfold bind at 1 in E.
  pose proof (all_documents_calls self s2) as Ha.
  destruct (@all_documents_value _ (logged B) self s2) as (docs & s3 & Ea).
  rewrite Ea in E. rewrite Ea in Ha. cbn [snd] in Ha.
  destruct docs as [|d docs].
  { unfold ret in E. inversion E; subst. eexists. split; [reflexivity|].
    right. exists cred0, s0, s1. split; [exact Hcred0|].
    split; [reflexivity|]. split; [exact Hc|]. right.
    exists cred, s1', ids, s2, [], s'.
    split; [exact Hcred|]. split; [exact Hids|]. split; [exact Ed|].
    split; [exact Hd|]. split; [exact Ea|].
    left. split; [reflexivity|]. split; [reflexivity|exact Ha]. }
  unfold bind at 1 in E.
  destruct (@upload_documents _ (logged B) self (d :: docs) s3) as [ru s4] eqn:Eu.
  pose proof (upload_documents_calls self d docs s3 ru s4 Eu) as Hu.
  destruct ru as [[|]|e0]; [| |contradiction]; unfold ret in E;
    inversion E; subst; eexists; (split; [reflexivity|]);
    right; exists cred0, s0, s1; (split; [exact Hcred0|]);
    (split; [reflexivity|]); (split; [exact Hc|]); right;
    exists cred, s1', ids, s2, (d :: docs), s3;
    (split; [exact Hcred|]); (split; [exact Hids|]); (split; [exact Ed|]);
    (split; [exact Hd|]); (split; [exact Ea|]); right.
  - right. exists d, docs. split; [reflexivity|]. split; [now rewrite Eu|].
    split; [reflexivity|]. now rewrite Hu, Ha.
  - destruct Hu as (j & Hj & Hu). left. exists d, docs, j.
    split; [reflexivity|]. split; [now rewrite Eu|]. split; [reflexivity|].
    split; [exact Hj|]. now rewrite Hu, Ha.
Qed.

End IndexCalls.

Lemma clear_index_deletes_every_id_witness :
  exists cred s1 ids,
    @get_ai_search_credentials _ (logged rejecting_search) demo_service logged_start
    = (Ok cred, s1)
    /\ fst (@search_all_ids _ rejecting_search
              (mkClient (fst cred) default_index (snd cred)) (fst (outside s1)))
       = Ok ids
    /\ index_calls (snd (@clear_index _ (logged rejecting_search) demo_service
                           logged_start))
       = index_calls logged_start
         ++ SearchIds :: map DeleteDocuments (id_batches ids)
    /\ List.concat (id_batches ids) = ids
    /\ Forall (fun b => 1 <= List.length b <= 1000) (id_batches ids).
Proof.
  apply (clear_index_deletes_every_id rejecting_search demo_service logged_start).
  reflexivity.
Defined.

Lemma clear_index_failure_is_partial_witness :
  (index_calls (snd (@clear_index _ (logged undeletable_search) demo_service
                       logged_start))
   = index_calls logged_start
   /\ ((exists e,
          fst (@get_ai_search_credentials _ (logged undeletable_search)
                 demo_service logged_start) = Raise e)
       \/ exists cred s1 e,
            @get_ai_search_credentials _ (logged undeletable_search)
              demo_service logged_start = (Ok cred, s1)
            /\ fst (@search_all_ids _ undeletable_search
                      (mkClient (fst cred) default_index (snd cred))
                      (fst (outside s1))) = Raise e))
  \/ exists cred s1 ids k,
       @get_ai_search_credentials _ (logged undeletable_search)
         demo_service logged_start = (Ok cred, s1)
       /\ fst (@search_all_ids _ undeletable_search
                 (mkClient (fst cred) default_index (snd cred))
                 (fst (outside s1))) = Ok ids
       /\ k < List.length (id_batches ids)
       /\ index_calls (snd (@clear_index _ (logged undeletable_search) demo_service
                              logged_start))
          = index_calls logged_start
            ++ SearchIds :: map DeleteDocuments (firstn k (id_batches ids)).
Proof.
  apply (clear_index_failure_is_partial undeletable_search demo_service
           logged_start).
  reflexivity.
Defined.

(* ================================================================== *)
(** * The documents handed to the index *)

Section JsonDocuments.
Context {World : Type} `{SearchBackend World}.



Lemma json_document_keys (doc : document) :
  map fst (json_document doc) = map fst doc.
Proof. unfold json_document. rewrite map_map. reflexivity. Qed.






End JsonDocuments.

